(** * CARDS model utilities ([lightning_uq_box/models/cards.py])

    A shallow embedding of the noise scheduler and of the conditional
    guided models, together with the properties of their documented
    behaviour.

    Conventions of the embedding.
    - Python exceptions are values of [PyError]; a computation that may
      raise has type [result A].
    - Python [int]s are [Z]; tensor sizes, which torch keeps non-negative,
      are [nat] once a tensor exists.
    - Python and torch floating-point numbers are idealised as the real
      numbers [R]: rounding, overflow and NaN are outside the model. A
      float32 tensor holds the rounded values of what is computed here.
      What is stated of the entries is therefore which computation is
      made, how many entries it gives, and bounds that rounding keeps;
      a strict order between neighbouring entries, an open bound that
      an entry can round onto, or an identity between separately
      rounded values would turn on the rounding and is not stated.
    - A tensor is its shape together with its entries in row-major order. *)

From Stdlib Require Import Reals Lra Lia ZArith String Ascii Bool Arith List.
Import ListNotations.

Set Implicit Arguments.

(* ================================================================== *)
(** ** Exceptions and the error monad *)

Inductive PyError : Type :=
| AssertionError (msg : string)
| KeyError (key : string)
| ZeroDivisionError
| IndexError
| TypeError
| RuntimeError.

Inductive result (A : Type) : Type :=
| Ok (a : A)
| Raise (e : PyError).

Arguments Ok {A} a.
Arguments Raise {A} e.

Definition bind {A B : Type} (c : result A) (k : A -> result B) : result B :=
  match c with
  | Ok a => k a
  | Raise e => Raise e
  end.

Declare Scope result_scope.
Delimit Scope result_scope with result.
Notation "x <- c ;; k" := (bind c (fun x => k))
  (at level 61, c at next level, right associativity) : result_scope.
Open Scope result_scope.

Definition fmap {A B : Type} (f : A -> B) (c : result A) : result B :=
  x <- c ;; Ok (f x).

(** A list comprehension whose element expression may raise: elements are
    evaluated left to right and the first exception aborts. *)
Fixpoint mapM {A B : Type} (f : A -> result B) (l : list A) : result (list B) :=
  match l with
  | [] => Ok []
  | a :: l' => b <- f a ;; bs <- mapM f l' ;; Ok (b :: bs)
  end.

Definition is_ok {A : Type} (c : result A) : bool :=
  match c with Ok _ => true | Raise _ => false end.

(* ================================================================== *)
(** ** Python built-ins used by the module *)

Module Py.

(** [range(n)]: empty when [n <= 0]. *)
Definition range (n : Z) : list Z :=
  map Z.of_nat (seq 0 (Z.to_nat n)).

(** [[v] * k] on lists: empty when [k <= 0]. *)
Definition list_repeat {A : Type} (v : A) (k : Z) : list A :=
  repeat v (Z.to_nat k).

(** [key in l] for a list of strings. *)
Definition contains (l : list string) (key : string) : bool :=
  existsb (String.eqb key) l.

(** [repr] of a string without quotes or escapes in it, and of a list of
    such strings, as an f-string interpolates them. *)
Definition repr_str (s : string) : string := ("'" ++ s ++ "'")%string.

Definition repr_list (l : list string) : string :=
  ("[" ++ String.concat ", " (map repr_str l) ++ "]")%string.

(** [d[key]] on a dict literal, kept as the list of its items. *)
Fixpoint getitem {V : Type} (d : list (string * V)) (key : string) : result V :=
  match d with
  | [] => Raise (KeyError key)
  | (k, v) :: d' => if String.eqb key k then Ok v else getitem d' key
  end.

(** True division [a / b]. *)
Definition truediv (a b : R) : result R :=
  if Req_dec_T b 0 then Raise ZeroDivisionError else Ok (a / b)%R.

End Py.

(* ================================================================== *)
(** ** Tensors *)

Record Tensor (A : Type) : Type := mkTensor {
  shape : list nat;
  data : list A
}.

Arguments mkTensor {A} shape data.

Definition numel (s : list nat) : nat := fold_right Nat.mul 1 s.

Definition rank {A : Type} (t : Tensor A) : nat := length (shape t).

(** A tensor holds as many entries as its shape says. *)
Definition wf {A : Type} (t : Tensor A) : Prop :=
  length (data t) = numel (shape t).

(** Row-major position of a multi-index, and back. *)
Fixpoint ravel (s idx : list nat) : nat :=
  match s, idx with
  | d :: s', i :: idx' => i * numel s' + ravel s' idx'
  | _, _ => 0
  end.

Fixpoint unravel (s : list nat) (k : nat) : list nat :=
  match s with
  | [] => []
  | d :: s' => (k / numel s') mod d :: unravel s' (k mod numel s')
  end.

Definition tmap {A B : Type} (f : A -> B) (t : Tensor A) : Tensor B :=
  mkTensor (shape t) (map f (data t)).

Definition vector {A : Type} (l : list A) : Tensor A :=
  mkTensor [length l] l.

(* ================================================================== *)
(** ** The torch primitives the module calls

    Each follows the documented behaviour of the torch function of the
    same name, on real-valued entries. *)

Module Torch.

Local Open Scope R_scope.

(** [torch.linspace(start, end, steps)]: [steps] evenly spaced values
    from [start] to [end] inclusive; a negative [steps] is refused. The
    entries are the exact values; the float32 tensor torch fills holds
    their roundings, in which neighbours can coincide. *)
Definition linspace (start stop : R) (steps : Z) : result (Tensor R) :=
  if (steps <? 0)%Z then Raise RuntimeError
  else if (steps =? 1)%Z then Ok (vector [start])
  else Ok (vector (map (fun i => start + IZR i * ((stop - start) / (IZR steps - 1)))
                       (Py.range steps))).

(** [torch.ones(n)]. *)
Definition ones (n : Z) : result (Tensor R) :=
  if (n <? 0)%Z then Raise RuntimeError
  else Ok (vector (repeat 1 (Z.to_nat n))).

(** [torch.tensor(l)] on a flat list of numbers, kept as they are; torch
    rounds them to float32. *)
Definition tensor (l : list R) : Tensor R := vector l.

(** The logistic function, and [torch.sigmoid] applying it entrywise.
    The exact value lies strictly between 0 and 1; its float32 rounding
    can be 0 or 1. *)
Definition logistic (v : R) : R := 1 / (1 + exp (- v)).

Definition sigmoid (t : Tensor R) : Tensor R := tmap logistic t.

(** [torch.sqrt], entrywise and exact; squaring the float32 result
    need not give the argument back. *)
Definition sqrt (t : Tensor R) : Tensor R := tmap R_sqrt.sqrt t.

(** [t.cumprod(dim=0)]: entry [(i, rest)] is the product of the entries
    [(0, rest)] to [(i, rest)], exact; in float32 a factor next to 1 can
    be absorbed and a long product can reach 0. *)
Definition cumprod (t : Tensor R) : Tensor R :=
  let inner := numel (tl (shape t)) in
  mkTensor (shape t)
    (map (fun p =>
            fold_right Rmult 1
              (map (fun k => nth (k * inner + p mod inner)%nat (data t) 0)
                   (seq 0 (S (p / inner)))))
         (seq 0 (length (data t)))).

(** [torch.gather(input, 0, index)]: the result has the shape of [index]
    and holds, at every position, the entry of [input] whose first
    coordinate is the index stored there and whose other coordinates are
    those of the position. Indices outside [0, input.shape[0]) are
    refused, as are tensors of different ranks and an [index] wider than
    [input] in a dimension other than the first. *)
Definition gather {A : Type} (input : Tensor A) (index : Tensor Z)
  : result (Tensor A) :=
  if negb (length (shape input) =? length (shape index))%nat then Raise RuntimeError
  else if negb (forallb (fun '(di, dx) => (dx <=? di)%nat)
                        (combine (tl (shape input)) (tl (shape index))))
  then Raise RuntimeError
  else
    d <- mapM (fun '(p, i) =>
                 if ((i <? 0) || (Z.of_nat (hd 1%nat (shape input)) <=? i))%Z
                 then Raise RuntimeError
                 else match nth_error (data input)
                              (ravel (shape input)
                                 (Z.to_nat i :: tl (unravel (shape index) p))) with
                      | Some v => Ok v
                      | None => Raise RuntimeError
                      end)
              (combine (seq 0 (length (data index))) (data index)) ;;
    Ok (mkTensor (shape index) d).

(** [t.reshape] called with explicit sizes: the number of entries must
    not change. *)
Definition reshape {A : Type} (t : Tensor A) (dims : list nat)
  : result (Tensor A) :=
  if (numel dims =? numel (shape t))%nat then Ok (mkTensor dims (data t))
  else Raise RuntimeError.

(** Broadcasting, on shapes read from the last dimension backwards: two
    sizes are compatible when they are equal or one of them is 1. *)
Fixpoint broadcast_rev (r1 r2 : list nat) : result (list nat) :=
  match r1, r2 with
  | [], _ => Ok r2
  | _, [] => Ok r1
  | a :: r1', b :: r2' =>
      d <- (if (a =? b)%nat then Ok a
            else if (a =? 1)%nat then Ok b
            else if (b =? 1)%nat then Ok a
            else Raise RuntimeError) ;;
      r <- broadcast_rev r1' r2' ;;
      Ok (d :: r)
  end.

Definition broadcast_shapes (s1 s2 : list nat) : result (list nat) :=
  fmap (@rev nat) (broadcast_rev (rev s1) (rev s2)).

(** Position, in an operand of shape [s], of the entry that is broadcast
    to the multi-index [idx] of the result. *)
Definition operand_pos (s idx : list nat) : nat :=
  ravel s (map (fun '(d, i) => if (d =? 1)%nat then 0%nat else i)
             (combine s (skipn (length idx - length s) idx))).

(** An entrywise binary operator on two broadcastable tensors. *)
Definition broadcast_op {A : Type} (f : A -> A -> A) (dflt : A)
    (a b : Tensor A) : result (Tensor A) :=
  rs <- broadcast_shapes (shape a) (shape b) ;;
  Ok (mkTensor rs
        (map (fun p =>
                let idx := unravel rs p in
                f (nth (operand_pos (shape a) idx) (data a) dflt)
                  (nth (operand_pos (shape b) idx) (data b) dflt))
             (seq 0 (numel rs)))).

(** [a * b] on tensors. *)
Definition mul (a b : Tensor R) : result (Tensor R) :=
  broadcast_op Rmult 0 a b.

(** A dimension argument that may count from the end. *)
Definition normalize_dim (dim : Z) (r : nat) : result nat :=
  if ((0 <=? dim) && (dim <? Z.of_nat r))%Z then Ok (Z.to_nat dim)
  else if ((- Z.of_nat r <=? dim) && (dim <? 0))%Z
       then Ok (Z.to_nat (dim + Z.of_nat r))
       else Raise IndexError.

Definition shape_eqb (s1 s2 : list nat) : bool :=
  if list_eq_dec Nat.eq_dec s1 s2 then true else false.

(** Two shapes agree everywhere except possibly in dimension [d]. *)
Definition same_except (d : nat) (s1 s2 : list nat) : bool :=
  (length s1 =? length s2)%nat
  && shape_eqb (firstn d s1) (firstn d s2)
  && shape_eqb (skipn (S d) s1) (skipn (S d) s2).

(** [torch.cat(tensors, dim)]. [None] among the arguments is a type
    error; the tensors must have one rank, at least 1, and agree outside
    [dim]. (The exemption torch grants to tensors of shape [(0,)] is not
    modelled.) *)
Definition cat {A : Type} (tensors : list (option (Tensor A))) (dim : Z)
  : result (Tensor A) :=
  ts <- mapM (fun o => match o with
                       | Some t => Ok t
                       | None => Raise TypeError
                       end) tensors ;;
  match ts with
  | [] => Raise RuntimeError
  | t0 :: _ =>
      if existsb (fun t => (length (shape t) =? 0)%nat) ts
      then Raise RuntimeError
      else
        d <- normalize_dim dim (length (shape t0)) ;;
        if negb (forallb (fun t => same_except d (shape t0) (shape t)) ts)
        then Raise RuntimeError
        else
          Ok (mkTensor
                (firstn d (shape t0)
                 ++ [list_sum (map (fun t => nth d (shape t) 0%nat) ts)]
                 ++ skipn (S d) (shape t0))
                (flat_map
                   (fun o =>
                      flat_map
                        (fun t =>
                           let blk := numel (skipn d (shape t)) in
                           firstn blk (skipn (o * blk) (data t)))
                        ts)
                   (seq 0 (numel (firstn d (shape t0))))))
  end.

(** [t.view(-1, n)]. *)
Definition view_rows {A : Type} (t : Tensor A) (n : Z) : result (Tensor A) :=
  if (n <=? 0)%Z then Raise RuntimeError
  else if (numel (shape t) mod Z.to_nat n =? 0)%nat
       then Ok (mkTensor [(numel (shape t) / Z.to_nat n)%nat; Z.to_nat n] (data t))
       else Raise RuntimeError.

(** [nn.Softplus()] with its default [beta = 1] and [threshold = 20]:
    above the threshold the function is the identity. *)
Definition softplus (v : R) : R :=
  if Rlt_dec 20 v then v else ln (1 + exp v).

End Torch.

(* ================================================================== *)
(** ** NoiseScheduler *)

Module NoiseScheduler.

Local Open Scope R_scope.
Local Open Scope string_scope.

Definition valid_schedules : list string :=
  ["linear"; "const"; "quad"; "jsd"; "sigmoid"; "cosine"; "cosine_anneal"].

(** The attributes [__init__] stores before it calls the generators. *)
Record Self : Type := mkSelf {
  schedule : string;
  n_steps : Z;
  beta_start : R;
  beta_end : R
}.

(** The scheduler object once constructed. *)
Record t : Type := mkScheduler {
  self : Self;
  betas : Tensor R;
  betas_sqrt : Tensor R;
  alphas : Tensor R;
  alphas_cumprod : Tensor R;
  alphas_bar_sqrt : Tensor R;
  one_minus_alphas_bar_sqrt : Tensor R
}.

Definition linear_schedule (self : Self) : result (Tensor R) :=
  Torch.linspace (beta_start self) (beta_end self) (n_steps self).

Definition constant_schedule (self : Self) : result (Tensor R) :=
  o <- Torch.ones (n_steps self) ;;
  Ok (tmap (fun v => beta_end self * v) o).

(** [b ** 0.5] is the square root of a non-negative [b]; a negative
    [beta_start] or [beta_end], on which Python leaves the real numbers,
    is outside the model. *)
Definition quadratic_schedule (self : Self) : result (Tensor R) :=
  l <- Torch.linspace (sqrt (beta_start self)) (sqrt (beta_end self))
         (n_steps self) ;;
  Ok (tmap (fun v => v ^ 2) l).

Definition sigmoid_schedule (self : Self) : result (Tensor R) :=
  l <- Torch.linspace (-6) 6 (n_steps self) ;;
  let betas :=
    tmap (fun v => v + beta_start self)
      (tmap (fun v => v * (beta_end self - beta_start self))
         (Torch.sigmoid l)) in
  Ok (Torch.sigmoid betas).

Definition max_beta : R := 0.999.
Definition cosine_s : R := 0.008.

(** The element expression of [cosine_schedule]'s comprehension. *)
Definition cosine_entry (self : Self) (i : Z) : result R :=
  a <- Py.truediv (IZR (i + 1)) (IZR (n_steps self)) ;;
  a <- Py.truediv (a + cosine_s) (1 + cosine_s) ;;
  a <- Py.truediv (a * PI) 2 ;;
  b <- Py.truediv (IZR i) (IZR (n_steps self)) ;;
  b <- Py.truediv (b + cosine_s) (1 + cosine_s) ;;
  b <- Py.truediv (b * PI) 2 ;;
  q <- Py.truediv (cos a ^ 2) (cos b ^ 2) ;;
  Ok (Rmin (1 - q) max_beta).

Definition cosine_schedule (self : Self) : result (Tensor R) :=
  l <- mapM (cosine_entry self) (Py.range (n_steps self)) ;;
  Ok (Torch.tensor l).

(** The element expression of [cosine_anneal_schedule]'s comprehension. *)
Definition cosine_anneal_entry (self : Self) (t : Z) : result R :=
  q <- Py.truediv (IZR t) (IZR (n_steps self - 1)) ;;
  Ok (beta_start self
      + 0.5 * (beta_end self - beta_start self) * (1 - cos (q * PI))).

Definition cosine_anneal_schedule (self : Self) : result (Tensor R) :=
  l <- mapM (cosine_anneal_entry self) (Py.range (n_steps self)) ;;
  Ok (Torch.tensor l).

Definition invalid_schedule_message : string :=
  "Invalid schedule, please choose one of "
  ++ Py.repr_list valid_schedules ++ ".".

(** [NoiseScheduler.__init__]. The dict display evaluates its six values
    in order before it is subscripted. *)
Definition init (schedule : string) (n_steps : Z) (beta_start beta_end : R)
  : result t :=
  if negb (Py.contains valid_schedules schedule)
  then Raise (AssertionError invalid_schedule_message)
  else
    let self := mkSelf schedule n_steps beta_start beta_end in
    v_linear <- linear_schedule self ;;
    v_const <- constant_schedule self ;;
    v_quad <- quadratic_schedule self ;;
    v_sigmoid <- sigmoid_schedule self ;;
    v_cosine <- cosine_schedule self ;;
    v_cosine_anneal <- cosine_anneal_schedule self ;;
    betas <- Py.getitem
               [("linear", v_linear); ("const", v_const); ("quad", v_quad);
                ("sigmoid", v_sigmoid); ("cosine", v_cosine);
                ("cosine_anneal", v_cosine_anneal)]
               schedule ;;
    let betas_sqrt := Torch.sqrt betas in
    let alphas := tmap (fun v => 1 - v) betas in
    let alphas_cumprod := Torch.cumprod alphas in
    let alphas_bar_sqrt := Torch.sqrt alphas_cumprod in
    let one_minus_alphas_bar_sqrt :=
      Torch.sqrt (tmap (fun v => 1 - v) alphas_cumprod) in
    Ok (mkScheduler self betas betas_sqrt alphas alphas_cumprod
          alphas_bar_sqrt one_minus_alphas_bar_sqrt).

(** [get_noisy_x_at_t(input, t, x)]. [t.shape[0]] raises on a tensor of
    rank 0. *)
Definition get_noisy_x_at_t {A B : Type}
    (input : Tensor A) (t : Tensor Z) (x : Tensor B) : result (Tensor A) :=
  let shape_x := shape x in
  out <- Torch.gather input t ;;
  t0 <- match shape t with
        | d :: _ => Ok d
        | [] => Raise IndexError
        end ;;
  let reshape := t0 :: Py.list_repeat 1%nat (Z.of_nat (length shape_x) - 1) in
  Torch.reshape out reshape.

End NoiseScheduler.

(* ================================================================== *)
(** ** The layers of [torch.nn] the models are built from

    The values a freshly constructed layer holds are drawn at random by
    torch; here they are supplied by the caller, as one function per
    parameter tensor giving the value at each position. *)

Module Linear.

Local Open Scope R_scope.

Record t : Type := mk {
  in_features : nat;
  out_features : nat;
  weight : Tensor R;   (* shape [out_features, in_features] *)
  bias : Tensor R      (* shape [out_features] *)
}.

(** [nn.Linear(in_features, out_features)]; a negative size is refused
    when the parameter tensors are allocated. *)
Definition init (n_in n_out : Z) (w : nat -> nat -> R) (b : nat -> R)
  : result t :=
  if ((n_in <? 0) || (n_out <? 0))%Z then Raise RuntimeError
  else
    let i := Z.to_nat n_in in
    let o := Z.to_nat n_out in
    Ok (mk i o
          (mkTensor [o; i] (flat_map (fun j => map (w j) (seq 0 i)) (seq 0 o)))
          (vector (map b (seq 0 o)))).

Definition dot (u v : list R) : R :=
  fold_right Rplus 0 (map (fun '(a, b) => a * b) (combine u v)).

(** [x @ weight.T + bias] over the last dimension of [x]. *)
Definition forward (self : t) (x : Tensor R) : result (Tensor R) :=
  match rev (shape x) with
  | [] => Raise RuntimeError
  | last :: lead_rev =>
      if negb (last =? in_features self)%nat then Raise RuntimeError
      else
        let n := in_features self in
        Ok (mkTensor (rev lead_rev ++ [out_features self])
              (flat_map
                 (fun r =>
                    let row := firstn n (skipn (r * n) (data x)) in
                    map (fun j =>
                           dot (firstn n (skipn (j * n) (data (weight self)))) row
                           + nth j (data (bias self)) 0)
                        (seq 0 (out_features self)))
                 (seq 0 (numel (rev lead_rev)))))
  end.

End Linear.

Module Embedding.

Record t : Type := mk {
  num_embeddings : nat;
  embedding_dim : nat;
  weight : Tensor R   (* shape [num_embeddings, embedding_dim] *)
}.

(** [nn.Embedding(num_embeddings, embedding_dim)]. *)
Definition init (n d : Z) (w : nat -> nat -> R) : result t :=
  if ((n <? 0) || (d <? 0))%Z then Raise RuntimeError
  else
    let n' := Z.to_nat n in
    let d' := Z.to_nat d in
    Ok (mk n' d'
          (mkTensor [n'; d'] (flat_map (fun i => map (w i) (seq 0 d')) (seq 0 n')))).

(** The table row of every index; an index outside the table is an
    index error. *)
Definition forward (self : t) (idx : Tensor Z) : result (Tensor R) :=
  rows <- mapM (fun i =>
                  if ((i <? 0) || (Z.of_nat (num_embeddings self) <=? i))%Z
                  then Raise IndexError
                  else Ok (firstn (embedding_dim self)
                             (skipn (Z.to_nat i * embedding_dim self)
                                (data (weight self)))))
               (data idx) ;;
  Ok (mkTensor (shape idx ++ [embedding_dim self]) (concat rows)).

End Embedding.

(** [nn.BatchNorm1d(num_features, eps)]: only its configuration; what it
    computes is a parameter of the models below. *)
Module BatchNorm1d.

Record t : Type := mk {
  num_features : nat;
  eps : R
}.

Definition default_eps : R := 1e-5.

End BatchNorm1d.

(** The values of one freshly constructed [ConditionalLinear] (or, with
    the embedding part unused, of one [nn.Linear]). [embed_weight] is what
    [uniform_()] leaves in the embedding table. *)
Record LayerInit : Type := mkLayerInit {
  lin_weight : nat -> nat -> R;
  lin_bias : nat -> R;
  embed_weight : nat -> nat -> R
}.

(* ================================================================== *)
(** ** ConditionalLinear *)

Module ConditionalLinear.

Record t : Type := mk {
  n_outputs : Z;
  lin : Linear.t;
  embed : Embedding.t
}.

Definition init (n_inputs n_outputs n_steps : Z) (p : LayerInit) : result t :=
  lin <- Linear.init n_inputs n_outputs (lin_weight p) (lin_bias p) ;;
  embed <- Embedding.init n_steps n_outputs (embed_weight p) ;;
  Ok (mk n_outputs lin embed).

Definition forward (self : t) (x : Tensor R) (t : Tensor Z) : result (Tensor R) :=
  out <- Linear.forward (lin self) x ;;
  gamma <- Embedding.forward (embed self) t ;;
  gamma <- Torch.view_rows gamma (n_outputs self) ;;
  Torch.mul gamma out.

End ConditionalLinear.

(* ================================================================== *)
(** ** DiffusionSequential *)

(** The modules a [DiffusionSequential] of this file holds. An activation
    function is an entrywise map. *)
Inductive Module : Type :=
| ConditionalLinearM (m : ConditionalLinear.t)
| LinearM (m : Linear.t)
| BatchNorm1dM (m : BatchNorm1d.t)
| ActivationM (f : R -> R).

Definition SoftplusM : Module := ActivationM Torch.softplus.

Module DiffusionSequential.

Section Forward.

(** What a batch-normalisation layer computes. *)
Variable batch_norm : BatchNorm1d.t -> Tensor R -> result (Tensor R).

(** [module(input)] for a module taking one argument; a
    [ConditionalLinear] called without [t] is a type error. *)
Definition call (m : Module) (input : Tensor R) : result (Tensor R) :=
  match m with
  | ConditionalLinearM _ => Raise TypeError
  | LinearM l => Linear.forward l input
  | BatchNorm1dM bn => batch_norm bn input
  | ActivationM f => Ok (tmap f input)
  end.

Fixpoint forward (modules : list Module) (input : Tensor R) (t : Tensor Z)
  : result (Tensor R) :=
  match modules with
  | [] => Ok input
  | m :: rest =>
      input <- match m with
               | ConditionalLinearM c => ConditionalLinear.forward c input t
               | _ => call m input
               end ;;
      forward rest input t
  end.

End Forward.

End DiffusionSequential.

(* ================================================================== *)
(** ** ConditionalGuidedLinearModel *)

Module ConditionalGuidedLinearModel.

Record t : Type := mk {
  n_steps : Z;
  x_dim : Z;
  y_dim : Z;
  cat_x : bool;
  cat_y_pred : bool;
  model : list Module
}.

(** [__init__]. [params k] holds the values of the [k]-th layer created
    (the final plain layer comes last). *)
Definition init (n_steps x_dim y_dim : Z) (n_hidden : list Z) (n_outputs : Z)
    (cat_x cat_y_pred : bool) (activation_fn : Module)
    (params : nat -> LayerInit) : result t :=
  let data_dim := y_dim in
  let data_dim := if cat_x then (data_dim + x_dim)%Z else data_dim in
  let data_dim := if cat_y_pred then (data_dim + y_dim)%Z else data_dim in
  let layer_sizes := data_dim :: n_hidden in
  layers <- mapM (fun idx =>
                    c <- ConditionalLinear.init
                           (nth (idx - 1) layer_sizes 0%Z)
                           (nth idx layer_sizes 0%Z) n_steps
                           (params (idx - 1)%nat) ;;
                    Ok [ConditionalLinearM c; activation_fn])
                 (seq 1 (length layer_sizes - 1)) ;;
  let p := params (length layer_sizes - 1)%nat in
  final <- Linear.init (last layer_sizes 0%Z) n_outputs
             (lin_weight p) (lin_bias p) ;;
  Ok (mk n_steps x_dim y_dim cat_x cat_y_pred
        (concat layers ++ [LinearM final])).

Section Forward.

Variable batch_norm : BatchNorm1d.t -> Tensor R -> result (Tensor R).

Definition forward (self : t) (x : option (Tensor R)) (y_t : Tensor R)
    (y_0_hat : option (Tensor R)) (t : Tensor Z) : result (Tensor R) :=
  eps_pred <-
    (if cat_x self then
       if cat_y_pred self
       then Torch.cat [Some y_t; y_0_hat; x] 1
       else Torch.cat [Some y_t; x] 1
     else
       if cat_y_pred self
       then Torch.cat [Some y_t; y_0_hat] 1
       else Ok y_t) ;;
  DiffusionSequential.forward batch_norm (model self) eps_pred t.

End Forward.

End ConditionalGuidedLinearModel.

(* ================================================================== *)
(** ** ConditionalGuidedConvModel *)

Module ConditionalGuidedConvModel.

Section Model.

(** The encoder is any feature extractor; [encoder_forward] runs it.
    [_get_output_layer_name_and_module] lives in
    [lightning_uq_box.uq_methods.utils] and is taken as given: it
    returns the name of the encoder's last layer and that layer,
    whose [out_features] is the width of the encoder's output. *)
Variable Encoder : Type.
Variable encoder_forward : Encoder -> Tensor R -> result (Tensor R).
Variable _get_output_layer_name_and_module : Encoder -> string * Linear.t.
Variable batch_norm : BatchNorm1d.t -> Tensor R -> result (Tensor R).

Record t : Type := mk {
  encoder : Encoder;
  cond_guide_model : ConditionalGuidedLinearModel.t;
  n_steps : Z;
  norm : BatchNorm1d.t;
  connect_module : list Module
}.

Definition init (encoder : Encoder)
    (cond_guide_model : ConditionalGuidedLinearModel.t)
    (connect_init : LayerInit) : result t :=
  if negb (Bool.eqb (ConditionalGuidedLinearModel.cat_x cond_guide_model) false)
  then Raise (AssertionError "Cannot concatenate x")
  else if negb (Bool.eqb (ConditionalGuidedLinearModel.cat_y_pred cond_guide_model) false)
  then Raise (AssertionError "Cannot concatenate y")
  else
    let n_steps := ConditionalGuidedLinearModel.n_steps cond_guide_model in
    let '(_, module) := _get_output_layer_name_and_module encoder in
    let encoder_out_features := Linear.out_features module in
    if negb (Z.of_nat encoder_out_features * 2
             =? ConditionalGuidedLinearModel.y_dim cond_guide_model)%Z
    then Raise (AssertionError
      "Encoder output features * 2 has to match the y_dim of the guide model because of conditional concatenation")
    else
      let norm := BatchNorm1d.mk encoder_out_features BatchNorm1d.default_eps in
      c <- ConditionalLinear.init (Z.of_nat encoder_out_features)
             (Z.of_nat encoder_out_features) n_steps connect_init ;;
      let connect_module :=
        [ConditionalLinearM c;
         BatchNorm1dM (BatchNorm1d.mk encoder_out_features
                         (INR encoder_out_features));
         SoftplusM] in
      Ok (mk encoder cond_guide_model n_steps norm connect_module).

Definition forward (self : t) (x y_t y_0_hat : Tensor R) (t : Tensor Z)
  : result (Tensor R) :=
  x <- encoder_forward (encoder self) x ;;
  x <- batch_norm (norm self) x ;;
  x <- DiffusionSequential.forward batch_norm (connect_module self) x t ;;
  y <- Torch.cat [Some y_t; Some y_0_hat] (-1) ;;
  y <- Torch.mul x y ;;
  ConditionalGuidedLinearModel.forward batch_norm (cond_guide_model self)
    None y None t.

End Model.

End ConditionalGuidedConvModel.

(* ================================================================== *)
(** ** Vocabulary of the properties *)

Module Props.

Local Open Scope R_scope.
Local Open Scope string_scope.

(** The keys of the dict display in [NoiseScheduler.__init__]: the
    schedule kinds that have a generator. *)
Definition schedule_kinds : list string :=
  ["linear"; "const"; "quad"; "sigmoid"; "cosine"; "cosine_anneal"].

(** The derived sequences [__init__] computes from the selected betas. *)
Definition scheduler_of (self : NoiseScheduler.Self) (betas : Tensor R)
  : NoiseScheduler.t :=
  let alphas := tmap (fun v => 1 - v) betas in
  let alphas_cumprod := Torch.cumprod alphas in
  NoiseScheduler.mkScheduler self betas (Torch.sqrt betas) alphas
    alphas_cumprod (Torch.sqrt alphas_cumprod)
    (Torch.sqrt (tmap (fun v => 1 - v) alphas_cumprod)).

Definition in_unit_interval (v : R) : Prop := 0 < v < 1.

Definition nonincreasing (l : list R) : Prop :=
  forall i : nat, (S i < length l)%nat -> nth (S i) l 0 <= nth i l 0.

(** Construction succeeds with [n_steps] betas, each strictly between 0
    and 1, and a non-increasing cumulative product of the alphas. *)
Definition betas_well_behaved (schedule : string) (n_steps : Z)
    (beta_start beta_end : R) : Prop :=
  exists s : NoiseScheduler.t,
    NoiseScheduler.init schedule n_steps beta_start beta_end = Ok s
    /\ shape (NoiseScheduler.betas s) = [Z.to_nat n_steps]
    /\ length (data (NoiseScheduler.betas s)) = Z.to_nat n_steps
    /\ Forall in_unit_interval (data (NoiseScheduler.betas s))
    /\ nonincreasing (data (NoiseScheduler.alphas_cumprod s)).

Definition in_closed_unit_interval (v : R) : Prop := 0 <= v <= 1.

(** The kinds whose sequence runs from [beta_start], and the kinds whose
    sequence runs to [beta_end] (or stays at it), with nothing in the
    generator to keep the values in range. The sigmoid schedule passes
    both through the logistic function and the cosine schedule reads
    neither. *)
Definition spans_beta_start : list string :=
  ["linear"; "quad"; "cosine_anneal"].

Definition spans_beta_end : list string :=
  ["linear"; "const"; "quad"; "cosine_anneal"].

(** Construction succeeds with [n_steps] betas, each between 0 and 1
    inclusive, and a non-increasing cumulative product of the alphas. *)
Definition betas_in_range (schedule : string) (n_steps : Z)
    (beta_start beta_end : R) : Prop :=
  exists s : NoiseScheduler.t,
    NoiseScheduler.init schedule n_steps beta_start beta_end = Ok s
    /\ shape (NoiseScheduler.betas s) = [Z.to_nat n_steps]
    /\ length (data (NoiseScheduler.betas s)) = Z.to_nat n_steps
    /\ Forall in_closed_unit_interval (data (NoiseScheduler.betas s))
    /\ nonincreasing (data (NoiseScheduler.alphas_cumprod s)).

(** The product of the entries [0] to [p] of a list. *)
Definition prefix_prod (d : list R) (p : nat) : R :=
  fold_right Rmult 1 (map (fun k => nth k d 0) (seq 0 (S p))).

(** The angle of the cosine schedule at step [i] of [n]. *)
Definition cosine_angle (n i : Z) : R :=
  (IZR i / IZR n + NoiseScheduler.cosine_s)
  / (1 + NoiseScheduler.cosine_s) * PI / 2.

(** The sigmoid schedule as the specification words it: the [i]-th of
    [n] evenly spaced points of [[-6, 6]], through the logistic
    function, rescaled by [beta_end - beta_start] and shifted by
    [beta_start], then through the logistic function again. *)
Definition double_sigmoid (n : Z) (beta_start beta_end : R) (i : nat) : R :=
  Torch.logistic
    (Torch.logistic (-6 + INR i * (12 / (IZR n - 1)))
     * (beta_end - beta_start) + beta_start).

(** What the lookup promises for a sequence [input], indices [t] and a
    sample [x]: a result whose first size is the number of indices, whose
    other sizes are 1, whose rank is that of [x], and whose [j]-th entry
    is the entry of [input] at the [j]-th index. *)
Definition lookup_contract {A B : Type} (input : Tensor A) (t : Tensor Z)
    (x : Tensor B) : Prop :=
  exists out : Tensor A,
    NoiseScheduler.get_noisy_x_at_t input t x = Ok out
    /\ hd 0%nat (shape out) = length (data t)
    /\ Forall (fun d => d = 1%nat) (tl (shape out))
    /\ rank out = rank x
    /\ forall j : nat, (j < length (data t))%nat ->
         nth_error (data out) j
         = nth_error (data input) (Z.to_nat (nth j (data t) 0%Z)).

(** A batch of indices into a sequence of [m] entries. *)
Definition index_batch (m : nat) (t : Tensor Z) : Prop :=
  shape t = [length (data t)]
  /\ Forall (fun i => (0 <= i < Z.of_nat m)%Z) (data t).

(** A batch of [b] rows of some width. *)
Definition batch_of (b : nat) (t : Tensor R) : Prop :=
  exists n : nat, shape t = [b; n].

(** The components of the network input that the flags enable, in the
    order [[y_t, y_0_hat, x]]. *)
Definition enabled_components (cat_x cat_y_pred : bool)
    (x : option (Tensor R)) (y_t : Tensor R) (y_0_hat : option (Tensor R))
  : list (option (Tensor R)) :=
  [Some y_t]
  ++ (if cat_y_pred then [y_0_hat] else [])
  ++ (if cat_x then [x] else []).

(** The gated stack: for each hidden width in turn a [ConditionalLinear]
    from the previous width followed by the activation; [k] numbers the
    layers. *)
Fixpoint gated_stack (n_steps : Z) (activation_fn : Module)
    (params : nat -> LayerInit) (k : nat) (prev : Z) (hidden : list Z)
  : result (list Module) :=
  match hidden with
  | [] => Ok []
  | h :: rest =>
      c <- ConditionalLinear.init prev h n_steps (params k) ;;
      ls <- gated_stack n_steps activation_fn params (S k) h rest ;;
      Ok (ConditionalLinearM c :: activation_fn :: ls)
  end.

End Props.

(* ================================================================== *)
(** ** Facts about the error monad and the Python built-ins *)

Section ResultFacts.

Context {A B : Type}.

Lemma bind_ok_inv (c : result A) (k : A -> result B) (b : B) :
  bind c k = Ok b -> exists a, c = Ok a /\ k a = Ok b.
Proof.
  destruct c as [a | e]; simpl; intros H.
  - exists a. split; [reflexivity | exact H].
  - discriminate H.
Qed.

Lemma mapM_pure (f : A -> result B) (g : A -> B) (l : list A) :
  (forall a, In a l -> f a = Ok (g a)) -> mapM f l = Ok (map g l).
Proof.
  induction l as [| a l IH]; intros H; simpl.
  - reflexivity.
  - rewrite (H a (or_introl eq_refl)). simpl.
    rewrite IH by (intros a' Ha'; apply H; right; exact Ha').
    reflexivity.
Qed.

Lemma mapM_raise_head (f : A -> result B) (a : A) (l : list A) (e : PyError) :
  f a = Raise e -> mapM f (a :: l) = Raise e.
Proof. intros H. simpl. rewrite H. reflexivity. Qed.

End ResultFacts.

Lemma range_In (n i : Z) : In i (Py.range n) <-> (0 <= i < n)%Z.
Proof.
  unfold Py.range. rewrite in_map_iff. split.
  - intros [k [Hk Hin]]. apply in_seq in Hin. lia.
  - intros H. exists (Z.to_nat i). split; [lia | apply in_seq; lia].
Qed.

Lemma range_length (n : Z) : length (Py.range n) = Z.to_nat n.
Proof. unfold Py.range. rewrite length_map, length_seq. reflexivity. Qed.

Lemma range_nth (n : Z) (k : nat) :
  (k < Z.to_nat n)%nat -> nth k (Py.range n) 0%Z = Z.of_nat k.
Proof.
  intros H. unfold Py.range.
  change 0%Z with (Z.of_nat 0). rewrite map_nth.
  rewrite seq_nth by exact H. reflexivity.
Qed.

Lemma truediv_ok (a b : R) : b <> 0%R -> Py.truediv a b = Ok (a / b)%R.
Proof.
  intros H. unfold Py.truediv. destruct (Req_dec_T b 0) as [E | _].
  - contradiction.
  - reflexivity.
Qed.

Lemma truediv_zero (a : R) : Py.truediv a 0 = Raise ZeroDivisionError.
Proof.
  unfold Py.truediv. destruct (Req_dec_T 0 0) as [_ | N].
  - reflexivity.
  - exfalso. apply N. reflexivity.
Qed.

Lemma contains_In (l : list string) (key : string) :
  Py.contains l key = true <-> In key l.
Proof.
  unfold Py.contains. rewrite existsb_exists. split.
  - intros [x [Hin Heq]]. apply String.eqb_eq in Heq. subst x. exact Hin.
  - intros H. exists key. split; [exact H | apply String.eqb_refl].
Qed.

Lemma kinds_are_valid (schedule : string) :
  In schedule Props.schedule_kinds ->
  Py.contains NoiseScheduler.valid_schedules schedule = true.
Proof.
  intros H. apply contains_In.
  unfold Props.schedule_kinds in H. unfold NoiseScheduler.valid_schedules.
  simpl in *. intuition.
Qed.

(* ================================================================== *)
(** ** The schedule generators *)

Section Generators.

Local Open Scope R_scope.

Lemma linspace_ok (a b : R) (n : Z) :
  (2 <= n)%Z ->
  Torch.linspace a b n
  = Ok (vector (map (fun i => a + IZR i * ((b - a) / (IZR n - 1)))
                    (Py.range n))).
Proof.
  intros Hn. unfold Torch.linspace.
  destruct (n <? 0)%Z eqn:E1; [apply Z.ltb_lt in E1; lia |].
  destruct (n =? 1)%Z eqn:E2; [apply Z.eqb_eq in E2; lia |].
  reflexivity.
Qed.

Lemma linspace_single (a b : R) : Torch.linspace a b 1 = Ok (vector [a]).
Proof. reflexivity. Qed.

Lemma ones_ok (n : Z) :
  (0 <= n)%Z -> Torch.ones n = Ok (vector (repeat 1 (Z.to_nat n))).
Proof.
  intros Hn. unfold Torch.ones.
  destruct (n <? 0)%Z eqn:E; [apply Z.ltb_lt in E; lia | reflexivity].
Qed.

Lemma IZR_steps_pred_pos (n : Z) : (2 <= n)%Z -> 1 <= IZR n - 1.
Proof. intros H. apply IZR_le in H. lra. Qed.

(** An entry of [linspace] is a convex combination of its end points. *)
Lemma linspace_entry_convex (a b : R) (n i : Z) :
  (2 <= n)%Z -> (0 <= i < n)%Z ->
  exists theta, 0 <= theta <= 1
    /\ a + IZR i * ((b - a) / (IZR n - 1)) = a + theta * (b - a).
Proof.
  intros Hn Hi. pose proof (IZR_steps_pred_pos Hn) as Hd.
  exists (IZR i / (IZR n - 1)). split.
  - assert (H0 : 0 <= IZR i) by (apply IZR_le; lia).
    assert (H1 : IZR i <= IZR n - 1).
    { replace (IZR n - 1) with (IZR (n - 1)) by (rewrite minus_IZR; reflexivity).
      apply IZR_le. lia. }
    split.
    + apply Rmult_le_pos; [exact H0 |]. left. apply Rinv_0_lt_compat. lra.
    + apply Rmult_le_reg_r with (IZR n - 1); [lra |].
      unfold Rdiv. rewrite Rmult_assoc, Rinv_l by lra. lra.
  - field. lra.
Qed.

Lemma logistic_in_unit (v : R) : Props.in_unit_interval (Torch.logistic v).
Proof.
  unfold Props.in_unit_interval, Torch.logistic.
  pose proof (exp_pos (- v)) as He.
  split.
  - apply Rdiv_lt_0_compat; lra.
  - apply Rmult_lt_reg_r with (1 + exp (- v)); [lra |].
    unfold Rdiv. rewrite Rmult_assoc, Rinv_l by lra. lra.
Qed.

(** *** The cosine schedule *)

Lemma cosine_angle_range (n i : Z) :
  (0 < n)%Z -> (0 <= i <= n)%Z ->
  0 < Props.cosine_angle n i <= PI / 2.
Proof.
  intros Hn Hi. unfold Props.cosine_angle, NoiseScheduler.cosine_s.
  assert (Hn' : 0 < IZR n) by (apply IZR_lt; lia).
  assert (H0 : 0 <= IZR i) by (apply IZR_le; lia).
  assert (H1 : IZR i <= IZR n) by (apply IZR_le; lia).
  assert (Hu : 0 <= IZR i / IZR n <= 1).
  { split.
    - apply Rmult_le_pos; [exact H0 | left; apply Rinv_0_lt_compat; exact Hn'].
    - apply Rmult_le_reg_r with (IZR n); [exact Hn' |].
      unfold Rdiv. rewrite Rmult_assoc, Rinv_l by lra. lra. }
  set (u := IZR i / IZR n) in *.
  pose proof PI_RGT_0 as Hpi.
  replace ((u + 0.008) / (1 + 0.008) * PI / 2)
    with ((u + 0.008) / 1.008 * (PI / 2)) by lra.
  assert (Hv : 0 < (u + 0.008) / 1.008 <= 1) by (split; lra).
  set (v := (u + 0.008) / 1.008) in *.
  split; nra.
Qed.

Lemma cosine_angle_lt (n i j : Z) :
  (0 < n)%Z -> (i < j)%Z ->
  Props.cosine_angle n i < Props.cosine_angle n j.
Proof.
  intros Hn Hij. unfold Props.cosine_angle, NoiseScheduler.cosine_s.
  assert (Hn' : 0 < IZR n) by (apply IZR_lt; lia).
  assert (H : IZR i / IZR n < IZR j / IZR n).
  { unfold Rdiv. apply Rmult_lt_compat_r.
    - apply Rinv_0_lt_compat. exact Hn'.
    - apply IZR_lt. exact Hij. }
  pose proof PI_RGT_0 as Hpi.
  set (u := IZR i / IZR n) in *. set (w := IZR j / IZR n) in *.
  replace ((u + 0.008) / (1 + 0.008) * PI / 2)
    with ((u + 0.008) / 1.008 * (PI / 2)) by lra.
  replace ((w + 0.008) / (1 + 0.008) * PI / 2)
    with ((w + 0.008) / 1.008 * (PI / 2)) by lra.
  assert (Hv : (u + 0.008) / 1.008 < (w + 0.008) / 1.008) by lra.
  nra.
Qed.

Lemma cosine_angle_cos_pos (n i : Z) :
  (0 < n)%Z -> (0 <= i < n)%Z -> 0 < cos (Props.cosine_angle n i).
Proof.
  intros Hn Hi.
  assert (H0 : 0 < Props.cosine_angle n i)
    by (apply cosine_angle_range; lia).
  assert (H1 : Props.cosine_angle n i < Props.cosine_angle n n)
    by (apply cosine_angle_lt; lia).
  assert (H2 : Props.cosine_angle n n <= PI / 2)
    by (apply cosine_angle_range; lia).
  apply cos_gt_0; lra.
Qed.

(** The ratio of squared cosines the schedule subtracts from 1. *)
Lemma cosine_ratio_range (n i : Z) :
  (0 < n)%Z -> (0 <= i < n)%Z ->
  0 <= cos (Props.cosine_angle n (i + 1)) ^ 2
       / cos (Props.cosine_angle n i) ^ 2 < 1.
Proof.
  intros Hn Hi.
  pose proof (cosine_angle_cos_pos Hn Hi) as Hb.
  assert (Hai : 0 < Props.cosine_angle n i <= PI / 2)
    by (apply cosine_angle_range; lia).
  assert (Haj : 0 < Props.cosine_angle n (i + 1) <= PI / 2)
    by (apply cosine_angle_range; lia).
  assert (Hlt : Props.cosine_angle n i < Props.cosine_angle n (i + 1))
    by (apply cosine_angle_lt; lia).
  pose proof PI_RGT_0 as Hpi.
  assert (Ha : 0 <= cos (Props.cosine_angle n (i + 1)))
    by (apply cos_ge_0; lra).
  assert (Hdec : cos (Props.cosine_angle n (i + 1)) < cos (Props.cosine_angle n i))
    by (apply cos_decreasing_1; lra).
  set (ca := cos (Props.cosine_angle n (i + 1))) in *.
  set (cb := cos (Props.cosine_angle n i)) in *.
  assert (Hb2 : 0 < cb ^ 2) by nra.
  split.
  - apply Rmult_le_pos; [nra | left; apply Rinv_0_lt_compat; exact Hb2].
  - apply Rmult_lt_reg_r with (cb ^ 2); [exact Hb2 |].
    unfold Rdiv. rewrite Rmult_assoc, Rinv_l by lra. nra.
Qed.

End Generators.

Section GeneratorResults.

Local Open Scope R_scope.

Variable self : NoiseScheduler.Self.

Let n := NoiseScheduler.n_steps self.
Let b0 := NoiseScheduler.beta_start self.
Let b1 := NoiseScheduler.beta_end self.

Lemma linear_schedule_ok :
  (2 <= n)%Z ->
  NoiseScheduler.linear_schedule self
  = Ok (vector (map (fun i => b0 + IZR i * ((b1 - b0) / (IZR n - 1)))
                    (Py.range n))).
Proof. intros Hn. unfold NoiseScheduler.linear_schedule. apply linspace_ok. exact Hn. Qed.

Lemma constant_schedule_ok :
  (0 <= n)%Z ->
  NoiseScheduler.constant_schedule self
  = Ok (tmap (fun v => b1 * v) (vector (repeat 1 (Z.to_nat n)))).
Proof.
  intros Hn. unfold NoiseScheduler.constant_schedule.
  fold n. rewrite ones_ok by exact Hn. reflexivity.
Qed.

Lemma quadratic_schedule_ok :
  (2 <= n)%Z ->
  NoiseScheduler.quadratic_schedule self
  = Ok (tmap (fun v => v ^ 2)
          (vector (map (fun i => sqrt b0
                                 + IZR i * ((sqrt b1 - sqrt b0) / (IZR n - 1)))
                       (Py.range n)))).
Proof.
  intros Hn. unfold NoiseScheduler.quadratic_schedule.
  fold n b0 b1. rewrite linspace_ok by exact Hn. reflexivity.
Qed.

Lemma sigmoid_schedule_ok :
  (2 <= n)%Z ->
  NoiseScheduler.sigmoid_schedule self
  = Ok (Torch.sigmoid
          (tmap (fun v => v + b0)
             (tmap (fun v => v * (b1 - b0))
                (Torch.sigmoid
                   (vector (map (fun i => -6 + IZR i * ((6 - -6) / (IZR n - 1)))
                                (Py.range n))))))).
Proof.
  intros Hn. unfold NoiseScheduler.sigmoid_schedule.
  fold n b0 b1. rewrite linspace_ok by exact Hn. reflexivity.
Qed.

Lemma cosine_entry_ok (i : Z) :
  (0 < n)%Z -> (0 <= i < n)%Z ->
  NoiseScheduler.cosine_entry self i
  = Ok (Rmin (1 - cos (Props.cosine_angle n (i + 1)) ^ 2
                  / cos (Props.cosine_angle n i) ^ 2)
             NoiseScheduler.max_beta).
Proof.
  intros Hn Hi. unfold NoiseScheduler.cosine_entry. fold n.
  assert (Hn' : IZR n <> 0) by (apply not_0_IZR; lia).
  assert (Hs : 1 + NoiseScheduler.cosine_s <> 0)
    by (unfold NoiseScheduler.cosine_s; lra).
  assert (H2 : 2 <> 0) by lra.
  rewrite (truediv_ok _ Hn'). cbn [bind].
  rewrite (truediv_ok _ Hs). cbn [bind].
  rewrite (truediv_ok _ H2). cbn [bind].
  rewrite (truediv_ok _ Hn'). cbn [bind].
  rewrite (truediv_ok _ Hs). cbn [bind].
  rewrite (truediv_ok _ H2). cbn [bind].
  fold (Props.cosine_angle n (i + 1)). fold (Props.cosine_angle n i).
  pose proof (cosine_angle_cos_pos Hn Hi) as Hc.
  rewrite truediv_ok by nra.
  reflexivity.
Qed.

Lemma cosine_schedule_ok :
  (0 < n)%Z ->
  NoiseScheduler.cosine_schedule self
  = Ok (Torch.tensor
          (map (fun i => Rmin (1 - cos (Props.cosine_angle n (i + 1)) ^ 2
                                   / cos (Props.cosine_angle n i) ^ 2)
                              NoiseScheduler.max_beta)
               (Py.range n))).
Proof.
  intros Hn. unfold NoiseScheduler.cosine_schedule. fold n.
  rewrite mapM_pure
    with (g := fun i => Rmin (1 - cos (Props.cosine_angle n (i + 1)) ^ 2
                                  / cos (Props.cosine_angle n i) ^ 2)
                             NoiseScheduler.max_beta).
  - reflexivity.
  - intros i Hi. apply range_In in Hi. apply cosine_entry_ok; lia.
Qed.

Lemma cosine_anneal_schedule_ok :
  (2 <= n)%Z ->
  NoiseScheduler.cosine_anneal_schedule self
  = Ok (Torch.tensor
          (map (fun t => b0 + 0.5 * (b1 - b0)
                              * (1 - cos (IZR t / IZR (n - 1) * PI)))
               (Py.range n))).
Proof.
  intros Hn. unfold NoiseScheduler.cosine_anneal_schedule. fold n.
  rewrite mapM_pure
    with (g := fun t => b0 + 0.5 * (b1 - b0)
                             * (1 - cos (IZR t / IZR (n - 1) * PI))).
  - reflexivity.
  - intros i _. unfold NoiseScheduler.cosine_anneal_entry. fold n b0 b1.
    rewrite truediv_ok by (apply not_0_IZR; lia). reflexivity.
Qed.

(** With a single step the comprehension divides by [n_steps - 1 = 0]
    in its first element. *)
Lemma cosine_anneal_schedule_single :
  n = 1%Z ->
  NoiseScheduler.cosine_anneal_schedule self = Raise ZeroDivisionError.
Proof.
  intros Hn. unfold NoiseScheduler.cosine_anneal_schedule. fold n.
  rewrite Hn. change (Py.range 1) with [0%Z].
  rewrite (@mapM_raise_head _ _ _ _ _ ZeroDivisionError); [reflexivity |].
  unfold NoiseScheduler.cosine_anneal_entry. fold n. rewrite Hn.
  change (IZR (1 - 1)) with 0. rewrite truediv_zero. reflexivity.
Qed.

End GeneratorResults.

(* ================================================================== *)
(** ** Construction of the scheduler *)

Section Construction.

Local Open Scope R_scope.
Local Open Scope string_scope.

Variables (schedule : string) (n : Z) (b0 b1 : R).

Let self := NoiseScheduler.mkSelf schedule n b0 b1.

(** Once the six generators have returned, construction is the
    assertion followed by the dict lookup. *)
Lemma init_eager (v1 v2 v3 v4 v5 v6 : Tensor R) :
  NoiseScheduler.linear_schedule self = Ok v1 ->
  NoiseScheduler.constant_schedule self = Ok v2 ->
  NoiseScheduler.quadratic_schedule self = Ok v3 ->
  NoiseScheduler.sigmoid_schedule self = Ok v4 ->
  NoiseScheduler.cosine_schedule self = Ok v5 ->
  NoiseScheduler.cosine_anneal_schedule self = Ok v6 ->
  NoiseScheduler.init schedule n b0 b1
  = if negb (Py.contains NoiseScheduler.valid_schedules schedule)
    then Raise (AssertionError NoiseScheduler.invalid_schedule_message)
    else
      betas <- Py.getitem
                 [("linear", v1); ("const", v2); ("quad", v3);
                  ("sigmoid", v4); ("cosine", v5); ("cosine_anneal", v6)]
                 schedule ;;
      Ok (Props.scheduler_of self betas).
Proof.
  intros H1 H2 H3 H4 H5 H6. unfold NoiseScheduler.init. fold self.
  rewrite H1, H2, H3, H4, H5, H6. reflexivity.
Qed.

(** With two steps or more every generator returns. *)
Lemma init_steps :
  (2 <= n)%Z ->
  exists v1 v2 v3 v4 v5 v6 : Tensor R,
    NoiseScheduler.linear_schedule self = Ok v1
    /\ NoiseScheduler.constant_schedule self = Ok v2
    /\ NoiseScheduler.quadratic_schedule self = Ok v3
    /\ NoiseScheduler.sigmoid_schedule self = Ok v4
    /\ NoiseScheduler.cosine_schedule self = Ok v5
    /\ NoiseScheduler.cosine_anneal_schedule self = Ok v6
    /\ NoiseScheduler.init schedule n b0 b1
       = if negb (Py.contains NoiseScheduler.valid_schedules schedule)
         then Raise (AssertionError NoiseScheduler.invalid_schedule_message)
         else
           betas <- Py.getitem
                      [("linear", v1); ("const", v2); ("quad", v3);
                       ("sigmoid", v4); ("cosine", v5); ("cosine_anneal", v6)]
                      schedule ;;
           Ok (Props.scheduler_of self betas).
Proof.
  intros Hn.
  pose proof (@linear_schedule_ok self Hn) as H1.
  pose proof (@constant_schedule_ok self ltac:(simpl; lia)) as H2.
  pose proof (@quadratic_schedule_ok self Hn) as H3.
  pose proof (@sigmoid_schedule_ok self Hn) as H4.
  pose proof (@cosine_schedule_ok self ltac:(simpl; lia)) as H5.
  pose proof (@cosine_anneal_schedule_ok self Hn) as H6.
  do 6 eexists.
  repeat (split; [eassumption |]).
  apply init_eager; assumption.
Qed.

(** With a single step the last generator raises, whatever was asked. *)
Lemma init_single_step :
  n = 1%Z ->
  Py.contains NoiseScheduler.valid_schedules schedule = true ->
  NoiseScheduler.init schedule n b0 b1 = Raise ZeroDivisionError.
Proof.
  intros Hn Hv. unfold NoiseScheduler.init. fold self. rewrite Hv.
  cbn [negb].
  assert (H1 : NoiseScheduler.linear_schedule self = Ok (vector [b0])).
  { unfold NoiseScheduler.linear_schedule. simpl. rewrite Hn. reflexivity. }
  assert (H2 : exists v, NoiseScheduler.constant_schedule self = Ok v).
  { eexists. apply constant_schedule_ok. simpl. lia. }
  assert (H3 : exists v, NoiseScheduler.quadratic_schedule self = Ok v).
  { unfold NoiseScheduler.quadratic_schedule. simpl NoiseScheduler.n_steps.
    rewrite Hn. rewrite linspace_single. eexists. reflexivity. }
  assert (H4 : exists v, NoiseScheduler.sigmoid_schedule self = Ok v).
  { unfold NoiseScheduler.sigmoid_schedule. simpl NoiseScheduler.n_steps.
    rewrite Hn. rewrite linspace_single. eexists. reflexivity. }
  assert (H5 : exists v, NoiseScheduler.cosine_schedule self = Ok v).
  { eexists. apply cosine_schedule_ok. simpl. lia. }
  destruct H2 as [v2 H2], H3 as [v3 H3], H4 as [v4 H4], H5 as [v5 H5].
  rewrite H1, H2, H3, H4, H5. cbn [bind].
  rewrite (@cosine_anneal_schedule_single self Hn). reflexivity.
Qed.

End Construction.

(* ================================================================== *)
(** ** Entries of the generated sequences *)

Section Entries.

Local Open Scope R_scope.

Lemma nth_map_range (f : Z -> R) (n : Z) (k : nat) :
  (k < Z.to_nat n)%nat -> nth k (map f (Py.range n)) 0 = f (Z.of_nat k).
Proof.
  intros H.
  rewrite nth_indep with (d' := f 0%Z) by (rewrite length_map, range_length; exact H).
  rewrite map_nth. rewrite range_nth by exact H. reflexivity.
Qed.

Lemma Forall_map_range (P : R -> Prop) (f : Z -> R) (n : Z) :
  (forall i, (0 <= i < n)%Z -> P (f i)) -> Forall P (map f (Py.range n)).
Proof.
  intros H. apply Forall_forall. intros v Hv.
  apply in_map_iff in Hv. destruct Hv as [i [<- Hi]].
  apply H. apply range_In. exact Hi.
Qed.

Lemma fold_right_Rmult_acc (a : R) (l : list R) :
  fold_right Rmult a l = fold_right Rmult 1 l * a.
Proof.
  induction l as [| x l IH]; simpl.
  - lra.
  - rewrite IH. ring.
Qed.

Lemma prefix_prod_S (d : list R) (p : nat) :
  Props.prefix_prod d (S p) = Props.prefix_prod d p * nth (S p) d 0.
Proof.
  unfold Props.prefix_prod. rewrite (seq_S (S p)), map_app, fold_right_app.
  rewrite fold_right_Rmult_acc. f_equal. simpl. ring.
Qed.

Lemma prefix_prod_nonneg (d : list R) (p : nat) :
  (p < length d)%nat -> Forall Props.in_closed_unit_interval d ->
  0 <= Props.prefix_prod d p.
Proof.
  intros Hp Hd. rewrite Forall_forall in Hd.
  induction p as [| p IH].
  - unfold Props.prefix_prod. simpl.
    assert (H : Props.in_closed_unit_interval (nth 0 d 0))
      by (apply Hd, nth_In; exact Hp).
    unfold Props.in_closed_unit_interval in H. lra.
  - rewrite prefix_prod_S.
    assert (H : Props.in_closed_unit_interval (nth (S p) d 0))
      by (apply Hd, nth_In; exact Hp).
    unfold Props.in_closed_unit_interval in H.
    apply Rmult_le_pos; [apply IH; lia | lra].
Qed.

Lemma cumprod_vector_nth (t : Tensor R) (m p : nat) :
  shape t = [m] -> (p < length (data t))%nat ->
  nth p (data (Torch.cumprod t)) 0 = Props.prefix_prod (data t) p.
Proof.
  intros Hs Hp. unfold Torch.cumprod. rewrite Hs.
  change (numel (tl [m])) with 1%nat. cbn [data].
  set (g := fun q : nat => fold_right Rmult 1
              (map (fun k : nat => nth (k * 1 + q mod 1) (data t) 0)
                   (seq 0 (S (q / 1))))).
  rewrite nth_indep with (d' := g 0%nat) by (rewrite length_map, length_seq; exact Hp).
  rewrite map_nth. rewrite seq_nth by exact Hp. rewrite Nat.add_0_l.
  unfold g, Props.prefix_prod. rewrite Nat.div_1_r.
  f_equal. apply map_ext. intros k.
  rewrite Nat.mod_1_r, Nat.mul_1_r, Nat.add_0_r. reflexivity.
Qed.

Lemma cumprod_length (t : Tensor R) :
  length (data (Torch.cumprod t)) = length (data t).
Proof. unfold Torch.cumprod. simpl. rewrite length_map, length_seq. reflexivity. Qed.

(** Betas between 0 and 1 give alphas there too, and a cumulative
    product that does not increase: each step multiplies a non-negative
    product by a factor that is at most 1. *)
Lemma alphas_cumprod_nonincreasing (betas : Tensor R) (m : nat) :
  shape betas = [m] ->
  Forall Props.in_closed_unit_interval (data betas) ->
  Props.nonincreasing
    (data (Torch.cumprod (tmap (fun v => 1 - v) betas))).
Proof.
  intros Hs Hb i Hi. rewrite cumprod_length in Hi.
  set (alphas := tmap (fun v => 1 - v) betas) in *.
  assert (Ha : Forall Props.in_closed_unit_interval (data alphas)).
  { unfold alphas. simpl. apply Forall_map.
    eapply Forall_impl; [| exact Hb].
    unfold Props.in_closed_unit_interval. intros v Hv. lra. }
  assert (Hsa : shape alphas = [m]) by exact Hs.
  rewrite (cumprod_vector_nth _ Hsa) by exact Hi.
  rewrite (cumprod_vector_nth _ Hsa) by lia.
  rewrite prefix_prod_S.
  pose proof (@prefix_prod_nonneg (data alphas) i ltac:(lia) Ha) as Hpos.
  assert (H : Props.in_closed_unit_interval (nth (S i) (data alphas) 0)).
  { rewrite Forall_forall in Ha. apply Ha, nth_In. exact Hi. }
  unfold Props.in_closed_unit_interval in H. nra.
Qed.

End Entries.

(* ================================================================== *)
(** ** Properties of the noise schedules *)

Section ScheduleProperties.

Local Open Scope R_scope.
Local Open Scope string_scope.

Lemma nth_map_lt {A : Type} (f : A -> R) (l : list A) (d : A) (i : nat) :
  (i < length l)%nat -> nth i (map f l) 0 = f (nth i l d).
Proof.
  intros H.
  rewrite nth_indep with (d' := f d) by (rewrite length_map; exact H).
  apply map_nth.
Qed.

(** [linspace] for any non-negative number of steps. *)
Lemma linspace_entries (a b : R) (n : Z) :
  (0 <= n)%Z ->
  exists t : Tensor R,
    Torch.linspace a b n = Ok t
    /\ shape t = [Z.to_nat n]
    /\ length (data t) = Z.to_nat n
    /\ forall i : nat, (i < Z.to_nat n)%nat ->
         nth i (data t) 0 = a + INR i * ((b - a) / (IZR n - 1)).
Proof.
  intros Hn. unfold Torch.linspace.
  destruct (n <? 0)%Z eqn:E1; [apply Z.ltb_lt in E1; lia |].
  destruct (n =? 1)%Z eqn:E2.
  - apply Z.eqb_eq in E2. subst n. eexists. split; [reflexivity |].
    repeat split.
    intros i Hi. change (Z.to_nat 1) with 1%nat in Hi.
    assert (i = 0%nat) by lia. subst i. simpl. lra.
  - eexists. split; [reflexivity |].
    unfold vector. cbn [shape data].
    rewrite length_map, range_length. repeat split.
    intros i Hi. rewrite nth_map_range by exact Hi.
    rewrite <- INR_IZR_INZ. reflexivity.
Qed.

(** C7. The sigmoid schedule has [n_steps] entries, and its [i]-th entry
    is the logistic function applied to the rescaled and shifted
    logistic of the [i]-th of [n_steps] evenly spaced points of
    [[-6, 6]]. *)
Theorem sigmoid_schedule_double_sigmoid
    (schedule : string) (n : Z) (b0 b1 : R) :
  (0 <= n)%Z ->
  exists t : Tensor R,
    NoiseScheduler.sigmoid_schedule (NoiseScheduler.mkSelf schedule n b0 b1)
    = Ok t
    /\ shape t = [Z.to_nat n]
    /\ length (data t) = Z.to_nat n
    /\ forall i : nat, (i < Z.to_nat n)%nat ->
         nth i (data t) 0 = Props.double_sigmoid n b0 b1 i.
Proof.
  intros Hn. unfold NoiseScheduler.sigmoid_schedule.
  cbn [NoiseScheduler.n_steps NoiseScheduler.beta_start NoiseScheduler.beta_end].
  destruct (linspace_entries (-6) 6 Hn) as (l & Hl & Hs & Hlen & Hnth).
  rewrite Hl. cbn [bind]. eexists. split; [reflexivity |].
  unfold Torch.sigmoid, tmap. cbn [shape data].
  split; [exact Hs |]. split; [rewrite !length_map; exact Hlen |].
  intros i Hi. unfold Props.double_sigmoid.
  rewrite (nth_map_lt _ _ 0) by (rewrite !length_map; lia).
  rewrite (nth_map_lt _ _ 0) by (rewrite !length_map; lia).
  rewrite (nth_map_lt _ _ 0) by (rewrite !length_map; lia).
  rewrite (nth_map_lt _ _ 0) by lia.
  rewrite Hnth by exact Hi.
  replace (6 - -6) with 12 by lra. reflexivity.
Qed.

Lemma sigmoid_schedule_double_sigmoid_witness :
  (0 <= 3)%Z
  /\ exists t : Tensor R,
       NoiseScheduler.sigmoid_schedule
         (NoiseScheduler.mkSelf "sigmoid" 3 (1 / 100000) (1 / 100)) = Ok t
       /\ shape t = [Z.to_nat 3]
       /\ length (data t) = Z.to_nat 3
       /\ forall i : nat, (i < Z.to_nat 3)%nat ->
            nth i (data t) 0
            = Props.double_sigmoid 3 (1 / 100000) (1 / 100) i.
Proof.
  split; [lia |].
  apply (@sigmoid_schedule_double_sigmoid "sigmoid" 3 (1 / 100000) (1 / 100)).
  lia.
Defined.

End ScheduleProperties.

Section BetaRange.

Local Open Scope R_scope.
Local Open Scope string_scope.

Variables (n : Z) (b0 b1 : R).

Hypothesis Hn : (2 <= n)%Z.

Lemma convex_in_closed_unit (a b theta : R) :
  0 <= a <= 1 -> 0 <= b <= 1 -> 0 <= theta <= 1 ->
  Props.in_closed_unit_interval (a + theta * (b - a)).
Proof.
  unfold Props.in_closed_unit_interval. intros Ha Hb Ht.
  assert (H1 : 0 <= theta * b) by nra.
  assert (H2 : 0 <= (1 - theta) * a) by nra.
  assert (H3 : 0 <= theta * (1 - b)) by nra.
  assert (H4 : 0 <= (1 - theta) * (1 - a)) by nra.
  split; nra.
Qed.

Lemma linear_in_range :
  0 <= b0 <= 1 -> 0 <= b1 <= 1 ->
  Forall Props.in_closed_unit_interval
    (map (fun i => b0 + IZR i * ((b1 - b0) / (IZR n - 1))) (Py.range n)).
Proof.
  intros Hb0 Hb1. apply Forall_map_range. intros i Hi.
  destruct (@linspace_entry_convex b0 b1 n i Hn Hi) as (theta & Ht & ->).
  apply convex_in_closed_unit; assumption.
Qed.

Lemma constant_in_range :
  0 <= b1 <= 1 ->
  Forall Props.in_closed_unit_interval
    (map (fun v => b1 * v) (repeat 1 (Z.to_nat n))).
Proof.
  intros Hb1. apply Forall_map. apply Forall_forall. intros v Hv.
  apply repeat_spec in Hv. subst v.
  unfold Props.in_closed_unit_interval. lra.
Qed.

Lemma sqrt_in_closed_unit (v : R) : 0 <= v <= 1 -> 0 <= sqrt v <= 1.
Proof.
  intros [H0 H1]. split.
  - apply sqrt_pos.
  - rewrite <- sqrt_1. apply sqrt_le_1_alt. exact H1.
Qed.

Lemma quadratic_in_range :
  0 <= b0 <= 1 -> 0 <= b1 <= 1 ->
  Forall Props.in_closed_unit_interval
    (map (fun v => v ^ 2)
       (map (fun i => sqrt b0 + IZR i * ((sqrt b1 - sqrt b0) / (IZR n - 1)))
          (Py.range n))).
Proof.
  intros Hb0 Hb1. apply Forall_map. apply Forall_map_range. intros i Hi.
  destruct (@linspace_entry_convex (sqrt b0) (sqrt b1) n i Hn Hi)
    as (theta & Ht & ->).
  pose proof (@convex_in_closed_unit (sqrt b0) (sqrt b1) theta
                (sqrt_in_closed_unit Hb0) (sqrt_in_closed_unit Hb1) Ht) as H.
  unfold Props.in_closed_unit_interval in *. nra.
Qed.

Lemma sigmoid_in_range (l : list R) :
  Forall Props.in_closed_unit_interval (map Torch.logistic l).
Proof.
  apply Forall_map. apply Forall_forall. intros v _.
  pose proof (logistic_in_unit v) as H.
  unfold Props.in_unit_interval in H.
  unfold Props.in_closed_unit_interval. lra.
Qed.

Lemma cosine_in_range :
  Forall Props.in_closed_unit_interval
    (map (fun i => Rmin (1 - cos (Props.cosine_angle n (i + 1)) ^ 2
                             / cos (Props.cosine_angle n i) ^ 2)
                        NoiseScheduler.max_beta)
         (Py.range n)).
Proof.
  apply Forall_map_range. intros i Hi.
  pose proof (@cosine_ratio_range n i ltac:(lia) Hi) as Hq.
  unfold Props.in_closed_unit_interval, NoiseScheduler.max_beta.
  split.
  - apply Rmin_glb; lra.
  - eapply Rle_trans; [apply Rmin_r | lra].
Qed.

Lemma cosine_anneal_in_range :
  0 <= b0 <= 1 -> 0 <= b1 <= 1 ->
  Forall Props.in_closed_unit_interval
    (map (fun t => b0 + 0.5 * (b1 - b0)
                        * (1 - cos (IZR t / IZR (n - 1) * PI)))
         (Py.range n)).
Proof.
  intros Hb0 Hb1. apply Forall_map_range. intros i _.
  pose proof (COS_bound (IZR i / IZR (n - 1) * PI)) as Hc.
  set (c := cos (IZR i / IZR (n - 1) * PI)) in *.
  replace (b0 + 0.5 * (b1 - b0) * (1 - c))
    with (b0 + ((1 - c) / 2) * (b1 - b0)) by lra.
  apply convex_in_closed_unit; try assumption. lra.
Qed.

End BetaRange.

Section BetaProperties.

Local Open Scope R_scope.
Local Open Scope string_scope.

Lemma in_range_intro (schedule : string) (n : Z) (b0 b1 : R)
    (betas : Tensor R) :
  NoiseScheduler.init schedule n b0 b1
  = Ok (Props.scheduler_of (NoiseScheduler.mkSelf schedule n b0 b1) betas) ->
  shape betas = [Z.to_nat n] ->
  length (data betas) = Z.to_nat n ->
  Forall Props.in_closed_unit_interval (data betas) ->
  Props.betas_in_range schedule n b0 b1.
Proof.
  intros Hinit Hs Hl Hall. eexists. split; [exact Hinit |].
  cbn [Props.scheduler_of NoiseScheduler.betas NoiseScheduler.alphas_cumprod].
  repeat split; try assumption.
  eapply alphas_cumprod_nonincreasing; eassumption.
Qed.

(** One kind of schedule: [v] is the sequence its generator returned,
    already rewritten to its closed form; what is left is the range of its
    entries. *)
Ltac kind_case v Hinit :=
  apply in_range_intro with (betas := v);
  [ rewrite Hinit; reflexivity
  | subst v; unfold Torch.sigmoid, Torch.tensor, tmap, vector; cbn [shape];
    rewrite ?length_map, ?repeat_length, ?range_length; reflexivity
  | subst v; unfold Torch.sigmoid, Torch.tensor, tmap, vector; cbn [data];
    rewrite ?length_map, ?repeat_length, ?range_length; reflexivity
  | subst v ].

(** C3, as amended. For each of the six schedule kinds and two steps or
    more, construction yields [n_steps] betas, each between 0 and 1
    inclusive, and a non-increasing cumulative product of the alphas,
    provided the end values the kind puts into its sequence lie between
    0 and 1 inclusive: [beta_start] and [beta_end] for the linear,
    quadratic and cosine annealing schedules, [beta_end] for the
    constant one, nothing for the sigmoid and cosine schedules. The
    bounds are inclusive because the end values themselves are entries,
    and because rounding can carry an entry onto a bound. *)
Theorem betas_in_closed_unit_interval (schedule : string) (n : Z) (b0 b1 : R) :
  In schedule Props.schedule_kinds ->
  (2 <= n)%Z ->
  (In schedule Props.spans_beta_start -> 0 <= b0 <= 1) ->
  (In schedule Props.spans_beta_end -> 0 <= b1 <= 1) ->
  Props.betas_in_range schedule n b0 b1.
Proof.
  intros Hk Hn Hb0 Hb1.
  destruct (@init_steps schedule n b0 b1 Hn)
    as (v1 & v2 & v3 & v4 & v5 & v6 & H1 & H2 & H3 & H4 & H5 & H6 & Hinit).
  rewrite linear_schedule_ok in H1 by exact Hn.
  rewrite constant_schedule_ok in H2 by (simpl; lia).
  rewrite quadratic_schedule_ok in H3 by exact Hn.
  rewrite sigmoid_schedule_ok in H4 by exact Hn.
  rewrite cosine_schedule_ok in H5 by (simpl; lia).
  rewrite cosine_anneal_schedule_ok in H6 by exact Hn.
  injection H1 as H1. injection H2 as H2. injection H3 as H3.
  injection H4 as H4. injection H5 as H5. injection H6 as H6.
  cbn [NoiseScheduler.n_steps NoiseScheduler.beta_start NoiseScheduler.beta_end]
    in H1, H2, H3, H4, H5, H6.
  unfold Props.schedule_kinds in Hk. simpl in Hk.
  unfold Props.spans_beta_start in Hb0. unfold Props.spans_beta_end in Hb1.
  destruct Hk as [Hk | [Hk | [Hk | [Hk | [Hk | [Hk | []]]]]]]; subst schedule.
  - kind_case v1 Hinit.
    apply linear_in_range; [exact Hn | apply Hb0 | apply Hb1]; simpl; tauto.
  - kind_case v2 Hinit. apply constant_in_range. apply Hb1. simpl. tauto.
  - kind_case v3 Hinit.
    apply quadratic_in_range; [exact Hn | apply Hb0 | apply Hb1]; simpl; tauto.
  - kind_case v4 Hinit. unfold Torch.sigmoid at 1. unfold tmap at 1. cbn [data].
    apply sigmoid_in_range.
  - kind_case v5 Hinit. apply cosine_in_range. exact Hn.
  - kind_case v6 Hinit.
    apply cosine_anneal_in_range; [apply Hb0 | apply Hb1]; simpl; tauto.
Qed.

Lemma betas_in_closed_unit_interval_witness :
  In "linear" Props.schedule_kinds
  /\ (2 <= 1000)%Z
  /\ (In "linear" Props.spans_beta_start -> 0 <= 1 / 100000 <= 1)
  /\ (In "linear" Props.spans_beta_end -> 0 <= 1 / 100 <= 1)
  /\ Props.betas_in_range "linear" 1000 (1 / 100000) (1 / 100).
Proof.
  assert (Hk : In "linear" Props.schedule_kinds) by (simpl; tauto).
  assert (Hn : (2 <= 1000)%Z) by lia.
  assert (H0 : In "linear" Props.spans_beta_start -> 0 <= 1 / 100000 <= 1)
    by (intros _; lra).
  assert (H1 : In "linear" Props.spans_beta_end -> 0 <= 1 / 100 <= 1)
    by (intros _; lra).
  split; [exact Hk |]. split; [exact Hn |]. split; [exact H0 |].
  split; [exact H1 |].
  exact (@betas_in_closed_unit_interval "linear" 1000 (1 / 100000) (1 / 100)
           Hk Hn H0 H1).
Defined.

(** C3 fails as stated: nothing keeps [beta_start] and [beta_end] inside
    the unit interval, and the linear schedule from 2 to 3 in two steps
    has the betas 2 and 3. *)
Lemma betas_outside_unit_interval :
  In "linear" Props.schedule_kinds
  /\ (2 <= 2)%Z
  /\ ~ Props.betas_well_behaved "linear" 2 2 3.
Proof.
  split; [simpl; tauto |]. split; [lia |].
  intros (s & Hinit & _ & _ & Hall & _).
  destruct (@init_steps "linear" 2 2 3 ltac:(lia))
    as (v1 & v2 & v3 & v4 & v5 & v6 & H1 & _ & _ & _ & _ & _ & Hinit').
  rewrite linear_schedule_ok in H1 by (simpl; lia).
  injection H1 as H1.
  rewrite Hinit' in Hinit. cbn in Hinit. injection Hinit as Hs. subst s.
  cbn [Props.scheduler_of NoiseScheduler.betas] in Hall. subst v1.
  cbn [NoiseScheduler.n_steps NoiseScheduler.beta_start NoiseScheduler.beta_end]
    in Hall.
  change (Py.range 2) with [0%Z; 1%Z] in Hall.
  unfold vector in Hall. cbn [data map] in Hall.
  inversion Hall as [| x l Hx _]. unfold Props.in_unit_interval in Hx. lra.
Qed.

End BetaProperties.

Section ConstructionFailures.

Local Open Scope R_scope.
Local Open Scope string_scope.

(** C1, at the input where the code departs from it. ["jsd"] is not one
    of the six kinds that have a generator, yet it passes the assertion
    because [valid_schedules] lists it; construction then fails in the
    dict lookup, with a key error that names no valid kind. *)
Theorem init_jsd_key_error (b0 b1 : R) :
  ~ In "jsd" Props.schedule_kinds
  /\ Py.contains NoiseScheduler.valid_schedules "jsd" = true
  /\ NoiseScheduler.init "jsd" 1000 b0 b1 = Raise (KeyError "jsd").
Proof.
  split; [| split].
  - simpl. intros H.
    repeat (destruct H as [H | H]; [discriminate H |]). exact H.
  - reflexivity.
  - destruct (@init_steps "jsd" 1000 b0 b1 ltac:(lia))
      as (v1 & v2 & v3 & v4 & v5 & v6 & _ & _ & _ & _ & _ & _ & Hinit).
    rewrite Hinit. reflexivity.
Qed.

(** A schedule outside [valid_schedules] fails the assertion, with the
    message that lists [valid_schedules]. *)
Lemma init_invalid_schedule (schedule : string) (n : Z) (b0 b1 : R) :
  ~ In schedule NoiseScheduler.valid_schedules ->
  NoiseScheduler.init schedule n b0 b1
  = Raise (AssertionError NoiseScheduler.invalid_schedule_message).
Proof.
  intros H. unfold NoiseScheduler.init.
  destruct (Py.contains NoiseScheduler.valid_schedules schedule) eqn:E.
  - exfalso. apply H. apply contains_In. exact E.
  - reflexivity.
Qed.

(** C10. With [n_steps = 1] construction raises for every schedule: a
    division by zero for each of the six kinds, since all six generators
    run before one is selected and the cosine annealing one divides by
    [n_steps - 1]; the linear and constant generators on their own
    return. *)
Theorem init_single_step_fails (b0 b1 : R) :
  Forall (fun schedule =>
            NoiseScheduler.init schedule 1 b0 b1 = Raise ZeroDivisionError)
         Props.schedule_kinds
  /\ (forall schedule, is_ok (NoiseScheduler.init schedule 1 b0 b1) = false)
  /\ NoiseScheduler.linear_schedule (NoiseScheduler.mkSelf "linear" 1 b0 b1)
     = Ok (vector [b0])
  /\ NoiseScheduler.constant_schedule (NoiseScheduler.mkSelf "const" 1 b0 b1)
     = Ok (vector [b1 * 1])
  /\ NoiseScheduler.cosine_anneal_schedule
       (NoiseScheduler.mkSelf "linear" 1 b0 b1)
     = Raise ZeroDivisionError.
Proof.
  split; [| split; [| split; [| split]]].
  - apply Forall_forall. intros schedule Hk.
    apply init_single_step; [reflexivity | apply kinds_are_valid; exact Hk].
  - intros schedule.
    destruct (Py.contains NoiseScheduler.valid_schedules schedule) eqn:E.
    + rewrite init_single_step by (reflexivity || exact E). reflexivity.
    + rewrite init_invalid_schedule; [reflexivity |].
      intros Hin. apply contains_In in Hin. congruence.
  - reflexivity.
  - reflexivity.
  - apply cosine_anneal_schedule_single. reflexivity.
Qed.

End ConstructionFailures.

(* ================================================================== *)
(** ** The assertion of [NoiseScheduler.__init__] *)

Section InitAssertion.

Local Open Scope R_scope.
Local Open Scope string_scope.

Lemma bind_raise_inv {A B : Type} (c : result A) (k : A -> result B)
    (e : PyError) :
  bind c k = Raise e -> c = Raise e \/ exists a, c = Ok a /\ k a = Raise e.
Proof.
  destruct c as [a | e']; simpl; intros H.
  - right. exists a. split; [reflexivity | exact H].
  - left. injection H as <-. reflexivity.
Qed.

Lemma mapM_raise_inv {A B : Type} (f : A -> result B) (l : list A)
    (e : PyError) :
  mapM f l = Raise e -> exists a, In a l /\ f a = Raise e.
Proof.
  induction l as [| a l IH]; simpl; intros H.
  - discriminate H.
  - apply bind_raise_inv in H. destruct H as [H | (b & _ & H)].
    + exists a. split; [left; reflexivity | exact H].
    + apply bind_raise_inv in H. destruct H as [H | (bs & _ & H)].
      * destruct (IH H) as (a' & Hin & Ha'). exists a'.
        split; [right; exact Hin | exact Ha'].
      * discriminate H.
Qed.

Lemma linspace_raise (a b : R) (n : Z) (e : PyError) :
  Torch.linspace a b n = Raise e -> e = RuntimeError.
Proof.
  unfold Torch.linspace. destruct (n <? 0)%Z; [| destruct (n =? 1)%Z];
    intros H; [injection H as <-; reflexivity | discriminate H | discriminate H].
Qed.

Lemma ones_raise (n : Z) (e : PyError) :
  Torch.ones n = Raise e -> e = RuntimeError.
Proof.
  unfold Torch.ones. destruct (n <? 0)%Z; intros H;
    [injection H as <-; reflexivity | discriminate H].
Qed.

Lemma truediv_raise (a b : R) (e : PyError) :
  Py.truediv a b = Raise e -> e = ZeroDivisionError.
Proof.
  unfold Py.truediv. destruct (Req_dec_T b 0); intros H;
    [injection H as <-; reflexivity | discriminate H].
Qed.

Lemma getitem_raise {V : Type} (d : list (string * V)) (key : string)
    (e : PyError) :
  Py.getitem d key = Raise e -> e = KeyError key.
Proof.
  induction d as [| [k v] d IH]; simpl; intros H.
  - injection H as <-. reflexivity.
  - destruct (String.eqb key k); [discriminate H | apply IH; exact H].
Qed.


Lemma generators_raise (self : NoiseScheduler.Self) (e : PyError) :
  NoiseScheduler.linear_schedule self = Raise e
  \/ NoiseScheduler.constant_schedule self = Raise e
  \/ NoiseScheduler.quadratic_schedule self = Raise e
  \/ NoiseScheduler.sigmoid_schedule self = Raise e
  \/ NoiseScheduler.cosine_schedule self = Raise e
  \/ NoiseScheduler.cosine_anneal_schedule self = Raise e ->
  e = RuntimeError \/ e = ZeroDivisionError.
Proof.
  intros [H | [H | [H | [H | [H | H]]]]].
  - left. eapply linspace_raise. exact H.
  - unfold NoiseScheduler.constant_schedule in H.
    apply bind_raise_inv in H. destruct H as [H | (o & _ & H)];
      [left; eapply ones_raise; exact H | discriminate H].
  - unfold NoiseScheduler.quadratic_schedule in H.
    apply bind_raise_inv in H. destruct H as [H | (o & _ & H)];
      [left; eapply linspace_raise; exact H | discriminate H].
  - unfold NoiseScheduler.sigmoid_schedule in H.
    apply bind_raise_inv in H. destruct H as [H | (o & _ & H)];
      [left; eapply linspace_raise; exact H | discriminate H].
  - right. unfold NoiseScheduler.cosine_schedule in H.
    apply bind_raise_inv in H. destruct H as [H | (o & _ & H)];
      [| discriminate H].
    apply mapM_raise_inv in H. destruct H as (i & _ & H).
    unfold NoiseScheduler.cosine_entry in H.
    repeat (apply bind_raise_inv in H;
            destruct H as [H | (? & _ & H)];
            [eapply truediv_raise; exact H |]).
    discriminate H.
  - right. unfold NoiseScheduler.cosine_anneal_schedule in H.
    apply bind_raise_inv in H. destruct H as [H | (o & _ & H)];
      [| discriminate H].
    apply mapM_raise_inv in H. destruct H as (i & _ & H).
    unfold NoiseScheduler.cosine_anneal_entry in H.
    apply bind_raise_inv in H. destruct H as [H | (? & _ & H)];
      [eapply truediv_raise; exact H | discriminate H].
Qed.

(** X25. Construction ends with an assertion error exactly for a
    schedule outside [valid_schedules], and the message is the one that
    lists them. *)
Lemma init_assertion (schedule : string) (n : Z) (b0 b1 : R) (msg : string) :
  NoiseScheduler.init schedule n b0 b1 = Raise (AssertionError msg)
  <-> ~ In schedule NoiseScheduler.valid_schedules
      /\ msg = NoiseScheduler.invalid_schedule_message.
Proof.
  split.
  - unfold NoiseScheduler.init.
    destruct (Py.contains NoiseScheduler.valid_schedules schedule) eqn:E;
      cbn [negb].
    + intros H. exfalso.
      set (self := NoiseScheduler.mkSelf schedule n b0 b1) in H.
      repeat (apply bind_raise_inv in H;
              destruct H as [H | (? & _ & H)];
              [first
                 [ apply getitem_raise in H; discriminate H
                 | destruct (@generators_raise self (AssertionError msg))
                     as [X | X]; [eauto 7 | discriminate X | discriminate X] ]
              |]).
      discriminate H.
    + intros H. injection H as <-. split; [| reflexivity].
      intros Hin. apply contains_In in Hin. congruence.
  - intros [Hn ->]. apply init_invalid_schedule. exact Hn.
Qed.

End InitAssertion.

(* ================================================================== *)
(** ** The lookup [get_noisy_x_at_t] *)

Section Lookup.

Context {A B : Type}.

Lemma mapM_nth {X Y : Type} (f : X -> result Y) (l : list X) (l' : list Y) :
  mapM f l = Ok l' ->
  length l' = length l
  /\ forall (j : nat) (a : X), nth_error l j = Some a ->
       exists b, f a = Ok b /\ nth_error l' j = Some b.
Proof.
  revert l'. induction l as [| a l IH]; intros l' H; simpl in H.
  - injection H as <-. split; [reflexivity |].
    intros j a Hj. destruct j; discriminate Hj.
  - apply bind_ok_inv in H. destruct H as (b & Hb & H).
    apply bind_ok_inv in H. destruct H as (bs & Hbs & H).
    injection H as <-. destruct (IH bs Hbs) as [Hlen Hnth].
    split; [simpl; rewrite Hlen; reflexivity |].
    intros j a' Hj. destruct j as [| j].
    + injection Hj as <-. exists b. split; [exact Hb | reflexivity].
    + apply Hnth. exact Hj.
Qed.

Lemma mapM_total {X Y : Type} (f : X -> result Y) (l : list X) :
  (forall a, In a l -> exists b, f a = Ok b) -> exists l', mapM f l = Ok l'.
Proof.
  induction l as [| a l IH]; intros H; simpl.
  - eexists. reflexivity.
  - destruct (H a (or_introl eq_refl)) as [b Hb]. rewrite Hb. simpl.
    destruct IH as [bs Hbs]; [intros a' Ha'; apply H; right; exact Ha' |].
    rewrite Hbs. simpl. eexists. reflexivity.
Qed.

Lemma numel_repeat_1 (k : nat) : numel (repeat 1%nat k) = 1%nat.
Proof. induction k as [| k IH]; simpl; [reflexivity | rewrite IH; reflexivity]. Qed.

(** Gathering from a sequence with a batch of indices in range. *)
Lemma gather_sequence (input : Tensor A) (t : Tensor Z) :
  shape input = [length (data input)] ->
  Props.index_batch (length (data input)) t ->
  exists d : list A,
    Torch.gather input t = Ok (mkTensor [length (data t)] d)
    /\ length d = length (data t)
    /\ forall j : nat, (j < length (data t))%nat ->
         nth_error d j
         = nth_error (data input) (Z.to_nat (nth j (data t) 0%Z)).
Proof.
  intros Hin [Hts Hrange]. unfold Torch.gather. rewrite Hin, Hts.
  cbn [length Nat.eqb negb tl combine forallb hd].
  set (f := fun '(p, i) =>
              if ((i <? 0) || (Z.of_nat (length (data input)) <=? i))%Z
              then Raise RuntimeError
              else match nth_error (data input)
                           (ravel [length (data input)]
                              (Z.to_nat i :: tl (unravel [length (data t)] p))) with
                   | Some v => Ok v
                   | None => Raise RuntimeError
                   end).
  assert (Hf : forall p i, (0 <= i < Z.of_nat (length (data input)))%Z ->
                 exists v, f (p, i) = Ok v
                   /\ nth_error (data input) (Z.to_nat i) = Some v).
  { intros p i Hi. unfold f.
    destruct ((i <? 0) || (Z.of_nat (length (data input)) <=? i))%Z eqn:E.
    - apply orb_true_iff in E. destruct E as [E | E];
        [apply Z.ltb_lt in E | apply Z.leb_le in E]; lia.
    - cbn [unravel tl ravel numel fold_right].
      rewrite Nat.mul_1_r, Nat.add_0_r.
      destruct (nth_error (data input) (Z.to_nat i)) as [v |] eqn:Ev.
      + exists v. split; reflexivity.
      + apply nth_error_None in Ev. lia. }
  rewrite Forall_forall in Hrange.
  destruct (@mapM_total _ _ f (combine (seq 0 (length (data t))) (data t)))
    as [d Hd].
  { intros [p i] Hpi. apply in_combine_r in Hpi.
    destruct (Hf p i (Hrange i Hpi)) as (v & Hv & _). exists v. exact Hv. }
  rewrite Hd. cbn [bind]. exists d. split; [reflexivity |].
  destruct (mapM_nth _ _ Hd) as [Hlen Hnth].
  rewrite length_combine, length_seq, Nat.min_id in Hlen.
  split; [exact Hlen |].
  intros j Hj.
  assert (Hc : nth_error (combine (seq 0 (length (data t))) (data t)) j
               = Some (j, nth j (data t) 0%Z)).
  { rewrite nth_error_nth' with (d := (0%nat, 0%Z))
      by (rewrite length_combine, length_seq, Nat.min_id; exact Hj).
    rewrite combine_nth by (rewrite length_seq; reflexivity).
    rewrite seq_nth by exact Hj. reflexivity. }
  destruct (Hnth j _ Hc) as (v & Hv & Hdj).
  destruct (Hf j (nth j (data t) 0%Z)) as (v' & Hv' & Hin').
  { apply Hrange. apply nth_In. exact Hj. }
  rewrite Hv in Hv'. injection Hv' as <-.
  rewrite Hdj, Hin'. reflexivity.
Qed.

(** C9, as amended. For a sequence, a batch of indices in range and a
    sample tensor of rank at least 1, the lookup returns a tensor whose
    first size is the number of indices, whose other sizes are 1, whose
    rank is that of the sample, and whose [j]-th entry is the sequence
    entry at the [j]-th index. *)
Theorem lookup_broadcastable (input : Tensor A) (t : Tensor Z) (x : Tensor B) :
  shape input = [length (data input)] ->
  Props.index_batch (length (data input)) t ->
  (1 <= rank x)%nat ->
  Props.lookup_contract input t x.
Proof.
  intros Hin Ht Hx.
  destruct (@gather_sequence input t Hin Ht) as (d & Hg & Hlen & Hnth).
  destruct Ht as [Hts _].
  unfold Props.lookup_contract, NoiseScheduler.get_noisy_x_at_t.
  rewrite Hg, Hts. cbn [bind]. unfold Torch.reshape. cbn [shape data].
  unfold Py.list_repeat.
  replace (Z.to_nat (Z.of_nat (length (shape x)) - 1))
    with (length (shape x) - 1)%nat by lia.
  assert (Hnum : numel (length (data t) :: repeat 1%nat (length (shape x) - 1))
                 = numel [length (data t)]).
  { cbn [numel fold_right]. fold (numel (repeat 1%nat (length (shape x) - 1))).
    rewrite numel_repeat_1. reflexivity. }
  rewrite Hnum, Nat.eqb_refl.
  eexists. split; [reflexivity |]. cbn [shape data hd tl].
  split; [reflexivity |]. split.
  - apply Forall_forall. intros k Hk. apply repeat_spec in Hk. exact Hk.
  - split; [| exact Hnth].
    unfold rank in *. cbn [shape length]. rewrite repeat_length. lia.
Qed.

End Lookup.

Lemma lookup_broadcastable_witness :
  shape (vector [10; 20; 30]%Z) = [length (data (vector [10; 20; 30]%Z))]
  /\ Props.index_batch (length (data (vector [10; 20; 30]%Z)))
       (vector [2; 0; 2; 1]%Z)
  /\ (1 <= rank (mkTensor [4; 3; 2]%nat (repeat 0%Z 24)))%nat
  /\ Props.lookup_contract (vector [10; 20; 30]%Z) (vector [2; 0; 2; 1]%Z)
       (mkTensor [4; 3; 2]%nat (repeat 0%Z 24)).
Proof.
  assert (H1 : shape (vector [10; 20; 30]%Z)
               = [length (data (vector [10; 20; 30]%Z))]) by reflexivity.
  assert (H2 : Props.index_batch (length (data (vector [10; 20; 30]%Z)))
                 (vector [2; 0; 2; 1]%Z)).
  { split; [reflexivity |]. apply Forall_forall. intros i Hi.
    simpl in Hi. simpl. lia. }
  assert (H3 : (1 <= rank (mkTensor [4; 3; 2]%nat (repeat 0%Z 24)))%nat)
    by (unfold rank; simpl; lia).
  split; [exact H1 |]. split; [exact H2 |]. split; [exact H3 |].
  exact (@lookup_broadcastable Z Z _ _ _ H1 H2 H3).
Defined.

(** C9 fails as stated for a sample of rank 0: the result has rank 1. *)
Lemma lookup_rank_zero_sample :
  shape (vector [5%Z]) = [length (data (vector [5%Z]))]
  /\ Props.index_batch (length (data (vector [5%Z]))) (vector [0%Z])
  /\ NoiseScheduler.get_noisy_x_at_t (vector [5%Z]) (vector [0%Z])
       (mkTensor [] [7%Z])
     = Ok (mkTensor [1%nat] [5%Z])
  /\ ~ Props.lookup_contract (vector [5%Z]) (vector [0%Z]) (mkTensor [] [7%Z]).
Proof.
  split; [reflexivity |]. split.
  { split; [reflexivity |]. apply Forall_forall. intros i Hi.
    simpl in Hi. simpl. lia. }
  split; [reflexivity |].
  intros (out & Hout & _ & _ & Hrank & _).
  vm_compute in Hout. injection Hout as <-.
  unfold rank in Hrank. simpl in Hrank. discriminate Hrank.
Qed.

(* ================================================================== *)
(** ** Shapes through the layers *)

Section LayerShapes.

Local Open Scope R_scope.

Lemma flat_map_length_const {X Y : Type} (f : X -> list Y) (l : list X) (k : nat) :
  (forall a, length (f a) = k) -> length (flat_map f l) = (length l * k)%nat.
Proof.
  intros H. induction l as [| a l IH]; simpl.
  - reflexivity.
  - rewrite length_app, H, IH. reflexivity.
Qed.

Lemma Linear_init_ok (n_in n_out : Z) (w : nat -> nat -> R) (b : nat -> R) :
  (0 <= n_in)%Z -> (0 <= n_out)%Z ->
  exists l : Linear.t,
    Linear.init n_in n_out w b = Ok l
    /\ Linear.in_features l = Z.to_nat n_in
    /\ Linear.out_features l = Z.to_nat n_out.
Proof.
  intros H1 H2. unfold Linear.init.
  destruct ((n_in <? 0) || (n_out <? 0))%Z eqn:E.
  - apply orb_true_iff in E. destruct E as [E | E]; apply Z.ltb_lt in E; lia.
  - eexists. split; [reflexivity |]. split; reflexivity.
Qed.

Lemma Linear_init_error (n_in n_out : Z) (w : nat -> nat -> R) (b : nat -> R)
    (e : PyError) :
  Linear.init n_in n_out w b = Raise e -> e = RuntimeError.
Proof.
  unfold Linear.init. destruct ((n_in <? 0) || (n_out <? 0))%Z; intros H.
  - injection H as <-. reflexivity.
  - discriminate H.
Qed.

(** A plain linear layer maps a batch of rows of its input width to a
    batch of rows of its output width. *)
Lemma Linear_forward_batch (l : Linear.t) (x : Tensor R) (b : nat) :
  shape x = [b; Linear.in_features l] ->
  exists out : Tensor R,
    Linear.forward l x = Ok out
    /\ shape out = [b; Linear.out_features l]
    /\ wf out.
Proof.
  intros Hs. unfold Linear.forward. rewrite Hs.
  cbn [rev app]. rewrite Nat.eqb_refl. cbn [negb].
  eexists. split; [reflexivity |]. cbn [shape]. split; [reflexivity |].
  unfold wf. cbn [shape data numel fold_right].
  rewrite flat_map_length_const with (k := Linear.out_features l)
    by (intros r; rewrite length_map, length_seq; reflexivity).
  rewrite length_seq. lia.
Qed.

Lemma Embedding_init_ok (n d : Z) (w : nat -> nat -> R) :
  (0 <= n)%Z -> (0 <= d)%Z ->
  exists e : Embedding.t,
    Embedding.init n d w = Ok e
    /\ Embedding.num_embeddings e = Z.to_nat n
    /\ Embedding.embedding_dim e = Z.to_nat d.
Proof.
  intros H1 H2. unfold Embedding.init.
  destruct ((n <? 0) || (d <? 0))%Z eqn:E.
  - apply orb_true_iff in E. destruct E as [E | E]; apply Z.ltb_lt in E; lia.
  - eexists. split; [reflexivity |]. split; reflexivity.
Qed.

Lemma Embedding_init_error (n d : Z) (w : nat -> nat -> R) (e : PyError) :
  Embedding.init n d w = Raise e -> e = RuntimeError.
Proof.
  unfold Embedding.init. destruct ((n <? 0) || (d <? 0))%Z; intros H.
  - injection H as <-. reflexivity.
  - discriminate H.
Qed.

Lemma Embedding_forward_batch (e : Embedding.t) (t : Tensor Z) :
  Props.index_batch (Embedding.num_embeddings e) t ->
  exists out : Tensor R,
    Embedding.forward e t = Ok out
    /\ shape out = [length (data t); Embedding.embedding_dim e].
Proof.
  intros [Hs Hr]. unfold Embedding.forward.
  match goal with |- context [mapM ?f _] => set (g := f) end.
  destruct (@mapM_total _ _ g (data t)) as [rows Hrows].
  { intros i Hi. rewrite Forall_forall in Hr. specialize (Hr i Hi).
    unfold g.
    destruct ((i <? 0) || (Z.of_nat (Embedding.num_embeddings e) <=? i))%Z eqn:E.
    - apply orb_true_iff in E. destruct E as [E | E];
        [apply Z.ltb_lt in E | apply Z.leb_le in E]; lia.
    - eexists. reflexivity. }
  rewrite Hrows. cbn [bind]. eexists. split; [reflexivity |].
  cbn [shape]. rewrite Hs. reflexivity.
Qed.

Lemma view_rows_batch (g : Tensor R) (b d : nat) :
  shape g = [b; d] -> (0 < d)%nat ->
  exists out : Tensor R,
    Torch.view_rows g (Z.of_nat d) = Ok out /\ shape out = [b; d].
Proof.
  intros Hs Hd. unfold Torch.view_rows.
  destruct (Z.of_nat d <=? 0)%Z eqn:E; [apply Z.leb_le in E; lia |].
  rewrite Nat2Z.id, Hs. cbn [numel fold_right]. rewrite Nat.mul_1_r.
  rewrite Nat.Div0.mod_mul. cbn [Nat.eqb].
  eexists. split; [reflexivity |]. cbn [shape].
  rewrite Nat.div_mul by lia. reflexivity.
Qed.

Lemma mul_same_batch (a c : Tensor R) (b d : nat) :
  shape a = [b; d] -> shape c = [b; d] ->
  exists out : Tensor R, Torch.mul a c = Ok out /\ shape out = [b; d].
Proof.
  intros Ha Hc. unfold Torch.mul, Torch.broadcast_op, Torch.broadcast_shapes.
  rewrite Ha, Hc. cbn [rev app Torch.broadcast_rev].
  rewrite !Nat.eqb_refl. cbn [bind fmap rev app].
  eexists. split; [reflexivity |]. reflexivity.
Qed.

Lemma ConditionalLinear_init_ok (n_in n_out n_steps : Z) (p : LayerInit) :
  (0 <= n_in)%Z -> (0 <= n_out)%Z -> (0 <= n_steps)%Z ->
  exists c : ConditionalLinear.t,
    ConditionalLinear.init n_in n_out n_steps p = Ok c
    /\ ConditionalLinear.n_outputs c = n_out
    /\ Linear.in_features (ConditionalLinear.lin c) = Z.to_nat n_in
    /\ Linear.out_features (ConditionalLinear.lin c) = Z.to_nat n_out
    /\ Embedding.num_embeddings (ConditionalLinear.embed c) = Z.to_nat n_steps
    /\ Embedding.embedding_dim (ConditionalLinear.embed c) = Z.to_nat n_out.
Proof.
  intros H1 H2 H3. unfold ConditionalLinear.init.
  destruct (@Linear_init_ok n_in n_out (lin_weight p) (lin_bias p) H1 H2)
    as (l & Hl & Hli & Hlo).
  destruct (@Embedding_init_ok n_steps n_out (embed_weight p) H3 H2)
    as (e & He & Hen & Hed).
  rewrite Hl, He. cbn [bind]. eexists. split; [reflexivity |].
  cbn. repeat split; assumption.
Qed.

Lemma ConditionalLinear_init_error (n_in n_out n_steps : Z) (p : LayerInit)
    (e : PyError) :
  ConditionalLinear.init n_in n_out n_steps p = Raise e -> e = RuntimeError.
Proof.
  unfold ConditionalLinear.init.
  destruct (Linear.init n_in n_out (lin_weight p) (lin_bias p)) as [l | e1] eqn:E1;
    cbn [bind].
  - destruct (Embedding.init n_steps n_out (embed_weight p)) as [m | e2] eqn:E2;
      cbn [bind]; intros H.
    + discriminate H.
    + injection H as <-. eapply Embedding_init_error. exact E2.
  - intros H. injection H as <-. eapply Linear_init_error. exact E1.
Qed.

(** A gated layer maps a batch of rows to a batch of rows of its output
    width, given one step index per row. *)
Lemma ConditionalLinear_forward_batch (c : ConditionalLinear.t)
    (x : Tensor R) (t : Tensor Z) (d : nat) :
  ConditionalLinear.n_outputs c = Z.of_nat d ->
  Linear.out_features (ConditionalLinear.lin c) = d ->
  Embedding.embedding_dim (ConditionalLinear.embed c) = d ->
  (0 < d)%nat ->
  shape x = [length (data t); Linear.in_features (ConditionalLinear.lin c)] ->
  Props.index_batch (Embedding.num_embeddings (ConditionalLinear.embed c)) t ->
  exists out : Tensor R,
    ConditionalLinear.forward c x t = Ok out
    /\ shape out = [length (data t); d].
Proof.
  intros Hn Ho He Hd Hx Ht. unfold ConditionalLinear.forward.
  destruct (@Linear_forward_batch _ _ _ Hx) as (o & Hfo & Hso & _).
  destruct (@Embedding_forward_batch _ _ Ht) as (g & Hfg & Hsg).
  rewrite Hfo, Hfg. cbn [bind]. rewrite Hn.
  rewrite He in Hsg. rewrite Ho in Hso.
  destruct (@view_rows_batch _ _ _ Hsg Hd) as (g' & Hv & Hsg').
  rewrite Hv. cbn [bind].
  apply mul_same_batch; assumption.
Qed.

End LayerShapes.

(* ================================================================== *)
(** ** The guided linear model *)

Section GuidedLinear.

Local Open Scope R_scope.

Variable batch_norm : BatchNorm1d.t -> Tensor R -> result (Tensor R).

Lemma forward_app (l1 l2 : list Module) (x : Tensor R) (t : Tensor Z) :
  DiffusionSequential.forward batch_norm (l1 ++ l2) x t
  = (h <- DiffusionSequential.forward batch_norm l1 x t ;;
     DiffusionSequential.forward batch_norm l2 h t).
Proof.
  revert x. induction l1 as [| m l1 IH]; intros x.
  - reflexivity.
  - cbn [app DiffusionSequential.forward].
    destruct (match m with
              | ConditionalLinearM c => ConditionalLinear.forward c x t
              | _ => DiffusionSequential.call batch_norm m x
              end) as [x' | e]; cbn [bind].
    + apply IH.
    + reflexivity.
Qed.

(** The loop of [__init__] over the indices of [layer_sizes] builds the
    gated stack. *)
Lemma layers_loop (n_steps : Z) (act : Module) (params : nat -> LayerInit)
    (hidden pre : list Z) (d : Z) :
  (layers <- mapM (fun idx =>
                     c <- ConditionalLinear.init
                            (nth (idx - 1) (pre ++ d :: hidden) 0%Z)
                            (nth idx (pre ++ d :: hidden) 0%Z) n_steps
                            (params (idx - 1)%nat) ;;
                     Ok [ConditionalLinearM c; act])
                  (seq (S (length pre)) (length hidden)) ;;
   Ok (concat layers))
  = Props.gated_stack n_steps act params (length pre) d hidden.
Proof.
  revert pre d. induction hidden as [| h rest IH]; intros pre d.
  - reflexivity.
  - cbn [length seq mapM Props.gated_stack].
    replace (S (length pre) - 1)%nat with (length pre) by lia.
    rewrite (app_nth2 pre (d :: h :: rest)) by lia.
    rewrite Nat.sub_diag. cbn [nth].
    replace (nth (S (length pre)) (pre ++ d :: h :: rest) 0%Z) with h.
    2:{ rewrite (app_nth2 pre (d :: h :: rest)) by lia.
        replace (S (length pre) - length pre)%nat with 1%nat by lia.
        reflexivity. }
    destruct (ConditionalLinear.init d h n_steps (params (length pre)))
      as [c | e]; cbn [bind]; [| reflexivity].
    specialize (IH (pre ++ [d]) h).
    rewrite length_app in IH. cbn [length] in IH.
    rewrite Nat.add_1_r in IH.
    rewrite <- app_assoc in IH. cbn [app] in IH.
    rewrite <- IH.
    match goal with |- context [mapM ?f ?l] => destruct (mapM f l) as [ls | e] end;
      cbn [bind]; reflexivity.
Qed.

(** [__init__] as the gated stack followed by the plain output layer. *)
Lemma init_structure (n_steps x_dim y_dim : Z) (n_hidden : list Z)
    (n_outputs : Z) (cat_x cat_y_pred : bool) (act : Module)
    (params : nat -> LayerInit) :
  let data_dim :=
    ((y_dim + (if cat_x then x_dim else 0))
     + (if cat_y_pred then y_dim else 0))%Z in
  ConditionalGuidedLinearModel.init n_steps x_dim y_dim n_hidden n_outputs
    cat_x cat_y_pred act params
  = (stack <- Props.gated_stack n_steps act params 0 data_dim n_hidden ;;
     final <- Linear.init (last (data_dim :: n_hidden) 0%Z) n_outputs
                (lin_weight (params (length n_hidden)))
                (lin_bias (params (length n_hidden))) ;;
     Ok (ConditionalGuidedLinearModel.mk n_steps x_dim y_dim cat_x cat_y_pred
           (stack ++ [LinearM final]))).
Proof.
  intros data_dim. unfold ConditionalGuidedLinearModel.init.
  assert (Hd : (let dd := y_dim in
                let dd := if cat_x then (dd + x_dim)%Z else dd in
                if cat_y_pred then (dd + y_dim)%Z else dd) = data_dim).
  { unfold data_dim. destruct cat_x, cat_y_pred; cbn; lia. }
  cbn zeta in Hd. cbn zeta. rewrite Hd.
  replace (length (data_dim :: n_hidden) - 1)%nat with (length n_hidden)
    by (cbn [length]; lia).
  pose proof (layers_loop n_steps act params n_hidden [] data_dim) as HL.
  cbn [app length] in HL. rewrite <- HL.
  match goal with |- context [mapM ?f ?l] => destruct (mapM f l) as [ls | e] end;
    cbn [bind]; reflexivity.
Qed.

Lemma init_flags (n_steps x_dim y_dim : Z) (n_hidden : list Z)
    (n_outputs : Z) (cat_x cat_y_pred : bool) (act : Module)
    (params : nat -> LayerInit) (m : ConditionalGuidedLinearModel.t) :
  ConditionalGuidedLinearModel.init n_steps x_dim y_dim n_hidden n_outputs
    cat_x cat_y_pred act params = Ok m ->
  ConditionalGuidedLinearModel.cat_x m = cat_x
  /\ ConditionalGuidedLinearModel.cat_y_pred m = cat_y_pred
  /\ ConditionalGuidedLinearModel.y_dim m = y_dim
  /\ ConditionalGuidedLinearModel.n_steps m = n_steps.
Proof.
  rewrite init_structure. intros H.
  apply bind_ok_inv in H. destruct H as (stack & _ & H).
  apply bind_ok_inv in H. destruct H as (final & _ & H).
  injection H as <-. repeat split.
Qed.

(** C4. A model constructed with [cat_x = False] and
    [cat_y_pred = False] returns the same result for the same [y_t] and
    [t], whatever is passed for [x] and [y_0_hat]. *)
Theorem forward_ignores_x_and_y_0_hat
    (n_steps x_dim y_dim : Z) (n_hidden : list Z) (n_outputs : Z)
    (act : Module) (params : nat -> LayerInit)
    (m : ConditionalGuidedLinearModel.t)
    (x x' y_0_hat y_0_hat' : option (Tensor R)) (y_t : Tensor R)
    (t : Tensor Z) :
  ConditionalGuidedLinearModel.init n_steps x_dim y_dim n_hidden n_outputs
    false false act params = Ok m ->
  ConditionalGuidedLinearModel.forward batch_norm m x y_t y_0_hat t
  = ConditionalGuidedLinearModel.forward batch_norm m x' y_t y_0_hat' t.
Proof.
  intros Hm. destruct (init_flags _ _ _ _ _ _ _ _ _ Hm) as (Hx & Hy & _).
  unfold ConditionalGuidedLinearModel.forward. rewrite Hx, Hy. reflexivity.
Qed.

End GuidedLinear.

Lemma forward_ignores_x_and_y_0_hat_witness :
  exists m : ConditionalGuidedLinearModel.t,
    ConditionalGuidedLinearModel.init 10 3 2 [4%Z] 1 false false SoftplusM
      (fun _ => mkLayerInit (fun _ _ => 0%R) (fun _ => 0%R) (fun _ _ => 0%R))
    = Ok m
    /\ ConditionalGuidedLinearModel.forward (fun _ x => Ok x) m
         None (mkTensor [1; 2]%nat [1%R; 2%R]) None (vector [3%Z])
       = ConditionalGuidedLinearModel.forward (fun _ x => Ok x) m
           (Some (vector [0%R])) (mkTensor [1; 2]%nat [1%R; 2%R])
           (Some (mkTensor [] [5%R])) (vector [3%Z]).
Proof.
  eexists. split.
  - reflexivity.
  - apply (@forward_ignores_x_and_y_0_hat (fun _ x => Ok x) 10 3 2 [4%Z] 1
             SoftplusM
             (fun _ => mkLayerInit (fun _ _ => 0%R) (fun _ => 0%R)
                         (fun _ _ => 0%R))).
    reflexivity.
Defined.

(* ================================================================== *)
(** ** Concatenation of batches *)

Section Concatenation.

Lemma chunks_concat {X : Type} (blk outer s : nat) (pre d : list X) :
  length pre = (s * blk)%nat ->
  length d = (outer * blk)%nat ->
  flat_map (fun o => firstn blk (skipn (o * blk) (pre ++ d))) (seq s outer) = d.
Proof.
  revert s pre d. induction outer as [| outer IH]; intros s pre d Hpre Hd.
  - destruct d; [reflexivity | discriminate Hd].
  - cbn [seq flat_map].
    rewrite skipn_app, <- Hpre, skipn_all, Nat.sub_diag. cbn [app skipn].
    transitivity (firstn blk d ++ skipn blk d); [| apply firstn_skipn].
    f_equal.
    assert (Hf : length (firstn blk d) = blk)
      by (rewrite length_firstn; simpl in Hd; lia).
    specialize (IH (S s) (pre ++ firstn blk d) (skipn blk d)).
    rewrite <- app_assoc, firstn_skipn in IH. apply IH.
    + rewrite length_app, Hf, Hpre. simpl. lia.
    + rewrite length_skipn, Hd. simpl. lia.
Qed.

Lemma mapM_Some {X : Type} (ts : list X) :
  mapM (fun o : option X => match o with
                            | Some t => Ok t
                            | None => Raise TypeError
                            end) (map Some ts) = Ok ts.
Proof.
  induction ts as [| t ts IH]; [reflexivity |].
  cbn [map mapM bind]. rewrite IH. reflexivity.
Qed.

Lemma shape_eqb_refl (s : list nat) : Torch.shape_eqb s s = true.
Proof.
  unfold Torch.shape_eqb.
  destruct (list_eq_dec Nat.eq_dec s s) as [_ | N]; [reflexivity | contradiction].
Qed.

(** Concatenating batches of rows along the feature dimension gives a
    batch whose width is the sum of the widths. *)
Lemma cat_batches (b : nat) (t0 : Tensor R) (ts : list (Tensor R)) :
  Forall (Props.batch_of b) (t0 :: ts) ->
  Torch.cat (map Some (t0 :: ts)) 1
  = Ok (mkTensor
          [b; list_sum (map (fun t => nth 1 (shape t) 0%nat) (t0 :: ts))]
          (flat_map
             (fun o =>
                flat_map
                  (fun t =>
                     firstn (numel (skipn 1 (shape t)))
                       (skipn (o * numel (skipn 1 (shape t))) (data t)))
                  (t0 :: ts))
             (seq 0 (numel [b])))).
Proof.
  intros Hall. unfold Torch.cat. rewrite mapM_Some. cbn [bind].
  assert (Hrank : existsb (fun t : Tensor R => (length (shape t) =? 0)%nat)
                    (t0 :: ts) = false).
  { apply Bool.not_true_is_false. intros H. apply existsb_exists in H.
    destruct H as (t & Hin & Ht). rewrite Forall_forall in Hall.
    destruct (Hall t Hin) as [n Hn]. rewrite Hn in Ht. discriminate Ht. }
  rewrite Hrank.
  pose proof (Forall_inv Hall) as [n0 H0]. rewrite H0.
  change (Torch.normalize_dim 1 (length [b; n0])) with (Ok (A:=nat) 1%nat).
  cbn [bind].
  assert (Hsame : forallb (fun t : Tensor R =>
                             Torch.same_except 1 [b; n0] (shape t)) (t0 :: ts)
                  = true).
  { apply forallb_forall. intros t Hin. rewrite Forall_forall in Hall.
    destruct (Hall t Hin) as [n Hn]. rewrite Hn.
    unfold Torch.same_except. cbn [length Nat.eqb firstn skipn].
    rewrite !shape_eqb_refl. reflexivity. }
  rewrite Hsame. reflexivity.
Qed.

(** The concatenation of a single well-formed batch is that batch. *)
Lemma cat_single (b n : nat) (t : Tensor R) :
  shape t = [b; n] -> wf t -> Torch.cat [Some t] 1 = Ok t.
Proof.
  intros Hs Hw.
  change [Some t] with (map Some [t]).
  rewrite (@cat_batches b t []) by (constructor; [exists n; exact Hs | constructor]).
  f_equal. destruct t as [s d]. cbn [shape data] in *. subst s.
  unfold wf in Hw. cbn [shape data numel fold_right] in Hw.
  rewrite !Nat.mul_1_r in Hw.
  cbn [map nth list_sum fold_right skipn numel shape].
  rewrite Nat.add_0_r, !Nat.mul_1_r. f_equal.
  rewrite flat_map_ext with (g := fun o => firstn n (skipn (o * n) ([] ++ d)))
    by (intros o; cbn [flat_map app shape data skipn numel fold_right];
        rewrite Nat.mul_1_r; apply app_nil_r).
  apply chunks_concat; [reflexivity | exact Hw].
Qed.

End Concatenation.

(* ================================================================== *)
(** ** The forward pass of the guided linear model *)

Section GuidedLinearForward.

Local Open Scope R_scope.

Variable batch_norm : BatchNorm1d.t -> Tensor R -> result (Tensor R).

Lemma last_cons {X : Type} (a d : X) (l : list X) :
  last (a :: l) d = last l a.
Proof.
  revert a d. induction l as [| b l IH]; intros a d; [reflexivity |].
  change (last (a :: b :: l) d) with (last (b :: l) d).
  rewrite (IH b d). symmetry. apply (IH b a).
Qed.

(** The gated stack is constructed, and maps a batch of rows of the
    first width to a batch of rows of the last hidden width. *)
Lemma gated_stack_run (f : R -> R) (n_steps : Z) (params : nat -> LayerInit)
    (hidden : list Z) (k : nat) (prev : Z) (x : Tensor R) (t : Tensor Z) :
  (0 <= n_steps)%Z -> (0 <= prev)%Z ->
  Forall (fun h => 0 < h)%Z hidden ->
  Props.index_batch (Z.to_nat n_steps) t ->
  shape x = [length (data t); Z.to_nat prev] ->
  exists (stack : list Module) (h : Tensor R),
    Props.gated_stack n_steps (ActivationM f) params k prev hidden = Ok stack
    /\ DiffusionSequential.forward batch_norm stack x t = Ok h
    /\ shape h = [length (data t); Z.to_nat (last hidden prev)].
Proof.
  intros Hn. revert k prev x.
  induction hidden as [| w rest IH]; intros k prev x Hp Hh Ht Hx.
  - exists [], x. repeat split. exact Hx.
  - pose proof (Forall_inv Hh) as Hw. cbv beta in Hw. pose proof (Forall_inv_tail Hh) as Hrest.
    destruct (@ConditionalLinear_init_ok prev w n_steps (params k)
                Hp ltac:(lia) Hn)
      as (c & Hc & Hcn & Hci & Hco & Hcs & Hcd).
    assert (Hfw : exists out, ConditionalLinear.forward c x t = Ok out
                    /\ shape out = [length (data t); Z.to_nat w]).
    { apply ConditionalLinear_forward_batch.
      - rewrite Hcn. rewrite Z2Nat.id by lia. reflexivity.
      - exact Hco.
      - exact Hcd.
      - lia.
      - rewrite Hci. exact Hx.
      - rewrite Hcs. exact Ht. }
    destruct Hfw as (out & Hout & Hso).
    destruct (IH (S k) w (tmap f out) ltac:(lia) Hrest Ht Hso)
      as (stack & h & Hstack & Hrun & Hsh).
    exists (ConditionalLinearM c :: ActivationM f :: stack), h.
    split; [| split].
    + cbn [Props.gated_stack]. rewrite Hc. cbn [bind]. rewrite Hstack.
      reflexivity.
    + cbn [DiffusionSequential.forward DiffusionSequential.call].
      rewrite Hout. cbn [bind]. exact Hrun.
    + rewrite last_cons. exact Hsh.
Qed.

(** C6. For every setting of the flags, on a batch of inputs of the
    configured widths with one step index per row, the model is
    constructed as a gated stack followed by a plain linear layer, and
    [forward] concatenates the enabled components in the order
    [[y_t, y_0_hat, x]], runs the result through the gated stack, and
    returns the output of the plain layer, of shape
    [[batch, n_outputs]]. *)
Theorem forward_contract
    (n_steps x_dim y_dim : Z) (n_hidden : list Z) (n_outputs : Z)
    (cat_x cat_y_pred : bool) (f : R -> R) (params : nat -> LayerInit)
    (x y_t y_0_hat : Tensor R) (t : Tensor Z) :
  (0 <= n_steps)%Z -> (0 <= x_dim)%Z -> (0 <= y_dim)%Z ->
  Forall (fun h => 0 < h)%Z n_hidden ->
  (0 <= n_outputs)%Z ->
  Props.index_batch (Z.to_nat n_steps) t ->
  shape y_t = [length (data t); Z.to_nat y_dim] ->
  wf y_t ->
  shape y_0_hat = [length (data t); Z.to_nat y_dim] ->
  shape x = [length (data t); Z.to_nat x_dim] ->
  exists (m : ConditionalGuidedLinearModel.t) (stack : list Module)
         (final : Linear.t) (input hidden out : Tensor R),
    ConditionalGuidedLinearModel.init n_steps x_dim y_dim n_hidden n_outputs
      cat_x cat_y_pred (ActivationM f) params = Ok m
    /\ ConditionalGuidedLinearModel.model m = stack ++ [LinearM final]
    /\ Props.gated_stack n_steps (ActivationM f) params 0
         ((y_dim + (if cat_x then x_dim else 0))
          + (if cat_y_pred then y_dim else 0))%Z n_hidden = Ok stack
    /\ Torch.cat (Props.enabled_components cat_x cat_y_pred
                    (Some x) y_t (Some y_0_hat)) 1 = Ok input
    /\ DiffusionSequential.forward batch_norm stack input t = Ok hidden
    /\ Linear.forward final hidden = Ok out
    /\ ConditionalGuidedLinearModel.forward batch_norm m
         (Some x) y_t (Some y_0_hat) t = Ok out
    /\ shape out = [length (data t); Z.to_nat n_outputs]
    /\ wf out.
Proof.
  intros Hn Hxd Hyd Hh Ho Ht Hyt Hwf Hy0 Hx.
  set (data_dim := ((y_dim + (if cat_x then x_dim else 0))
                    + (if cat_y_pred then y_dim else 0))%Z).
  assert (Hdd : (0 <= data_dim)%Z)
    by (unfold data_dim; destruct cat_x, cat_y_pred; lia).
  (* the concatenated input *)
  assert (Hcat : exists input : Tensor R,
             Torch.cat (Props.enabled_components cat_x cat_y_pred
                          (Some x) y_t (Some y_0_hat)) 1 = Ok input
             /\ shape input = [length (data t); Z.to_nat data_dim]
             /\ (if cat_x then
                   if cat_y_pred
                   then Torch.cat [Some y_t; Some y_0_hat; Some x] 1
                   else Torch.cat [Some y_t; Some x] 1
                 else
                   if cat_y_pred
                   then Torch.cat [Some y_t; Some y_0_hat] 1
                   else Ok y_t) = Ok input).
  { assert (Bx : Props.batch_of (length (data t)) x) by (eexists; exact Hx).
    assert (By : Props.batch_of (length (data t)) y_t) by (eexists; exact Hyt).
    assert (B0 : Props.batch_of (length (data t)) y_0_hat)
      by (eexists; exact Hy0).
    unfold Props.enabled_components, data_dim.
    destruct cat_x, cat_y_pred; cbn [app].
    - change [Some y_t; Some y_0_hat; Some x]
        with (map Some [y_t; y_0_hat; x]).
      rewrite (@cat_batches (length (data t)) y_t [y_0_hat; x])
        by (repeat constructor; assumption).
      eexists. split; [reflexivity |]. split; [| reflexivity].
      cbn [shape map list_sum fold_right]. rewrite Hx, Hyt, Hy0. cbn [nth].
      f_equal. f_equal. lia.
    - change [Some y_t; Some x] with (map Some [y_t; x]).
      rewrite (@cat_batches (length (data t)) y_t [x])
        by (repeat constructor; assumption).
      eexists. split; [reflexivity |]. split; [| reflexivity].
      cbn [shape map list_sum fold_right]. rewrite Hx, Hyt. cbn [nth].
      f_equal. f_equal. lia.
    - change [Some y_t; Some y_0_hat] with (map Some [y_t; y_0_hat]).
      rewrite (@cat_batches (length (data t)) y_t [y_0_hat])
        by (repeat constructor; assumption).
      eexists. split; [reflexivity |]. split; [| reflexivity].
      cbn [shape map list_sum fold_right]. rewrite Hyt, Hy0. cbn [nth].
      f_equal. f_equal. lia.
    - rewrite (cat_single Hyt Hwf). exists y_t.
      split; [reflexivity |]. split; [| reflexivity].
      rewrite Hyt. f_equal. f_equal. lia. }
  destruct Hcat as (input & Hcat & Hsi & Hcode).
  (* the gated stack *)
  destruct (@gated_stack_run f n_steps params n_hidden 0%nat data_dim input t
              Hn Hdd Hh Ht Hsi)
    as (stack & hidden & Hstack & Hrun & Hsh).
  (* the plain output layer *)
  assert (Hlast : (0 <= last n_hidden data_dim)%Z).
  { destruct n_hidden as [| w rest]; [exact Hdd |].
    assert (Hin : In (last (w :: rest) data_dim) (w :: rest)).
    { destruct (@exists_last _ (w :: rest) ltac:(discriminate))
        as (l' & a & E). rewrite E, last_last. apply in_or_app. right.
      left. reflexivity. }
    rewrite Forall_forall in Hh. specialize (Hh _ Hin). cbv beta in Hh. lia. }
  destruct (@Linear_init_ok (last n_hidden data_dim) n_outputs
              (lin_weight (params (length n_hidden)))
              (lin_bias (params (length n_hidden))) Hlast Ho)
    as (final & Hfinal & Hfi & Hfo).
  rewrite <- Hfi in Hsh.
  destruct (@Linear_forward_batch final hidden _ Hsh) as (out & Hout & Hso & Hwo).
  eexists _, stack, final, input, hidden, out.
  split; [| split; [| split; [| split; [| split; [| split; [| split; [| split]]]]]]].
  - rewrite init_structure. fold data_dim. rewrite Hstack. cbn [bind].
    rewrite last_cons, Hfinal. cbn [bind]. reflexivity.
  - reflexivity.
  - exact Hstack.
  - exact Hcat.
  - exact Hrun.
  - exact Hout.
  - unfold ConditionalGuidedLinearModel.forward.
    cbn [ConditionalGuidedLinearModel.cat_x
           ConditionalGuidedLinearModel.cat_y_pred
           ConditionalGuidedLinearModel.model].
    rewrite Hcode. cbn [bind]. rewrite forward_app, Hrun. cbn [bind].
    cbn [DiffusionSequential.forward DiffusionSequential.call].
    rewrite Hout. reflexivity.
  - rewrite Hso, Hfo. reflexivity.
  - exact Hwo.
Qed.

End GuidedLinearForward.

Lemma forward_contract_witness :
  (0 <= 10)%Z /\ (0 <= 3)%Z /\ (0 <= 2)%Z
  /\ Forall (fun h => 0 < h)%Z [4%Z; 4%Z]
  /\ (0 <= 1)%Z
  /\ Props.index_batch (Z.to_nat 10) (vector [3%Z; 7%Z])
  /\ shape (mkTensor [2; 2]%nat [1; 2; 3; 4]%R)
     = [length (data (vector [3%Z; 7%Z])); Z.to_nat 2]
  /\ wf (mkTensor [2; 2]%nat [1; 2; 3; 4]%R)
  /\ shape (mkTensor [2; 2]%nat [5; 6; 7; 8]%R)
     = [length (data (vector [3%Z; 7%Z])); Z.to_nat 2]
  /\ shape (mkTensor [2; 3]%nat [1; 0; 0; 0; 1; 0]%R)
     = [length (data (vector [3%Z; 7%Z])); Z.to_nat 3]
  /\ exists (m : ConditionalGuidedLinearModel.t) (stack : list Module)
            (final : Linear.t) (input hidden out : Tensor R),
       ConditionalGuidedLinearModel.init 10 3 2 [4%Z; 4%Z] 1 true true
         (ActivationM Torch.softplus)
         (fun _ => mkLayerInit (fun _ _ => 1%R) (fun _ => 0%R) (fun _ _ => 1%R))
       = Ok m
       /\ ConditionalGuidedLinearModel.model m = stack ++ [LinearM final]
       /\ Props.gated_stack 10 (ActivationM Torch.softplus)
            (fun _ => mkLayerInit (fun _ _ => 1%R) (fun _ => 0%R) (fun _ _ => 1%R))
            0 ((2 + (if true then 3 else 0)) + (if true then 2 else 0))%Z
            [4%Z; 4%Z] = Ok stack
       /\ Torch.cat (Props.enabled_components true true
                       (Some (mkTensor [2; 3]%nat [1; 0; 0; 0; 1; 0]%R))
                       (mkTensor [2; 2]%nat [1; 2; 3; 4]%R)
                       (Some (mkTensor [2; 2]%nat [5; 6; 7; 8]%R))) 1 = Ok input
       /\ DiffusionSequential.forward (fun _ v => Ok v) stack input
            (vector [3%Z; 7%Z]) = Ok hidden
       /\ Linear.forward final hidden = Ok out
       /\ ConditionalGuidedLinearModel.forward (fun _ v => Ok v) m
            (Some (mkTensor [2; 3]%nat [1; 0; 0; 0; 1; 0]%R))
            (mkTensor [2; 2]%nat [1; 2; 3; 4]%R)
            (Some (mkTensor [2; 2]%nat [5; 6; 7; 8]%R))
            (vector [3%Z; 7%Z]) = Ok out
       /\ shape out = [length (data (vector [3%Z; 7%Z])); Z.to_nat 1]
       /\ wf out.
Proof.
  assert (H1 : (0 <= 10)%Z) by lia.
  assert (H2 : (0 <= 3)%Z) by lia.
  assert (H3 : (0 <= 2)%Z) by lia.
  assert (H4 : Forall (fun h => 0 < h)%Z [4%Z; 4%Z])
    by (repeat constructor).
  assert (H5 : (0 <= 1)%Z) by lia.
  assert (H6 : Props.index_batch (Z.to_nat 10) (vector [3%Z; 7%Z])).
  { split; [reflexivity |]. apply Forall_forall. intros i Hi.
    simpl in Hi. simpl. lia. }
  assert (H7 : shape (mkTensor [2; 2]%nat [1; 2; 3; 4]%R)
               = [length (data (vector [3%Z; 7%Z])); Z.to_nat 2]) by reflexivity.
  assert (H8 : wf (mkTensor [2; 2]%nat [1; 2; 3; 4]%R)) by reflexivity.
  assert (H9 : shape (mkTensor [2; 2]%nat [5; 6; 7; 8]%R)
               = [length (data (vector [3%Z; 7%Z])); Z.to_nat 2]) by reflexivity.
  assert (H10 : shape (mkTensor [2; 3]%nat [1; 0; 0; 0; 1; 0]%R)
                = [length (data (vector [3%Z; 7%Z])); Z.to_nat 3]) by reflexivity.
  repeat (split; [assumption |]).
  exact (@forward_contract (fun _ v => Ok v) 10 3 2 [4%Z; 4%Z] 1 true true
           Torch.softplus
           (fun _ => mkLayerInit (fun _ _ => 1%R) (fun _ => 0%R) (fun _ _ => 1%R))
           _ _ _ _ H1 H2 H3 H4 H5 H6 H7 H8 H9 H10).
Defined.

(* ================================================================== *)
(** ** The guided convolutional model *)

Section GuidedConv.

Local Open Scope string_scope.

Variable Encoder : Type.
Variable encoder_forward : Encoder -> Tensor R -> result (Tensor R).
Variable _get_output_layer_name_and_module : Encoder -> string * Linear.t.
Variable batch_norm : BatchNorm1d.t -> Tensor R -> result (Tensor R).

(** C5. Construction raises an assertion error exactly when the inner
    model has [cat_x] true, or [cat_y_pred] true, or a [y_dim] other
    than twice the width of the encoder's output layer; no model object
    exists then, so no forward pass can run. *)
Theorem conv_init_assertions (encoder : Encoder)
    (cond_guide_model : ConditionalGuidedLinearModel.t)
    (connect_init : LayerInit) :
  (exists msg : string,
     ConditionalGuidedConvModel.init _get_output_layer_name_and_module
       encoder cond_guide_model connect_init
     = Raise (AssertionError msg))
  <->
  (ConditionalGuidedLinearModel.cat_x cond_guide_model = true
   \/ ConditionalGuidedLinearModel.cat_y_pred cond_guide_model = true
   \/ ConditionalGuidedLinearModel.y_dim cond_guide_model
      <> (2 * Z.of_nat
                (Linear.out_features
                   (snd (_get_output_layer_name_and_module encoder))))%Z).
Proof.
  unfold ConditionalGuidedConvModel.init.
  destruct (ConditionalGuidedLinearModel.cat_x cond_guide_model);
    cbn [Bool.eqb negb].
  { split; [intros _; left; reflexivity | intros _; eexists; reflexivity]. }
  destruct (ConditionalGuidedLinearModel.cat_y_pred cond_guide_model);
    cbn [Bool.eqb negb].
  { split; [intros _; right; left; reflexivity
           | intros _; eexists; reflexivity]. }
  destruct (_get_output_layer_name_and_module encoder) as [name module].
  cbn [snd].
  destruct (Z.of_nat (Linear.out_features module) * 2
            =? ConditionalGuidedLinearModel.y_dim cond_guide_model)%Z eqn:E;
    cbn [negb].
  - apply Z.eqb_eq in E. split.
    + intros [msg H].
      destruct (ConditionalLinear.init (Z.of_nat (Linear.out_features module))
                  (Z.of_nat (Linear.out_features module))
                  (ConditionalGuidedLinearModel.n_steps cond_guide_model)
                  connect_init) as [c | e] eqn:Ec; cbn [bind] in H.
      * discriminate H.
      * apply ConditionalLinear_init_error in Ec. subst e. discriminate H.
    + intros [H | [H | H]]; [discriminate H | discriminate H | lia].
  - apply Z.eqb_neq in E. split.
    + intros _. right. right. lia.
    + intros _. eexists. reflexivity.
Qed.

(** What construction establishes: the inner model has both flags
    false, its [y_dim] is twice the encoder's output width, and the
    connection module is a gated layer of that width, a batch
    normalisation and a softplus. *)
Lemma conv_init_invariant (encoder : Encoder)
    (cond_guide_model : ConditionalGuidedLinearModel.t)
    (connect_init : LayerInit) (self : ConditionalGuidedConvModel.t Encoder) :
  ConditionalGuidedConvModel.init _get_output_layer_name_and_module
    encoder cond_guide_model connect_init = Ok self ->
  ConditionalGuidedConvModel.cond_guide_model self = cond_guide_model
  /\ ConditionalGuidedLinearModel.cat_x cond_guide_model = false
  /\ ConditionalGuidedLinearModel.cat_y_pred cond_guide_model = false
  /\ ConditionalGuidedLinearModel.y_dim cond_guide_model
     = (2 * Z.of_nat
              (Linear.out_features
                 (snd (_get_output_layer_name_and_module encoder))))%Z
  /\ exists (c : ConditionalLinear.t) (bn : BatchNorm1d.t),
       ConditionalGuidedConvModel.connect_module self
       = [ConditionalLinearM c; BatchNorm1dM bn; SoftplusM].
Proof.
  unfold ConditionalGuidedConvModel.init.
  destruct (ConditionalGuidedLinearModel.cat_x cond_guide_model);
    cbn [Bool.eqb negb]; [discriminate |].
  destruct (ConditionalGuidedLinearModel.cat_y_pred cond_guide_model);
    cbn [Bool.eqb negb]; [discriminate |].
  destruct (_get_output_layer_name_and_module encoder) as [name module].
  cbn [snd].
  destruct (Z.of_nat (Linear.out_features module) * 2
            =? ConditionalGuidedLinearModel.y_dim cond_guide_model)%Z eqn:E;
    cbn [negb]; [| discriminate].
  apply Z.eqb_eq in E.
  match goal with
  | |- context [ConditionalLinear.init ?a ?b ?c ?d] =>
      destruct (ConditionalLinear.init a b c d) as [cl | e]
  end; cbn [bind]; [| discriminate].
  intros H. injection H as <-.
  cbn [ConditionalGuidedConvModel.cond_guide_model
         ConditionalGuidedConvModel.connect_module].
  split; [reflexivity |]. split; [reflexivity |]. split; [reflexivity |].
  split; [lia |]. do 2 eexists. reflexivity.
Qed.

(** With both flags false the inner model never looks at [x] and
    [y_0_hat], so passing [None] for them is safe: the inner call is the
    inner stack run on the product. *)
Lemma conv_inner_call (encoder : Encoder)
    (cond_guide_model : ConditionalGuidedLinearModel.t)
    (connect_init : LayerInit) (self : ConditionalGuidedConvModel.t Encoder)
    (product : Tensor R) (t : Tensor Z) :
  ConditionalGuidedConvModel.init _get_output_layer_name_and_module
    encoder cond_guide_model connect_init = Ok self ->
  ConditionalGuidedLinearModel.forward batch_norm
    (ConditionalGuidedConvModel.cond_guide_model self) None product None t
  = DiffusionSequential.forward batch_norm
      (ConditionalGuidedLinearModel.model cond_guide_model) product t.
Proof.
  intros H. destruct (@conv_init_invariant _ _ _ _ H) as (-> & Hx & Hy & _).
  unfold ConditionalGuidedLinearModel.forward. rewrite Hx, Hy. reflexivity.
Qed.

End GuidedConv.

(* ================================================================== *)
(** ** Further properties of the schedules *)

Section ScheduleShapes.

Local Open Scope R_scope.
Local Open Scope string_scope.

Lemma init_kind (schedule : string) (n : Z) (b0 b1 : R) :
  (2 <= n)%Z ->
  In schedule Props.schedule_kinds ->
  exists v1 v2 v3 v4 v5 v6 : Tensor R,
    let self := NoiseScheduler.mkSelf schedule n b0 b1 in
    NoiseScheduler.linear_schedule self = Ok v1
    /\ NoiseScheduler.constant_schedule self = Ok v2
    /\ NoiseScheduler.quadratic_schedule self = Ok v3
    /\ NoiseScheduler.sigmoid_schedule self = Ok v4
    /\ NoiseScheduler.cosine_schedule self = Ok v5
    /\ NoiseScheduler.cosine_anneal_schedule self = Ok v6
    /\ NoiseScheduler.init schedule n b0 b1
       = (betas <- Py.getitem
                     [("linear", v1); ("const", v2); ("quad", v3);
                      ("sigmoid", v4); ("cosine", v5); ("cosine_anneal", v6)]
                     schedule ;;
          Ok (Props.scheduler_of self betas)).
Proof.
  intros Hn Hk.
  destruct (@init_steps schedule n b0 b1 Hn)
    as (v1 & v2 & v3 & v4 & v5 & v6 & H1 & H2 & H3 & H4 & H5 & H6 & Hinit).
  exists v1, v2, v3, v4, v5, v6. cbv zeta.
  repeat (split; [assumption |]).
  rewrite Hinit, (kinds_are_valid Hk). reflexivity.
Qed.

Lemma cosine_angle_end (n : Z) :
  (0 < n)%Z -> Props.cosine_angle n n = PI / 2.
Proof.
  intros Hn. unfold Props.cosine_angle, NoiseScheduler.cosine_s.
  assert (Hn' : IZR n <> 0) by (apply not_0_IZR; lia).
  replace (IZR n / IZR n) with 1 by (field; exact Hn').
  lra.
Qed.

(** X2. The cosine schedule with two steps or more does not depend on
    [beta_start] and [beta_end]; every beta is positive and at most
    [0.999], and the last one is exactly [0.999]. *)
Theorem cosine_schedule_capped (n : Z) (b0 b1 b0' b1' : R) :
  (2 <= n)%Z ->
  exists s s' : NoiseScheduler.t,
    NoiseScheduler.init "cosine" n b0 b1 = Ok s
    /\ NoiseScheduler.init "cosine" n b0' b1' = Ok s'
    /\ NoiseScheduler.betas s = NoiseScheduler.betas s'
    /\ Forall (fun b => 0 < b <= 0.999) (data (NoiseScheduler.betas s))
    /\ nth (Z.to_nat n - 1) (data (NoiseScheduler.betas s)) 0 = 0.999.
Proof.
  intros Hn.
  destruct (@init_kind "cosine" n b0 b1 Hn ltac:(simpl; tauto))
    as (v1 & v2 & v3 & v4 & v5 & v6 & _ & _ & _ & _ & H5 & _ & Hinit).
  destruct (@init_kind "cosine" n b0' b1' Hn ltac:(simpl; tauto))
    as (w1 & w2 & w3 & w4 & w5 & w6 & _ & _ & _ & _ & G5 & _ & Ginit).
  cbv zeta in *.
  rewrite cosine_schedule_ok in H5 by (simpl; lia).
  rewrite cosine_schedule_ok in G5 by (simpl; lia).
  injection H5 as H5. injection G5 as G5.
  simpl NoiseScheduler.n_steps in H5, G5.
  do 2 eexists.
  split; [rewrite Hinit; reflexivity |].
  split; [rewrite Ginit; reflexivity |].
  cbn [Props.scheduler_of NoiseScheduler.betas].
  split; [rewrite <- H5, <- G5; reflexivity |].
  subst v5. unfold Torch.tensor, vector. cbn [data]. split.
  - apply Forall_map_range. intros i Hi.
    pose proof (@cosine_ratio_range n i ltac:(lia) Hi) as Hq.
    cbv beta. unfold NoiseScheduler.max_beta. cbn [pow] in Hq |- *. split.
    + apply Rmin_glb_lt; lra.
    + apply Rmin_r.
  - rewrite nth_map_range by lia.
    replace (Z.of_nat (Z.to_nat n - 1) + 1)%Z with n by lia.
    rewrite cosine_angle_end by lia. rewrite cos_PI2.
    unfold NoiseScheduler.max_beta.
    apply Rmin_right. cbn [pow]. unfold Rdiv. lra.
Qed.

Lemma cosine_schedule_capped_witness :
  (2 <= 1000)%Z
  /\ exists s s' : NoiseScheduler.t,
       NoiseScheduler.init "cosine" 1000 (1 / 100000) (1 / 100) = Ok s
       /\ NoiseScheduler.init "cosine" 1000 5 7 = Ok s'
       /\ NoiseScheduler.betas s = NoiseScheduler.betas s'
       /\ Forall (fun b => 0 < b <= 0.999) (data (NoiseScheduler.betas s))
       /\ nth (Z.to_nat 1000 - 1) (data (NoiseScheduler.betas s)) 0 = 0.999.
Proof.
  split; [lia |].
  apply (@cosine_schedule_capped 1000 (1 / 100000) (1 / 100) 5 7). lia.
Defined.

End ScheduleShapes.

Section ScheduleEndpoints.

Local Open Scope R_scope.
Local Open Scope string_scope.

Lemma logistic_ge_half (v : R) : 0 <= v -> 1 / 2 <= Torch.logistic v.
Proof.
  intros Hv. unfold Torch.logistic.
  pose proof (exp_pos (- v)) as Hp.
  assert (He : exp (- v) <= 1).
  { rewrite <- exp_0. destruct (Req_dec v 0) as [-> | Hne].
    - rewrite Ropp_0. lra.
    - left. apply exp_increasing. lra. }
  apply Rmult_le_reg_r with (1 + exp (- v)); [lra |].
  unfold Rdiv at 2. rewrite Rmult_assoc, Rinv_l by lra. lra.
Qed.

(** X5. With non-negative [beta_start] and [beta_end], every entry of
    the sigmoid schedule is at least one half and at most one: the second
    logistic application is made on the rescaled values, which are
    non-negative. *)
Theorem sigmoid_schedule_upper_half (schedule : string) (n : Z) (b0 b1 : R) :
  (0 <= n)%Z -> 0 <= b0 -> 0 <= b1 ->
  exists t : Tensor R,
    NoiseScheduler.sigmoid_schedule (NoiseScheduler.mkSelf schedule n b0 b1)
    = Ok t
    /\ length (data t) = Z.to_nat n
    /\ Forall (fun b => 1 / 2 <= b <= 1) (data t).
Proof.
  intros Hn Hb0 Hb1. unfold NoiseScheduler.sigmoid_schedule.
  cbn [NoiseScheduler.n_steps NoiseScheduler.beta_start NoiseScheduler.beta_end].
  destruct (linspace_entries (-6) 6 Hn) as (l & Hl & _ & Hlen & _).
  rewrite Hl. cbn [bind]. eexists. split; [reflexivity |].
  unfold Torch.sigmoid, tmap. cbn [data].
  split; [rewrite !length_map; exact Hlen |].
  rewrite !map_map. apply Forall_map. apply Forall_forall. intros v _.
  pose proof (logistic_in_unit v) as Hu. unfold Props.in_unit_interval in Hu.
  set (u := Torch.logistic v) in *.
  split.
  - apply logistic_ge_half.
    assert (H1 : 0 <= u * b1) by nra.
    assert (H2 : 0 <= (1 - u) * b0) by nra.
    nra.
  - pose proof (logistic_in_unit (u * (b1 - b0) + b0)) as Hw.
    unfold Props.in_unit_interval in Hw. lra.
Qed.

Lemma sigmoid_schedule_upper_half_witness :
  (0 <= 1000)%Z /\ 0 <= 1 / 100000 /\ 0 <= 1 / 100
  /\ exists t : Tensor R,
       NoiseScheduler.sigmoid_schedule
         (NoiseScheduler.mkSelf "sigmoid" 1000 (1 / 100000) (1 / 100)) = Ok t
       /\ length (data t) = Z.to_nat 1000
       /\ Forall (fun b => 1 / 2 <= b <= 1) (data t).
Proof.
  assert (H1 : (0 <= 1000)%Z) by lia.
  assert (H2 : 0 <= 1 / 100000) by lra.
  assert (H3 : 0 <= 1 / 100) by lra.
  split; [exact H1 |]. split; [exact H2 |]. split; [exact H3 |].
  exact (@sigmoid_schedule_upper_half "sigmoid" 1000 (1 / 100000) (1 / 100)
           H1 H2 H3).
Defined.

End ScheduleEndpoints.

Section DegenerateSteps.

Local Open Scope R_scope.
Local Open Scope string_scope.

(** X6. With [n_steps = 0] construction succeeds for each of the six
    kinds that have a generator, and every sequence of the scheduler is
    empty. *)
Theorem init_zero_steps (b0 b1 : R) :
  Forall (fun schedule =>
            exists s : NoiseScheduler.t,
              NoiseScheduler.init schedule 0 b0 b1 = Ok s
              /\ data (NoiseScheduler.betas s) = []
              /\ data (NoiseScheduler.betas_sqrt s) = []
              /\ data (NoiseScheduler.alphas s) = []
              /\ data (NoiseScheduler.alphas_cumprod s) = []
              /\ data (NoiseScheduler.alphas_bar_sqrt s) = []
              /\ data (NoiseScheduler.one_minus_alphas_bar_sqrt s) = [])
         Props.schedule_kinds.
Proof.
  unfold Props.schedule_kinds.
  repeat (apply Forall_cons;
          [eexists; split; [reflexivity | repeat split] |]).
  apply Forall_nil.
Qed.

(** X7. With a negative [n_steps] and a schedule of [valid_schedules],
    construction raises the runtime error of the first generator,
    [torch.linspace], whatever the schedule selected. *)
Theorem init_negative_steps (schedule : string) (n : Z) (b0 b1 : R) :
  (n < 0)%Z -> In schedule NoiseScheduler.valid_schedules ->
  NoiseScheduler.init schedule n b0 b1 = Raise RuntimeError.
Proof.
  intros Hn Hin. unfold NoiseScheduler.init.
  apply contains_In in Hin. rewrite Hin. cbn [negb].
  unfold NoiseScheduler.linear_schedule at 1, Torch.linspace at 1.
  cbn [NoiseScheduler.n_steps].
  apply Z.ltb_lt in Hn. rewrite Hn. reflexivity.
Qed.

Lemma init_negative_steps_witness :
  NoiseScheduler.init "cosine" (-3) 0 1 = Raise RuntimeError.
Proof.
  apply init_negative_steps; [lia | simpl; tauto].
Defined.

End DegenerateSteps.

(* ================================================================== *)
(** ** More on the lookup [get_noisy_x_at_t] *)

Section LookupEdges.

Local Open Scope R_scope.
Local Open Scope string_scope.

(** X9. The lookup reads nothing of the sample [x] but its rank, and
    does not tell rank 0 from rank 1: two samples, of any element types,
    whose ranks agree once raised to at least 1 give the same result. *)
Theorem lookup_reads_rank_only {A B B' : Type} (input : Tensor A)
    (t : Tensor Z) (x : Tensor B) (x' : Tensor B') :
  Nat.max 1 (rank x) = Nat.max 1 (rank x') ->
  NoiseScheduler.get_noisy_x_at_t input t x
  = NoiseScheduler.get_noisy_x_at_t input t x'.
Proof.
  intros H. unfold NoiseScheduler.get_noisy_x_at_t, Py.list_repeat, rank in *.
  replace (Z.to_nat (Z.of_nat (length (shape x)) - 1))
    with (Z.to_nat (Z.of_nat (length (shape x')) - 1)) by lia.
  reflexivity.
Qed.

Lemma lookup_reads_rank_only_witness :
  NoiseScheduler.get_noisy_x_at_t (vector [10; 20; 30]%Z) (vector [2; 0]%Z)
    (mkTensor [] [7%Z])
  = NoiseScheduler.get_noisy_x_at_t (vector [10; 20; 30]%Z) (vector [2; 0]%Z)
      (vector [true; false; true]).
Proof.
  apply lookup_reads_rank_only. reflexivity.
Defined.

Lemma mapM_raise_uniform {X Y : Type} (f : X -> result Y) (e : PyError)
    (l : list X) :
  (forall a, In a l -> f a = Raise e \/ exists b, f a = Ok b) ->
  Exists (fun a => f a = Raise e) l ->
  mapM f l = Raise e.
Proof.
  induction l as [| a l IH]; intros Hall Hex.
  - inversion Hex.
  - simpl. destruct (Hall a (or_introl eq_refl)) as [Ha | [b Hb]].
    + rewrite Ha. reflexivity.
    + rewrite Hb. cbn [bind].
      rewrite IH; [reflexivity | |].
      * intros a' Ha'. apply Hall. right. exact Ha'.
      * inversion Hex as [? ? Ha | ? ? Hl]; subst.
        -- rewrite Hb in Ha. discriminate Ha.
        -- exact Hl.
Qed.

Lemma Exists_combine_seq {Y : Type} (P : Y -> Prop) (l : list Y) (s : nat) :
  Exists P l -> Exists (fun pi => P (snd pi)) (combine (seq s (length l)) l).
Proof.
  revert s. induction l as [| a l IH]; intros s H.
  - inversion H.
  - simpl. inversion H as [? ? Ha | ? ? Hl]; subst.
    + apply Exists_cons_hd. exact Ha.
    + apply Exists_cons_tl. apply IH. exact Hl.
Qed.

(** X10. Looking up a sequence with a batch of indices of which one is
    negative or not below the length of the sequence raises a runtime
    error, whatever the sample. *)
Theorem lookup_index_out_of_range {A B : Type} (input : Tensor A)
    (t : Tensor Z) (x : Tensor B) :
  shape input = [length (data input)] ->
  shape t = [length (data t)] ->
  Exists (fun i => (i < 0 \/ Z.of_nat (length (data input)) <= i)%Z) (data t) ->
  NoiseScheduler.get_noisy_x_at_t input t x = Raise RuntimeError.
Proof.
  intros Hin Hts Hex.
  unfold NoiseScheduler.get_noisy_x_at_t, Torch.gather.
  rewrite Hin, Hts. cbn [length Nat.eqb negb tl combine forallb hd].
  rewrite mapM_raise_uniform with (e := RuntimeError); [reflexivity | |].
  - intros [p i] _.
    destruct ((i <? 0) || (Z.of_nat (length (data input)) <=? i))%Z;
      [left; reflexivity |].
    destruct (nth_error _ _); [right; eexists; reflexivity | left; reflexivity].
  - apply Exists_combine_seq with (s := 0%nat) in Hex.
    eapply Exists_impl; [| exact Hex].
    intros [p i] Hi. cbn [snd] in Hi.
    assert (E : ((i <? 0) || (Z.of_nat (length (data input)) <=? i))%Z = true).
    { apply orb_true_iff. destruct Hi as [Hi | Hi];
        [left; apply Z.ltb_lt | right; apply Z.leb_le]; exact Hi. }
    rewrite E. reflexivity.
Qed.

Lemma lookup_index_out_of_range_witness :
  NoiseScheduler.get_noisy_x_at_t (vector [10; 20; 30]%Z) (vector [2; 3]%Z)
    (mkTensor [2; 1]%nat [7%Z; 8%Z])
  = Raise RuntimeError.
Proof.
  apply lookup_index_out_of_range; [reflexivity | reflexivity |].
  apply Exists_cons_tl, Exists_cons_hd. right. simpl. lia.
Defined.

End LookupEdges.

(* ================================================================== *)
(** ** What the gated layer computes *)

Section GatedLayer.

Local Open Scope R_scope.

Lemma firstn_skipn_chunk {X Y : Type} (f : X -> list Y) (k : nat) (a : X)
    (l : list X) (r : nat) :
  (forall v, length (f v) = k) -> (r < length l)%nat ->
  firstn k (skipn (r * k) (flat_map f l)) = f (nth r l a).
Proof.
  intros Hk. revert r. induction l as [| v l IH]; intros r Hr.
  - simpl in Hr. lia.
  - cbn [flat_map]. destruct r as [| r].
    + cbn [Nat.mul skipn nth]. rewrite firstn_app, Hk, Nat.sub_diag.
      cbn [firstn]. rewrite app_nil_r.
      rewrite <- (Hk v). apply firstn_all.
    + cbn [nth]. rewrite skipn_app, Hk.
      rewrite skipn_all2 by (rewrite Hk; simpl; lia).
      cbn [app]. replace (S r * k - k)%nat with (r * k)%nat by (simpl; lia).
      apply IH. simpl in Hr. lia.
Qed.

Lemma nth_chunk {X Y : Type} (f : X -> list Y) (k : nat) (a : X) (d : Y)
    (l : list X) (r j : nat) :
  (forall v, length (f v) = k) -> (r < length l)%nat -> (j < k)%nat ->
  nth (r * k + j) (flat_map f l) d = nth j (f (nth r l a)) d.
Proof.
  intros Hk. revert r. induction l as [| v l IH]; intros r Hr Hj.
  - simpl in Hr. lia.
  - cbn [flat_map]. destruct r as [| r].
    + cbn [Nat.mul Nat.add nth]. apply app_nth1. rewrite Hk. exact Hj.
    + cbn [nth]. rewrite app_nth2 by (rewrite Hk; simpl; lia).
      rewrite Hk. replace (S r * k + j - k)%nat with (r * k + j)%nat
        by (simpl; lia).
      apply IH; [simpl in Hr; lia | exact Hj].
Qed.

Lemma operand_pos_same (b d p : nat) :
  (p < b * d)%nat -> Torch.operand_pos [b; d] (unravel [b; d] p) = p.
Proof.
  intros Hp.
  assert (Hd : (0 < d)%nat) by (destruct d; [lia | lia]).
  assert (Hb : (0 < b)%nat) by (destruct b; [simpl in Hp; lia | lia]).
  unfold Torch.operand_pos.
  cbn [unravel numel fold_right length Nat.sub skipn combine map ravel tl].
  rewrite !Nat.mul_1_r, Nat.div_1_r, Nat.add_0_r.
  assert (Hq : (p / d < b)%nat) by (apply Nat.Div0.div_lt_upper_bound; lia).
  assert (Hr : (p mod d < d)%nat) by (apply Nat.mod_upper_bound; lia).
  rewrite (Nat.mod_small (p / d) b) by exact Hq.
  rewrite (Nat.mod_small (p mod d) d) by exact Hr.
  pose proof (Nat.div_mod_eq p d) as Hdm.
  destruct (b =? 1)%nat eqn:Eb; destruct (d =? 1)%nat eqn:Ed;
    try apply Nat.eqb_eq in Eb; try apply Nat.eqb_eq in Ed; nia.
Qed.

(** The product of two tensors of one two-dimensional shape is taken
    entry by entry. *)
Lemma mul_same_shape (a c : Tensor R) (b d : nat) :
  shape a = [b; d] -> shape c = [b; d] ->
  Torch.mul a c
  = Ok (mkTensor [b; d]
          (map (fun p => nth p (data a) 0 * nth p (data c) 0)
             (seq 0 (b * d)))).
Proof.
  intros Ha Hc. unfold Torch.mul, Torch.broadcast_op, Torch.broadcast_shapes.
  rewrite Ha, Hc. cbn [rev app Torch.broadcast_rev].
  rewrite !Nat.eqb_refl. cbn [bind fmap rev app].
  f_equal. f_equal.
  cbn [numel fold_right]. rewrite Nat.mul_1_r.
  apply map_ext_in. intros p Hp. apply in_seq in Hp.
  cbv zeta. rewrite operand_pos_same by lia. reflexivity.
Qed.

(** What construction leaves in a gated layer. *)
Lemma ConditionalLinear_init_inv (n_in n_out n_steps : Z) (p : LayerInit)
    (c : ConditionalLinear.t) :
  ConditionalLinear.init n_in n_out n_steps p = Ok c ->
  (0 <= n_in)%Z /\ (0 <= n_out)%Z /\ (0 <= n_steps)%Z
  /\ c = ConditionalLinear.mk n_out
           (Linear.mk (Z.to_nat n_in) (Z.to_nat n_out)
              (mkTensor [Z.to_nat n_out; Z.to_nat n_in]
                 (flat_map (fun j => map (lin_weight p j)
                                       (seq 0 (Z.to_nat n_in)))
                    (seq 0 (Z.to_nat n_out))))
              (vector (map (lin_bias p) (seq 0 (Z.to_nat n_out)))))
           (Embedding.mk (Z.to_nat n_steps) (Z.to_nat n_out)
              (mkTensor [Z.to_nat n_steps; Z.to_nat n_out]
                 (flat_map (fun i => map (embed_weight p i)
                                       (seq 0 (Z.to_nat n_out)))
                    (seq 0 (Z.to_nat n_steps))))).
Proof.
  unfold ConditionalLinear.init, Linear.init, Embedding.init.
  destruct ((n_in <? 0) || (n_out <? 0))%Z eqn:E1; [discriminate |].
  destruct ((n_steps <? 0) || (n_out <? 0))%Z eqn:E2; [discriminate |].
  cbn [bind]. intros H. injection H as <-.
  apply orb_false_iff in E1. destruct E1 as [E1 E1'].
  apply orb_false_iff in E2. destruct E2 as [E2 _].
  apply Z.ltb_ge in E1, E1', E2.
  repeat split; assumption.
Qed.

(** X12. A constructed gated layer, on a batch of rows [x] and one step
    index per row: the forward pass returns a batch of the layer's
    output width whose entry in row [r] and column [j] is the embedding
    table's entry at (step of row [r], [j]) times the plain linear
    layer's output, the dot product of weight row [j] with row [r] of
    [x] plus bias [j]. *)
Theorem ConditionalLinear_forward_entries (n_in n_out n_steps : Z)
    (p : LayerInit) (c : ConditionalLinear.t) (x : Tensor R) (t : Tensor Z) :
  ConditionalLinear.init n_in n_out n_steps p = Ok c ->
  (0 < n_out)%Z ->
  Props.index_batch (Z.to_nat n_steps) t ->
  shape x = [length (data t); Z.to_nat n_in] ->
  exists out : Tensor R,
    ConditionalLinear.forward c x t = Ok out
    /\ shape out = [length (data t); Z.to_nat n_out]
    /\ forall r j : nat,
         (r < length (data t))%nat -> (j < Z.to_nat n_out)%nat ->
         nth (r * Z.to_nat n_out + j) (data out) 0
         = embed_weight p (Z.to_nat (nth r (data t) 0%Z)) j
           * (Linear.dot (map (lin_weight p j) (seq 0 (Z.to_nat n_in)))
                (firstn (Z.to_nat n_in)
                   (skipn (r * Z.to_nat n_in) (data x)))
              + lin_bias p j).
Proof.
  intros Hinit Hout [Hts Hrange] Hx.
  destruct (ConditionalLinear_init_inv _ _ _ _ Hinit)
    as (Hin & _ & Hsteps & ->).
  set (i := Z.to_nat n_in) in *. set (o := Z.to_nat n_out) in *.
  set (n := Z.to_nat n_steps) in *. set (b := length (data t)) in *.
  assert (Ho : (0 < o)%nat) by (unfold o; lia).
  unfold ConditionalLinear.forward.
  cbn [ConditionalLinear.lin ConditionalLinear.embed ConditionalLinear.n_outputs].
  (* the plain linear layer *)
  unfold Linear.forward at 1. rewrite Hx.
  cbn [rev app Linear.in_features Linear.out_features Linear.weight
         Linear.bias data vector].
  rewrite Nat.eqb_refl. cbn [negb bind numel fold_right].
  rewrite Nat.mul_1_r.
  (* the embedding *)
  unfold Embedding.forward at 1.
  cbn [Embedding.num_embeddings Embedding.embedding_dim Embedding.weight data].
  rewrite (@mapM_pure _ _ _
             (fun s => map (embed_weight p (Z.to_nat s)) (seq 0 o))).
  2:{ intros s Hs. rewrite Forall_forall in Hrange. specialize (Hrange s Hs).
      fold n in Hrange.
      destruct ((s <? 0) || (Z.of_nat n <=? s))%Z eqn:E.
      - apply orb_true_iff in E. destruct E as [E | E];
          [apply Z.ltb_lt in E | apply Z.leb_le in E]; lia.
      - f_equal.
        rewrite (@firstn_skipn_chunk _ _ _ o 0%nat)
          by (try (intros; rewrite length_map, length_seq; reflexivity);
              rewrite length_seq; lia).
        rewrite seq_nth by lia. reflexivity. }
  cbn [bind]. rewrite Hts. cbn [app].
  (* the view *)
  unfold Torch.view_rows. cbn [shape data].
  destruct (n_out <=? 0)%Z eqn:E; [apply Z.leb_le in E; lia |].
  fold o. cbn [numel fold_right]. rewrite Nat.mul_1_r.
  rewrite Nat.Div0.mod_mul. cbn [Nat.eqb bind].
  rewrite Nat.div_mul by lia.
  (* the product *)
  rewrite (@mul_same_shape _ _ b o) by reflexivity.
  eexists. split; [reflexivity |]. cbn [shape data].
  split; [reflexivity |].
  intros r j Hr Hj.
  assert (Hp : (r * o + j < b * o)%nat) by nia.
  rewrite (nth_map_lt _ _ 0%nat) by (rewrite length_seq; exact Hp).
  rewrite seq_nth by exact Hp. cbn [Nat.add].
  f_equal.
  - rewrite <- flat_map_concat_map.
    rewrite (@nth_chunk _ _ _ o 0%Z 0)
      by (try (intros; rewrite length_map, length_seq; reflexivity); assumption).
    rewrite (nth_map_lt _ _ 0%nat) by (rewrite length_seq; exact Hj).
    rewrite seq_nth by exact Hj. reflexivity.
  - rewrite (@nth_chunk _ _ _ o 0%nat 0)
      by (try (intros; rewrite length_map, length_seq; reflexivity);
          try (rewrite length_seq; exact Hr); exact Hj).
    rewrite seq_nth by exact Hr. cbn [Nat.add].
    rewrite (nth_map_lt _ _ 0%nat) by (rewrite length_seq; exact Hj).
    rewrite seq_nth by exact Hj. cbn [Nat.add].
    rewrite (@firstn_skipn_chunk _ _ _ i 0%nat)
      by (try (intros; rewrite length_map, length_seq; reflexivity);
          rewrite length_seq; exact Hj).
    rewrite seq_nth by exact Hj. cbn [Nat.add].
    rewrite (nth_map_lt _ _ 0%nat) by (rewrite length_seq; exact Hj).
    rewrite seq_nth by exact Hj. reflexivity.
Qed.

End GatedLayer.

Lemma ConditionalLinear_forward_entries_witness :
  exists c : ConditionalLinear.t,
    ConditionalLinear.init 2 2 3
      (mkLayerInit (fun _ _ => 1%R) (fun _ => 0%R) (fun _ _ => 1%R)) = Ok c
    /\ (0 < 2)%Z
    /\ Props.index_batch (Z.to_nat 3) (vector [0; 2]%Z)
    /\ shape (mkTensor [2; 2]%nat [1; 2; 3; 4]%R)
       = [length (data (vector [0; 2]%Z)); Z.to_nat 2]
    /\ exists out : Tensor R,
         ConditionalLinear.forward c (mkTensor [2; 2]%nat [1; 2; 3; 4]%R)
           (vector [0; 2]%Z) = Ok out
         /\ shape out = [length (data (vector [0; 2]%Z)); Z.to_nat 2]
         /\ forall r j : nat,
              (r < length (data (vector [0; 2]%Z)))%nat ->
              (j < Z.to_nat 2)%nat ->
              nth (r * Z.to_nat 2 + j) (data out) 0%R
              = (1 * (Linear.dot (map (fun _ => 1) (seq 0 (Z.to_nat 2)))
                        (firstn (Z.to_nat 2)
                           (skipn (r * Z.to_nat 2)
                              (data (mkTensor [2; 2]%nat [1; 2; 3; 4]))))
                      + 0))%R.
Proof.
  destruct (@ConditionalLinear_init_ok 2 2 3
              (mkLayerInit (fun _ _ => 1%R) (fun _ => 0%R) (fun _ _ => 1%R))
              ltac:(lia) ltac:(lia) ltac:(lia)) as (c & Hc & _).
  assert (Ht : Props.index_batch (Z.to_nat 3) (vector [0; 2]%Z)).
  { split; [reflexivity |]. simpl. repeat constructor; lia. }
  exists c. split; [exact Hc |]. split; [lia |]. split; [exact Ht |].
  split; [reflexivity |].
  exact (@ConditionalLinear_forward_entries 2 2 3
           (mkLayerInit (fun _ _ => 1%R) (fun _ => 0%R) (fun _ _ => 1%R))
           c (mkTensor [2; 2]%nat [1; 2; 3; 4]%R) (vector [0; 2]%Z)
           Hc ltac:(lia) Ht eq_refl).
Defined.

(* ================================================================== *)
(** ** How the gated layer fails *)

Section GatedLayerErrors.

Local Open Scope R_scope.

Lemma Linear_forward_width (l : Linear.t) (x : Tensor R) (lead : list nat)
    (k : nat) :
  shape x = lead ++ [k] ->
  (k <> Linear.in_features l -> Linear.forward l x = Raise RuntimeError)
  /\ (k = Linear.in_features l ->
      exists out : Tensor R,
        Linear.forward l x = Ok out
        /\ shape out = lead ++ [Linear.out_features l]).
Proof.
  intros Hx. unfold Linear.forward. rewrite Hx, rev_app_distr.
  cbn [rev app]. split; intros Hk.
  - apply Nat.eqb_neq in Hk. rewrite Hk. reflexivity.
  - apply Nat.eqb_eq in Hk. rewrite Hk. cbn [negb].
    eexists. split; [reflexivity |]. cbn [shape].
    rewrite rev_involutive. reflexivity.
Qed.

(** X13. A constructed gated layer raises a runtime error on an input
    whose last size is not the layer's input width, whatever the step
    indices: the plain linear layer runs first. *)
Theorem ConditionalLinear_forward_width_error (n_in n_out n_steps : Z)
    (p : LayerInit) (c : ConditionalLinear.t) (x : Tensor R) (t : Tensor Z)
    (lead : list nat) (k : nat) :
  ConditionalLinear.init n_in n_out n_steps p = Ok c ->
  shape x = lead ++ [k] ->
  k <> Z.to_nat n_in ->
  ConditionalLinear.forward c x t = Raise RuntimeError.
Proof.
  intros Hinit Hx Hk.
  destruct (ConditionalLinear_init_inv _ _ _ _ Hinit) as (_ & _ & _ & Hc).
  destruct (@Linear_forward_width (ConditionalLinear.lin c) x lead k Hx)
    as [Hbad _].
  unfold ConditionalLinear.forward. rewrite Hbad; [reflexivity |].
  rewrite Hc. exact Hk.
Qed.

(** X14. A constructed gated layer, on an input of the layer's input
    width, raises an index error when one of the step indices is
    negative or not below [n_steps]. *)
Theorem ConditionalLinear_forward_index_error (n_in n_out n_steps : Z)
    (p : LayerInit) (c : ConditionalLinear.t) (x : Tensor R) (t : Tensor Z)
    (lead : list nat) :
  ConditionalLinear.init n_in n_out n_steps p = Ok c ->
  shape x = lead ++ [Z.to_nat n_in] ->
  Exists (fun i => (i < 0 \/ n_steps <= i)%Z) (data t) ->
  ConditionalLinear.forward c x t = Raise IndexError.
Proof.
  intros Hinit Hx Hex.
  destruct (ConditionalLinear_init_inv _ _ _ _ Hinit)
    as (Hin & Hout & Hsteps & Hc).
  destruct (@Linear_forward_width (ConditionalLinear.lin c) x lead _ Hx)
    as [_ Hgood].
  destruct Hgood as (out & Ho & _); [rewrite Hc; reflexivity |].
  unfold ConditionalLinear.forward. rewrite Ho. cbn [bind].
  unfold Embedding.forward.
  rewrite mapM_raise_uniform with (e := IndexError); [reflexivity | |].
  - intros i _.
    destruct ((i <? 0)
              || (Z.of_nat (Embedding.num_embeddings
                              (ConditionalLinear.embed c)) <=? i))%Z;
      [left; reflexivity | right; eexists; reflexivity].
  - eapply Exists_impl; [| exact Hex].
    intros i Hi. cbv beta in Hi.
    assert (E : ((i <? 0)
                 || (Z.of_nat (Embedding.num_embeddings
                                 (ConditionalLinear.embed c)) <=? i))%Z
                = true).
    { rewrite Hc. cbn [ConditionalLinear.embed Embedding.num_embeddings].
      apply orb_true_iff. destruct Hi as [Hi | Hi];
        [left; apply Z.ltb_lt; exact Hi | right; apply Z.leb_le; lia]. }
    rewrite E. reflexivity.
Qed.

(** X15. A gated layer with no outputs can be constructed, but its
    forward pass raises on every input: [view(-1, 0)] is refused. *)
Theorem ConditionalLinear_zero_outputs (n_in n_steps : Z) (p : LayerInit)
    (c : ConditionalLinear.t) (x : Tensor R) (t : Tensor Z) :
  ConditionalLinear.init n_in 0 n_steps p = Ok c ->
  exists e : PyError, ConditionalLinear.forward c x t = Raise e.
Proof.
  intros Hinit.
  destruct (ConditionalLinear_init_inv _ _ _ _ Hinit) as (_ & _ & _ & Hc).
  assert (Hn : ConditionalLinear.n_outputs c = 0%Z) by (rewrite Hc; reflexivity).
  unfold ConditionalLinear.forward. rewrite Hn.
  destruct (Linear.forward (ConditionalLinear.lin c) x) as [out | e];
    [| eexists; reflexivity].
  cbn [bind].
  destruct (Embedding.forward (ConditionalLinear.embed c) t) as [g | e];
    [| eexists; reflexivity].
  cbn [bind]. unfold Torch.view_rows. cbn [Z.leb Z.compare bind].
  eexists. reflexivity.
Qed.

End GatedLayerErrors.

Lemma ConditionalLinear_forward_width_error_witness :
  exists c : ConditionalLinear.t,
    ConditionalLinear.init 2 2 3
      (mkLayerInit (fun _ _ => 1%R) (fun _ => 0%R) (fun _ _ => 1%R)) = Ok c
    /\ shape (mkTensor [2; 3]%nat [1; 2; 3; 4; 5; 6]%R) = [2%nat] ++ [3%nat]
    /\ 3%nat <> Z.to_nat 2
    /\ ConditionalLinear.forward c (mkTensor [2; 3]%nat [1; 2; 3; 4; 5; 6]%R)
         (vector [0; 7]%Z) = Raise RuntimeError.
Proof.
  destruct (@ConditionalLinear_init_ok 2 2 3
              (mkLayerInit (fun _ _ => 1%R) (fun _ => 0%R) (fun _ _ => 1%R))
              ltac:(lia) ltac:(lia) ltac:(lia)) as (c & Hc & _).
  exists c. split; [exact Hc |]. split; [reflexivity |].
  split; [simpl; lia |].
  exact (@ConditionalLinear_forward_width_error 2 2 3
           (mkLayerInit (fun _ _ => 1%R) (fun _ => 0%R) (fun _ _ => 1%R))
           c (mkTensor [2; 3]%nat [1; 2; 3; 4; 5; 6]%R) (vector [0; 7]%Z)
           [2%nat] 3%nat Hc eq_refl ltac:(simpl; lia)).
Defined.

Lemma ConditionalLinear_forward_index_error_witness :
  exists c : ConditionalLinear.t,
    ConditionalLinear.init 2 2 3
      (mkLayerInit (fun _ _ => 1%R) (fun _ => 0%R) (fun _ _ => 1%R)) = Ok c
    /\ shape (mkTensor [2; 2]%nat [1; 2; 3; 4]%R) = [2%nat] ++ [Z.to_nat 2]
    /\ Exists (fun i => (i < 0 \/ 3 <= i)%Z) (data (vector [0; 3]%Z))
    /\ ConditionalLinear.forward c (mkTensor [2; 2]%nat [1; 2; 3; 4]%R)
         (vector [0; 3]%Z) = Raise IndexError.
Proof.
  destruct (@ConditionalLinear_init_ok 2 2 3
              (mkLayerInit (fun _ _ => 1%R) (fun _ => 0%R) (fun _ _ => 1%R))
              ltac:(lia) ltac:(lia) ltac:(lia)) as (c & Hc & _).
  assert (Hex : Exists (fun i => (i < 0 \/ 3 <= i)%Z) (data (vector [0; 3]%Z))).
  { apply Exists_cons_tl, Exists_cons_hd. right. lia. }
  exists c. split; [exact Hc |]. split; [reflexivity |].
  split; [exact Hex |].
  exact (@ConditionalLinear_forward_index_error 2 2 3
           (mkLayerInit (fun _ _ => 1%R) (fun _ => 0%R) (fun _ _ => 1%R))
           c (mkTensor [2; 2]%nat [1; 2; 3; 4]%R) (vector [0; 3]%Z)
           [2%nat] Hc eq_refl Hex).
Defined.

Lemma ConditionalLinear_zero_outputs_witness :
  exists c : ConditionalLinear.t,
    ConditionalLinear.init 2 0 3
      (mkLayerInit (fun _ _ => 1%R) (fun _ => 0%R) (fun _ _ => 1%R)) = Ok c
    /\ exists e : PyError,
         ConditionalLinear.forward c (mkTensor [1; 2]%nat [1; 2]%R)
           (vector [0%Z]) = Raise e.
Proof.
  destruct (@ConditionalLinear_init_ok 2 0 3
              (mkLayerInit (fun _ _ => 1%R) (fun _ => 0%R) (fun _ _ => 1%R))
              ltac:(lia) ltac:(lia) ltac:(lia)) as (c & Hc & _).
  exists c. split; [exact Hc |].
  exact (@ConditionalLinear_zero_outputs 2 3
           (mkLayerInit (fun _ _ => 1%R) (fun _ => 0%R) (fun _ _ => 1%R))
           c (mkTensor [1; 2]%nat [1; 2]%R) (vector [0%Z]) Hc).
Defined.

(* ================================================================== *)
(** ** The sequential container and the construction of the guided model *)

Section SequentialAndGuided.

Local Open Scope R_scope.

Variable batch_norm : BatchNorm1d.t -> Tensor R -> result (Tensor R).

(** X16. A [DiffusionSequential] that holds no [ConditionalLinear] never
    reads the step indices: its result, or its exception, is the same for
    any two tensors [t]. *)
Theorem sequential_without_gates_ignores_t (modules : list Module)
    (input : Tensor R) (t t' : Tensor Z) :
  Forall (fun m => forall c : ConditionalLinear.t, m <> ConditionalLinearM c)
    modules ->
  DiffusionSequential.forward batch_norm modules input t
  = DiffusionSequential.forward batch_norm modules input t'.
Proof.
  intros H. revert input.
  induction H as [| m rest Hm _ IH]; intros input.
  - reflexivity.
  - cbn [DiffusionSequential.forward].
    destruct m as [c | l | bn | f].
    + exfalso. exact (Hm c eq_refl).
    + destruct (DiffusionSequential.call batch_norm (LinearM l) input);
        cbn [bind]; [apply IH | reflexivity].
    + destruct (DiffusionSequential.call batch_norm (BatchNorm1dM bn) input);
        cbn [bind]; [apply IH | reflexivity].
    + destruct (DiffusionSequential.call batch_norm (ActivationM f) input);
        cbn [bind]; [apply IH | reflexivity].
Qed.

(** X17. The guided linear model raises a type error when a flag asks
    for a component that is passed as [None]: [x] with [cat_x],
    [y_0_hat] with [cat_y_pred]; the network is not run. *)
Theorem forward_missing_component (m : ConditionalGuidedLinearModel.t)
    (x y_0_hat : option (Tensor R)) (y_t : Tensor R) (t : Tensor Z) :
  (ConditionalGuidedLinearModel.cat_x m = true /\ x = None)
  \/ (ConditionalGuidedLinearModel.cat_y_pred m = true /\ y_0_hat = None) ->
  ConditionalGuidedLinearModel.forward batch_norm m x y_t y_0_hat t
  = Raise TypeError.
Proof.
  unfold ConditionalGuidedLinearModel.forward, Torch.cat.
  intros [[Hf ->] | [Hf ->]]; rewrite Hf.
  - destruct (ConditionalGuidedLinearModel.cat_y_pred m);
      [destruct y_0_hat |]; reflexivity.
  - destruct (ConditionalGuidedLinearModel.cat_x m); reflexivity.
Qed.

Lemma Linear_init_iff (n_in n_out : Z) (w : nat -> nat -> R) (b : nat -> R) :
  (exists l, Linear.init n_in n_out w b = Ok l) <-> (0 <= n_in /\ 0 <= n_out)%Z.
Proof.
  split.
  - intros [l H]. unfold Linear.init in H.
    destruct ((n_in <? 0) || (n_out <? 0))%Z eqn:E; [discriminate H |].
    apply orb_false_iff in E. destruct E as [E1 E2].
    apply Z.ltb_ge in E1, E2. split; assumption.
  - intros [H1 H2]. destruct (@Linear_init_ok n_in n_out w b H1 H2) as (l & Hl & _).
    exists l. exact Hl.
Qed.

Lemma ConditionalLinear_init_iff (n_in n_out n_steps : Z) (p : LayerInit) :
  (exists c, ConditionalLinear.init n_in n_out n_steps p = Ok c)
  <-> (0 <= n_in /\ 0 <= n_out /\ 0 <= n_steps)%Z.
Proof.
  split.
  - intros [c H]. apply ConditionalLinear_init_inv in H. tauto.
  - intros (H1 & H2 & H3).
    destruct (@ConditionalLinear_init_ok n_in n_out n_steps p H1 H2 H3)
      as (c & Hc & _).
    exists c. exact Hc.
Qed.

Lemma gated_stack_iff (n_steps : Z) (act : Module) (params : nat -> LayerInit)
    (hidden : list Z) (k : nat) (prev : Z) :
  (exists stack, Props.gated_stack n_steps act params k prev hidden = Ok stack)
  <-> (hidden = []
       \/ (0 <= prev)%Z /\ Forall (fun h => 0 <= h)%Z hidden /\ (0 <= n_steps)%Z).
Proof.
  revert k prev. induction hidden as [| h rest IH]; intros k prev.
  - split; [intros _; left; reflexivity | intros _; eexists; reflexivity].
  - cbn [Props.gated_stack]. split.
    + intros [stack H]. right.
      apply bind_ok_inv in H. destruct H as (c & Hc & H).
      apply bind_ok_inv in H. destruct H as (ls & Hls & _).
      apply ConditionalLinear_init_inv in Hc.
      destruct Hc as (H1 & H2 & H3 & _).
      split; [exact H1 |]. split; [| exact H3].
      apply Forall_cons; [exact H2 |].
      destruct (proj1 (IH (S k) h) (ex_intro _ ls Hls)) as [-> | (_ & Hr & _)];
        [apply Forall_nil | exact Hr].
    + intros [H | (H1 & H2 & H3)]; [discriminate H |].
      inversion H2 as [| ? ? Hh Hr]; subst.
      destruct (proj2 (ConditionalLinear_init_iff prev h n_steps (params k))
                  (conj H1 (conj Hh H3))) as [c Hc].
      destruct (proj2 (IH (S k) h)) as [ls Hls];
        [right; repeat split; assumption |].
      rewrite Hc, Hls. cbn [bind]. eexists. reflexivity.
Qed.

Lemma gated_stack_error (n_steps : Z) (act : Module) (params : nat -> LayerInit)
    (hidden : list Z) (k : nat) (prev : Z) (e : PyError) :
  Props.gated_stack n_steps act params k prev hidden = Raise e ->
  e = RuntimeError.
Proof.
  revert k prev. induction hidden as [| h rest IH]; intros k prev H.
  - discriminate H.
  - cbn [Props.gated_stack] in H.
    apply bind_raise_inv in H. destruct H as [H | (c & _ & H)].
    + eapply ConditionalLinear_init_error. exact H.
    + apply bind_raise_inv in H. destruct H as [H | (ls & _ & H)].
      * eapply IH. exact H.
      * discriminate H.
Qed.

Lemma last_Forall (P : Z -> Prop) (l : list Z) (d : Z) :
  P d -> Forall P l -> P (last l d).
Proof.
  intros Hd H. revert d Hd.
  induction H as [| a l Ha _ IH]; intros d Hd; [exact Hd |].
  rewrite last_cons. apply IH. exact Ha.
Qed.

Lemma guided_init_ok (n_steps x_dim y_dim : Z) (n_hidden : list Z)
    (n_outputs : Z) (cat_x cat_y_pred : bool) (act : Module)
    (params : nat -> LayerInit) :
  (0 <= (y_dim + (if cat_x then x_dim else 0))
        + (if cat_y_pred then y_dim else 0))%Z ->
  Forall (fun h => 0 <= h)%Z n_hidden ->
  (0 <= n_outputs)%Z ->
  n_hidden = [] \/ (0 <= n_steps)%Z ->
  exists m : ConditionalGuidedLinearModel.t,
    ConditionalGuidedLinearModel.init n_steps x_dim y_dim n_hidden
      n_outputs cat_x cat_y_pred act params = Ok m.
Proof.
  intros Hd Hh Hout Hs. rewrite init_structure. cbv zeta.
  set (data_dim := ((y_dim + (if cat_x then x_dim else 0))
                    + (if cat_y_pred then y_dim else 0))%Z) in *.
  destruct (proj2 (gated_stack_iff n_steps act params n_hidden 0 data_dim))
    as [stack Hst].
  { destruct Hs as [-> | Hs]; [left; reflexivity | right; tauto]. }
  destruct (proj2 (Linear_init_iff (last (data_dim :: n_hidden) 0%Z) n_outputs
                     (lin_weight (params (length n_hidden)))
                     (lin_bias (params (length n_hidden)))))
    as [final Hf].
  { split; [| exact Hout].
    apply (@last_Forall (fun h => 0 <= h)%Z); [lia |].
    apply Forall_cons; assumption. }
  rewrite Hst, Hf. cbn [bind]. eexists. reflexivity.
Qed.

(** X18. Construction of the guided linear model either returns a model
    or raises a runtime error. It returns a model exactly when the input
    width of the network, every hidden width and [n_outputs] are
    non-negative and, unless [n_hidden] is empty, [n_steps] is
    non-negative: without hidden layers [n_steps] is never used. *)
Theorem guided_init_succeeds_iff (n_steps x_dim y_dim : Z) (n_hidden : list Z)
    (n_outputs : Z) (cat_x cat_y_pred : bool) (act : Module)
    (params : nat -> LayerInit) :
  ((exists m : ConditionalGuidedLinearModel.t,
      ConditionalGuidedLinearModel.init n_steps x_dim y_dim n_hidden
        n_outputs cat_x cat_y_pred act params = Ok m)
   <-> (0 <= (y_dim + (if cat_x then x_dim else 0))
             + (if cat_y_pred then y_dim else 0))%Z
       /\ Forall (fun h => 0 <= h)%Z n_hidden
       /\ (0 <= n_outputs)%Z
       /\ (n_hidden = [] \/ (0 <= n_steps)%Z))
  /\ forall e : PyError,
       ConditionalGuidedLinearModel.init n_steps x_dim y_dim n_hidden
         n_outputs cat_x cat_y_pred act params = Raise e ->
       e = RuntimeError.
Proof.
  rewrite init_structure. cbv zeta.
  set (data_dim := ((y_dim + (if cat_x then x_dim else 0))
                    + (if cat_y_pred then y_dim else 0))%Z).
  split; [split |].
  - intros [m H].
    apply bind_ok_inv in H. destruct H as (stack & Hst & H).
    apply bind_ok_inv in H. destruct H as (final & Hf & _).
    destruct (proj1 (Linear_init_iff _ _ _ _) (ex_intro _ final Hf))
      as [Hlast Hout].
    destruct (proj1 (gated_stack_iff _ _ _ _ _ _) (ex_intro _ stack Hst))
      as [-> | (Hd & Hh & Hs)].
    + cbn [last] in Hlast. repeat split;
        [exact Hlast | apply Forall_nil | exact Hout | left; reflexivity].
    + repeat split; [exact Hd | exact Hh | exact Hout | right; exact Hs].
  - intros (Hd & Hh & Hout & Hs).
    pose proof (@guided_init_ok n_steps x_dim y_dim n_hidden n_outputs
                  cat_x cat_y_pred act params Hd Hh Hout Hs) as H.
    rewrite init_structure in H. exact H.
  - intros e H.
    apply bind_raise_inv in H. destruct H as [H | (stack & _ & H)].
    + eapply gated_stack_error. exact H.
    + apply bind_raise_inv in H. destruct H as [H | (final & _ & H)].
      * eapply Linear_init_error. exact H.
      * discriminate H.
Qed.

End SequentialAndGuided.

Lemma sequential_without_gates_ignores_t_witness :
  DiffusionSequential.forward (fun _ v => Ok v)
    [SoftplusM; BatchNorm1dM (BatchNorm1d.mk 2 BatchNorm1d.default_eps)]
    (mkTensor [1; 2]%nat [1; 2]%R) (vector [0%Z])
  = DiffusionSequential.forward (fun _ v => Ok v)
      [SoftplusM; BatchNorm1dM (BatchNorm1d.mk 2 BatchNorm1d.default_eps)]
      (mkTensor [1; 2]%nat [1; 2]%R) (vector [5; 7]%Z).
Proof.
  apply sequential_without_gates_ignores_t.
  repeat constructor; intros c H; discriminate H.
Defined.

Lemma forward_missing_component_witness :
  ConditionalGuidedLinearModel.forward (fun _ v => Ok v)
    (ConditionalGuidedLinearModel.mk 10 3 2 true false [])
    None (mkTensor [1; 2]%nat [1; 2]%R)
    (Some (mkTensor [1; 2]%nat [3; 4]%R)) (vector [0%Z])
  = Raise TypeError.
Proof.
  apply forward_missing_component. left. split; reflexivity.
Defined.

(* ================================================================== *)
(** ** Construction of the convolutional model *)

Section GuidedConvConstruction.

Local Open Scope R_scope.
Local Open Scope string_scope.

Variable Encoder : Type.
Variable _get_output_layer_name_and_module : Encoder -> string * Linear.t.

(** What a constructed convolutional model holds. *)
Lemma conv_init_inv (encoder : Encoder)
    (cond_guide_model : ConditionalGuidedLinearModel.t)
    (connect_init : LayerInit) (self : ConditionalGuidedConvModel.t Encoder) :
  ConditionalGuidedConvModel.init _get_output_layer_name_and_module
    encoder cond_guide_model connect_init = Ok self ->
  let w := Linear.out_features
             (snd (_get_output_layer_name_and_module encoder)) in
  exists c : ConditionalLinear.t,
    ConditionalLinear.init (Z.of_nat w) (Z.of_nat w)
      (ConditionalGuidedLinearModel.n_steps cond_guide_model) connect_init
    = Ok c
    /\ self = ConditionalGuidedConvModel.mk encoder cond_guide_model
                (ConditionalGuidedLinearModel.n_steps cond_guide_model)
                (BatchNorm1d.mk w BatchNorm1d.default_eps)
                [ConditionalLinearM c;
                 BatchNorm1dM (BatchNorm1d.mk w (INR w));
                 SoftplusM].
Proof.
  unfold ConditionalGuidedConvModel.init.
  destruct (ConditionalGuidedLinearModel.cat_x cond_guide_model);
    cbn [Bool.eqb negb]; [discriminate |].
  destruct (ConditionalGuidedLinearModel.cat_y_pred cond_guide_model);
    cbn [Bool.eqb negb]; [discriminate |].
  destruct (_get_output_layer_name_and_module encoder) as [name module].
  cbn [snd].
  destruct (Z.of_nat (Linear.out_features module) * 2
            =? ConditionalGuidedLinearModel.y_dim cond_guide_model)%Z;
    cbn [negb]; [| discriminate].
  match goal with
  | |- context [ConditionalLinear.init ?a ?b ?c ?d] =>
      destruct (ConditionalLinear.init a b c d) as [cl | e]
  end; cbn [bind]; [| discriminate].
  intros H. injection H as <-. exists cl. split; reflexivity.
Qed.

Lemma conv_init_ok (encoder : Encoder)
    (cond_guide_model : ConditionalGuidedLinearModel.t)
    (connect_init : LayerInit) :
  ConditionalGuidedLinearModel.cat_x cond_guide_model = false ->
  ConditionalGuidedLinearModel.cat_y_pred cond_guide_model = false ->
  ConditionalGuidedLinearModel.y_dim cond_guide_model
  = (2 * Z.of_nat (Linear.out_features
                     (snd (_get_output_layer_name_and_module encoder))))%Z ->
  (0 <= ConditionalGuidedLinearModel.n_steps cond_guide_model)%Z ->
  exists self : ConditionalGuidedConvModel.t Encoder,
    ConditionalGuidedConvModel.init _get_output_layer_name_and_module
      encoder cond_guide_model connect_init = Ok self.
Proof.
  intros Hx Hy Hd Hs.
  unfold ConditionalGuidedConvModel.init. rewrite Hx, Hy.
  cbn [Bool.eqb negb].
  destruct (_get_output_layer_name_and_module encoder) as [name module].
  cbn [snd] in Hd.
  replace (Z.of_nat (Linear.out_features module) * 2
           =? ConditionalGuidedLinearModel.y_dim cond_guide_model)%Z
    with true by (symmetry; apply Z.eqb_eq; lia).
  cbn [negb].
  destruct (@ConditionalLinear_init_ok
              (Z.of_nat (Linear.out_features module))
              (Z.of_nat (Linear.out_features module))
              (ConditionalGuidedLinearModel.n_steps cond_guide_model)
              connect_init ltac:(lia) ltac:(lia) Hs) as (c & Hc & _).
  rewrite Hc. cbn [bind]. eexists. reflexivity.
Qed.

(** X19. Construction of the convolutional model returns a model exactly
    when the inner model has both flags false, its [y_dim] is twice the
    width of the encoder's output layer, and its [n_steps] is
    non-negative; it raises a runtime error, that of the embedding
    table, exactly when the first three hold and [n_steps] is negative. *)
Theorem conv_init_succeeds_iff (encoder : Encoder)
    (cond_guide_model : ConditionalGuidedLinearModel.t)
    (connect_init : LayerInit) :
  let w := Linear.out_features
             (snd (_get_output_layer_name_and_module encoder)) in
  let configured :=
    ConditionalGuidedLinearModel.cat_x cond_guide_model = false
    /\ ConditionalGuidedLinearModel.cat_y_pred cond_guide_model = false
    /\ ConditionalGuidedLinearModel.y_dim cond_guide_model
       = (2 * Z.of_nat w)%Z in
  ((exists self : ConditionalGuidedConvModel.t Encoder,
      ConditionalGuidedConvModel.init _get_output_layer_name_and_module
        encoder cond_guide_model connect_init = Ok self)
   <-> configured
       /\ (0 <= ConditionalGuidedLinearModel.n_steps cond_guide_model)%Z)
  /\ (ConditionalGuidedConvModel.init _get_output_layer_name_and_module
        encoder cond_guide_model connect_init = Raise RuntimeError
      <-> configured
          /\ (ConditionalGuidedLinearModel.n_steps cond_guide_model < 0)%Z).
Proof.
  cbv zeta. split; split.
  - intros [self H].
    destruct (conv_init_invariant _ _ _ _ H) as (_ & Hx & Hy & Hd & _).
    destruct (conv_init_inv _ _ _ H) as (c & Hc & _).
    apply ConditionalLinear_init_inv in Hc.
    repeat split; tauto.
  - intros ((Hx & Hy & Hd) & Hs). apply conv_init_ok; assumption.
  - intros H.
    destruct (ConditionalGuidedLinearModel.cat_x cond_guide_model) eqn:Hx;
      [unfold ConditionalGuidedConvModel.init in H; rewrite Hx in H;
       discriminate H |].
    destruct (ConditionalGuidedLinearModel.cat_y_pred cond_guide_model) eqn:Hy;
      [unfold ConditionalGuidedConvModel.init in H; rewrite Hx, Hy in H;
       discriminate H |].
    destruct (Z.eq_dec
                (ConditionalGuidedLinearModel.y_dim cond_guide_model)
                (2 * Z.of_nat
                       (Linear.out_features
                          (snd (_get_output_layer_name_and_module encoder)))))
      as [Hd | Hd].
    + split; [repeat split; assumption |].
      destruct (Z_lt_le_dec
                  (ConditionalGuidedLinearModel.n_steps cond_guide_model) 0)
        as [Hs | Hs]; [exact Hs |].
      destruct (@conv_init_ok encoder cond_guide_model connect_init
                  Hx Hy Hd Hs) as [self Hself].
      rewrite Hself in H. discriminate H.
    + exfalso. unfold ConditionalGuidedConvModel.init in H.
      rewrite Hx, Hy in H. cbn [Bool.eqb negb] in H.
      destruct (_get_output_layer_name_and_module encoder) as [name module].
      cbn [snd] in Hd.
      replace (Z.of_nat (Linear.out_features module) * 2
               =? ConditionalGuidedLinearModel.y_dim cond_guide_model)%Z
        with false in H by (symmetry; apply Z.eqb_neq; lia).
      discriminate H.
  - intros ((Hx & Hy & Hd) & Hs).
    unfold ConditionalGuidedConvModel.init. rewrite Hx, Hy.
    cbn [Bool.eqb negb].
    destruct (_get_output_layer_name_and_module encoder) as [name module].
    cbn [snd] in Hd.
    replace (Z.of_nat (Linear.out_features module) * 2
             =? ConditionalGuidedLinearModel.y_dim cond_guide_model)%Z
      with true by (symmetry; apply Z.eqb_eq; lia).
    cbn [negb].
    match goal with
    | |- context [ConditionalLinear.init ?a ?b ?c ?d] =>
        destruct (ConditionalLinear.init a b c d) as [cl | e] eqn:E
    end; cbn [bind].
    + apply ConditionalLinear_init_inv in E. lia.
    + apply ConditionalLinear_init_error in E. rewrite E. reflexivity.
Qed.

Lemma INR_not_default_eps (k : nat) : INR k <> BatchNorm1d.default_eps.
Proof.
  unfold BatchNorm1d.default_eps. destruct k as [| k].
  - simpl. lra.
  - pose proof (pos_INR k) as H. rewrite S_INR. lra.
Qed.

(** X20. In a constructed convolutional model the two batch
    normalisation layers have the encoder's output width as their number
    of features, but not the same [eps]: the layer applied to the
    encoder's output keeps the default, the one inside the connection
    module is given the width as [eps]. *)
Theorem conv_batch_norm_eps (encoder : Encoder)
    (cond_guide_model : ConditionalGuidedLinearModel.t)
    (connect_init : LayerInit) (self : ConditionalGuidedConvModel.t Encoder) :
  ConditionalGuidedConvModel.init _get_output_layer_name_and_module
    encoder cond_guide_model connect_init = Ok self ->
  let w := Linear.out_features
             (snd (_get_output_layer_name_and_module encoder)) in
  exists (c : ConditionalLinear.t) (bn : BatchNorm1d.t),
    ConditionalGuidedConvModel.connect_module self
    = [ConditionalLinearM c; BatchNorm1dM bn; SoftplusM]
    /\ BatchNorm1d.num_features (ConditionalGuidedConvModel.norm self) = w
    /\ BatchNorm1d.num_features bn = w
    /\ BatchNorm1d.eps (ConditionalGuidedConvModel.norm self)
       = BatchNorm1d.default_eps
    /\ BatchNorm1d.eps bn = INR w
    /\ BatchNorm1d.eps bn
       <> BatchNorm1d.eps (ConditionalGuidedConvModel.norm self).
Proof.
  intros H. cbv zeta.
  destruct (conv_init_inv _ _ _ H) as (c & _ & ->).
  do 2 eexists. split; [reflexivity |].
  cbn [ConditionalGuidedConvModel.norm BatchNorm1d.num_features BatchNorm1d.eps].
  repeat split. apply INR_not_default_eps.
Qed.

End GuidedConvConstruction.

Lemma conv_batch_norm_eps_witness :
  exists self : ConditionalGuidedConvModel.t unit,
    ConditionalGuidedConvModel.init
      (fun _ : unit =>
         ("fc"%string,
          Linear.mk 3 2 (mkTensor [2; 3]%nat (repeat 0%R 6)) (vector [0%R; 0%R])))
      tt (ConditionalGuidedLinearModel.mk 10 0 4 false false [])
      (mkLayerInit (fun _ _ => 1%R) (fun _ => 0%R) (fun _ _ => 1%R))
    = Ok self
    /\ exists (c : ConditionalLinear.t) (bn : BatchNorm1d.t),
         ConditionalGuidedConvModel.connect_module self
         = [ConditionalLinearM c; BatchNorm1dM bn; SoftplusM]
         /\ BatchNorm1d.num_features (ConditionalGuidedConvModel.norm self)
            = 2%nat
         /\ BatchNorm1d.num_features bn = 2%nat
         /\ BatchNorm1d.eps (ConditionalGuidedConvModel.norm self)
            = BatchNorm1d.default_eps
         /\ BatchNorm1d.eps bn = INR 2
         /\ BatchNorm1d.eps bn
            <> BatchNorm1d.eps (ConditionalGuidedConvModel.norm self).
Proof.
  destruct (@conv_init_ok unit
              (fun _ : unit =>
                 ("fc"%string,
                  Linear.mk 3 2 (mkTensor [2; 3]%nat (repeat 0%R 6))
                    (vector [0%R; 0%R])))
              tt (ConditionalGuidedLinearModel.mk 10 0 4 false false [])
              (mkLayerInit (fun _ _ => 1%R) (fun _ => 0%R) (fun _ _ => 1%R))
              eq_refl eq_refl eq_refl ltac:(simpl; lia)) as [self Hself].
  exists self. split; [exact Hself |].
  exact (@conv_batch_norm_eps unit _ tt _ _ self Hself).
Defined.

(* ================================================================== *)
(** ** The widths in the forward pass of the convolutional model *)

Section LastSizes.

Local Open Scope R_scope.

Lemma broadcast_shapes_last (s1 s2 rs : list nat) (a b : nat) :
  Torch.broadcast_shapes (s1 ++ [a]) (s2 ++ [b]) = Ok rs ->
  exists (r : list nat) (d : nat),
    rs = r ++ [d] /\ (d = a \/ d = b) /\ (a <> 1%nat -> d = a)
    /\ (b <> 1%nat -> d = b).
Proof.
  unfold Torch.broadcast_shapes, fmap. rewrite !rev_app_distr.
  cbn [rev app Torch.broadcast_rev]. intros H.
  apply bind_ok_inv in H. destruct H as (l & Hl & H). injection H as <-.
  apply bind_ok_inv in Hl. destruct Hl as (d & Hd & Hl).
  apply bind_ok_inv in Hl. destruct Hl as (r & _ & Hl). injection Hl as <-.
  exists (rev r), d. split; [reflexivity |].
  destruct (a =? b)%nat eqn:E1.
  - apply Nat.eqb_eq in E1. injection Hd as <-. subst b. tauto.
  - apply Nat.eqb_neq in E1. destruct (a =? 1)%nat eqn:E2.
    + apply Nat.eqb_eq in E2. injection Hd as <-. subst a.
      repeat split; try tauto; intros Hb; exfalso; apply Hb; reflexivity.
    + apply Nat.eqb_neq in E2. destruct (b =? 1)%nat eqn:E3; [| discriminate Hd].
      apply Nat.eqb_eq in E3. injection Hd as <-. subst b.
      repeat split; try tauto; intros Hb; exfalso; apply Hb; reflexivity.
Qed.

Lemma mul_last (a c out : Tensor R) (s1 s2 : list nat) (wa wc : nat) :
  shape a = s1 ++ [wa] -> shape c = s2 ++ [wc] ->
  Torch.mul a c = Ok out ->
  exists (r : list nat) (d : nat),
    shape out = r ++ [d] /\ (d = wa \/ d = wc) /\ (wa <> 1%nat -> d = wa)
    /\ (wc <> 1%nat -> d = wc).
Proof.
  intros Ha Hc. unfold Torch.mul, Torch.broadcast_op. rewrite Ha, Hc.
  intros H. apply bind_ok_inv in H. destruct H as (rs & Hrs & H).
  injection H as <-. cbn [shape].
  eapply broadcast_shapes_last. exact Hrs.
Qed.

Lemma Linear_forward_last (l : Linear.t) (x out : Tensor R) :
  Linear.forward l x = Ok out ->
  exists lead : list nat, shape out = lead ++ [Linear.out_features l].
Proof.
  unfold Linear.forward. destruct (rev (shape x)) as [| k lead_rev];
    [discriminate |].
  destruct (negb (k =? Linear.in_features l)%nat); [discriminate |].
  intros H. injection H as <-. eexists. reflexivity.
Qed.

Lemma view_rows_inv (g out : Tensor R) (n : Z) :
  Torch.view_rows g n = Ok out ->
  (0 < n)%Z /\ exists k : nat, shape out = [k] ++ [Z.to_nat n].
Proof.
  unfold Torch.view_rows. destruct (n <=? 0)%Z eqn:E; [discriminate |].
  apply Z.leb_gt in E.
  destruct (numel (shape g) mod Z.to_nat n =? 0)%nat; [| discriminate].
  intros H. injection H as <-. split; [exact E |]. eexists. reflexivity.
Qed.

(** A constructed gated layer returns, when it returns, a tensor whose
    last size is the layer's output width, and that width is positive. *)
Lemma ConditionalLinear_forward_last (n_in n_out n_steps : Z) (p : LayerInit)
    (c : ConditionalLinear.t) (x out : Tensor R) (t : Tensor Z) :
  ConditionalLinear.init n_in n_out n_steps p = Ok c ->
  ConditionalLinear.forward c x t = Ok out ->
  (0 < n_out)%Z /\ exists r : list nat, shape out = r ++ [Z.to_nat n_out].
Proof.
  intros Hinit H.
  destruct (ConditionalLinear_init_inv _ _ _ _ Hinit) as (_ & _ & _ & Hc).
  unfold ConditionalLinear.forward in H.
  apply bind_ok_inv in H. destruct H as (o & Ho & H).
  apply bind_ok_inv in H. destruct H as (g & _ & H).
  apply bind_ok_inv in H. destruct H as (g' & Hg' & H).
  apply Linear_forward_last in Ho. destruct Ho as [lead Ho].
  apply view_rows_inv in Hg'. destruct Hg' as [Hpos [k Hg']].
  rewrite Hc in Ho, Hg', Hpos.
  cbn [ConditionalLinear.lin ConditionalLinear.n_outputs Linear.out_features]
    in Ho, Hg', Hpos.
  split; [exact Hpos |].
  destruct (@mul_last g' o out [k] lead _ _ Hg' Ho H)
    as (r & d & Hr & [Hd | Hd] & _); exists r; rewrite Hr, Hd; reflexivity.
Qed.

Lemma cat_rank (tensors : list (option (Tensor R))) (dim : Z) (y : Tensor R) :
  Torch.cat tensors dim = Ok y ->
  exists (s : list nat) (k : nat), shape y = s ++ [k].
Proof.
  unfold Torch.cat. intros H.
  apply bind_ok_inv in H. destruct H as (ts & _ & H).
  destruct ts as [| t0 ts']; [discriminate H |].
  destruct (existsb _ _); [discriminate H |].
  apply bind_ok_inv in H. destruct H as (d & _ & H).
  destruct (negb _); [discriminate H |].
  injection H as <-. cbn [shape].
  match goal with
  | |- context [?pre ++ ?m :: ?post] =>
      destruct (@exists_last _ (pre ++ m :: post)) as (s & k & E)
  end.
  - intros E. apply app_eq_nil in E. destruct E as [_ E]. discriminate E.
  - exists s, k. exact E.
Qed.

End LastSizes.

Section GuidedConvForward.

Local Open Scope R_scope.

Variable Encoder : Type.
Variable encoder_forward : Encoder -> Tensor R -> result (Tensor R).
Variable _get_output_layer_name_and_module : Encoder -> string * Linear.t.
Variable batch_norm : BatchNorm1d.t -> Tensor R -> result (Tensor R).

(** Batch normalisation returns a tensor of the shape it was given. *)
Hypothesis batch_norm_shape :
  forall (bn : BatchNorm1d.t) (x y : Tensor R),
    batch_norm bn x = Ok y -> shape y = shape x.

(** A constructed guided linear model with both flags false raises on
    an input whose last size is not its [y_dim]. *)
Lemma guided_model_width (n_steps x_dim y_dim : Z) (n_hidden : list Z)
    (n_outputs : Z) (act : Module) (params : nat -> LayerInit)
    (m : ConditionalGuidedLinearModel.t) (y : Tensor R) (t : Tensor Z)
    (lead : list nat) (k : nat) :
  ConditionalGuidedLinearModel.init n_steps x_dim y_dim n_hidden n_outputs
    false false act params = Ok m ->
  shape y = lead ++ [k] -> k <> Z.to_nat y_dim ->
  DiffusionSequential.forward batch_norm
    (ConditionalGuidedLinearModel.model m) y t = Raise RuntimeError.
Proof.
  intros Hinit Hy Hk. rewrite init_structure in Hinit. cbv zeta in Hinit.
  replace (y_dim + 0 + 0)%Z with y_dim in Hinit by lia.
  apply bind_ok_inv in Hinit. destruct Hinit as (stack & Hst & Hinit).
  apply bind_ok_inv in Hinit. destruct Hinit as (final & Hf & Hinit).
  injection Hinit as <-. cbn [ConditionalGuidedLinearModel.model].
  destruct n_hidden as [| h rest].
  - injection Hst as <-. cbn [app DiffusionSequential.forward
                                DiffusionSequential.call last] in *.
    assert (Hw : Linear.in_features final = Z.to_nat y_dim).
    { unfold Linear.init in Hf.
      destruct ((y_dim <? 0) || (n_outputs <? 0))%Z; [discriminate Hf |].
      injection Hf as <-. reflexivity. }
    destruct (@Linear_forward_width final y lead k Hy) as [Hbad _].
    rewrite Hw in Hbad.
    rewrite (Hbad Hk). reflexivity.
  - cbn [Props.gated_stack] in Hst.
    apply bind_ok_inv in Hst. destruct Hst as (c & Hc & Hst).
    apply bind_ok_inv in Hst. destruct Hst as (ls & _ & Hst).
    injection Hst as <-.
    cbn [app DiffusionSequential.forward].
    destruct (ConditionalLinear_init_inv _ _ _ _ Hc) as (_ & _ & _ & Hcc).
    destruct (@Linear_forward_width (ConditionalLinear.lin c) y lead k Hy)
      as [Hbad _].
    unfold ConditionalLinear.forward. rewrite Hbad; [reflexivity |].
    rewrite Hcc. exact Hk.
Qed.

(** X21. A convolutional model constructed over a constructed guided
    linear model can only run when the encoder's output layer has width
    1. For any other width, and a batch normalisation that keeps shapes,
    the forward pass raises on every input: the connection module
    returns tensors of the encoder's width, the product with the
    concatenated [y_t] and [y_0_hat] keeps that width, and the inner
    model expects twice as much. *)
Theorem conv_forward_needs_unit_width
    (n_steps x_dim y_dim : Z) (n_hidden : list Z) (n_outputs : Z)
    (cat_x cat_y_pred : bool) (act : Module) (params : nat -> LayerInit)
    (cond_guide_model : ConditionalGuidedLinearModel.t)
    (encoder : Encoder) (connect_init : LayerInit)
    (self : ConditionalGuidedConvModel.t Encoder)
    (x y_t y_0_hat : Tensor R) (t : Tensor Z) :
  ConditionalGuidedLinearModel.init n_steps x_dim y_dim n_hidden n_outputs
    cat_x cat_y_pred act params = Ok cond_guide_model ->
  ConditionalGuidedConvModel.init _get_output_layer_name_and_module
    encoder cond_guide_model connect_init = Ok self ->
  Linear.out_features (snd (_get_output_layer_name_and_module encoder))
  <> 1%nat ->
  exists e : PyError,
    ConditionalGuidedConvModel.forward encoder_forward batch_norm self
      x y_t y_0_hat t = Raise e.
Proof.
  intros Hin Hconv Hw.
  destruct (init_flags _ _ _ _ _ _ _ _ _ Hin) as (Hfx & Hfy & Hyd & _).
  destruct (conv_init_invariant _ _ _ _ Hconv) as (_ & Hx & Hy & Hd & _).
  rewrite Hx in Hfx. rewrite Hy in Hfy. subst cat_x cat_y_pred.
  destruct (conv_init_inv _ _ _ _ Hconv) as (c & Hc & ->).
  set (w := Linear.out_features
              (snd (_get_output_layer_name_and_module encoder))) in *.
  unfold ConditionalGuidedConvModel.forward.
  cbn [ConditionalGuidedConvModel.encoder ConditionalGuidedConvModel.norm
         ConditionalGuidedConvModel.connect_module
         ConditionalGuidedConvModel.cond_guide_model].
  destruct (encoder_forward encoder x) as [x1 | e]; [| eexists; reflexivity].
  cbn [bind].
  destruct (batch_norm _ x1) as [x2 | e]; [| eexists; reflexivity].
  cbn [bind DiffusionSequential.forward].
  destruct (ConditionalLinear.forward c x2 t) as [x3 | e] eqn:E3;
    [| eexists; reflexivity].
  cbn [bind DiffusionSequential.call].
  destruct (batch_norm _ x3) as [x4 | e] eqn:E4; [| eexists; reflexivity].
  cbn [bind SoftplusM DiffusionSequential.call].
  destruct (Torch.cat [Some y_t; Some y_0_hat] (-1)) as [y | e] eqn:Ey;
    [| eexists; reflexivity].
  cbn [bind].
  destruct (Torch.mul (tmap Torch.softplus x4) y) as [product | e] eqn:Em;
    [| eexists; reflexivity].
  cbn [bind].
  unfold ConditionalGuidedLinearModel.forward. rewrite Hx, Hy. cbn [bind].
  destruct (@ConditionalLinear_forward_last _ _ _ _ _ _ _ _ Hc E3)
    as [Hpos [r3 Hs3]].
  rewrite Nat2Z.id in Hs3.
  apply batch_norm_shape in E4.
  destruct (cat_rank _ _ Ey) as (s & k & Hsy).
  assert (Hs4 : shape (tmap Torch.softplus x4) = r3 ++ [w])
    by (cbn [tmap shape]; rewrite E4; exact Hs3).
  destruct (@mul_last _ _ _ _ _ _ _ Hs4 Hsy Em)
    as (rp & d & Hsp & _ & Hdw & _).
  specialize (Hdw Hw). subst d.
  exists RuntimeError.
  apply (@guided_model_width n_steps x_dim y_dim n_hidden n_outputs act params
           cond_guide_model product t rp w Hin Hsp).
  rewrite <- Hyd, Hd. fold w. lia.
Qed.

End GuidedConvForward.

Lemma conv_forward_needs_unit_width_witness :
  (forall (bn : BatchNorm1d.t) (x y : Tensor R),
     (fun (_ : BatchNorm1d.t) (v : Tensor R) => Ok v) bn x = Ok y ->
     shape y = shape x)
  /\ exists (cond_guide_model : ConditionalGuidedLinearModel.t)
            (self : ConditionalGuidedConvModel.t unit),
       ConditionalGuidedLinearModel.init 10 0 4 [8%Z] 1 false false SoftplusM
         (fun _ => mkLayerInit (fun _ _ => 1%R) (fun _ => 0%R) (fun _ _ => 1%R))
       = Ok cond_guide_model
       /\ ConditionalGuidedConvModel.init
            (fun _ : unit =>
               ("fc"%string,
                Linear.mk 3 2 (mkTensor [2; 3]%nat (repeat 0%R 6))
                  (vector [0%R; 0%R])))
            tt cond_guide_model
            (mkLayerInit (fun _ _ => 1%R) (fun _ => 0%R) (fun _ _ => 1%R))
          = Ok self
       /\ Linear.out_features
            (snd ((fun _ : unit =>
                     ("fc"%string,
                      Linear.mk 3 2 (mkTensor [2; 3]%nat (repeat 0%R 6))
                        (vector [0%R; 0%R]))) tt))
          <> 1%nat
       /\ exists e : PyError,
            ConditionalGuidedConvModel.forward
              (fun (_ : unit) (v : Tensor R) => Ok v)
              (fun (_ : BatchNorm1d.t) (v : Tensor R) => Ok v) self
              (mkTensor [1; 2]%nat [1; 2]%R)
              (mkTensor [1; 2]%nat [3; 4]%R)
              (mkTensor [1; 2]%nat [5; 6]%R) (vector [0%Z])
            = Raise e.
Proof.
  assert (Hbn : forall (bn : BatchNorm1d.t) (x y : Tensor R),
            (fun (_ : BatchNorm1d.t) (v : Tensor R) => Ok v) bn x = Ok y ->
            shape y = shape x).
  { intros bn x y H. injection H as <-. reflexivity. }
  split; [exact Hbn |].
  destruct (@guided_init_ok 10 0 4 [8%Z] 1 false false SoftplusM
              (fun _ => mkLayerInit (fun _ _ => 1%R) (fun _ => 0%R)
                          (fun _ _ => 1%R))
              ltac:(simpl; lia) ltac:(repeat constructor; lia) ltac:(lia)
              ltac:(right; lia)) as [cgm Hin].
  destruct (init_flags _ _ _ _ _ _ _ _ _ Hin) as (Hfx & Hfy & Hyd & Hns).
  destruct (@conv_init_ok unit
              (fun _ : unit =>
                 ("fc"%string,
                  Linear.mk 3 2 (mkTensor [2; 3]%nat (repeat 0%R 6))
                    (vector [0%R; 0%R])))
              tt cgm
              (mkLayerInit (fun _ _ => 1%R) (fun _ => 0%R) (fun _ _ => 1%R))
              Hfx Hfy ltac:(rewrite Hyd; reflexivity)
              ltac:(rewrite Hns; lia)) as [self Hconv].
  assert (Hw : Linear.out_features
                 (snd ((fun _ : unit =>
                          ("fc"%string,
                           Linear.mk 3 2 (mkTensor [2; 3]%nat (repeat 0%R 6))
                             (vector [0%R; 0%R]))) tt))
               <> 1%nat) by (simpl; lia).
  exists cgm, self. split; [exact Hin |]. split; [exact Hconv |].
  split; [exact Hw |].
  exact (@conv_forward_needs_unit_width unit
           (fun (_ : unit) (v : Tensor R) => Ok v) _
           (fun (_ : BatchNorm1d.t) (v : Tensor R) => Ok v) Hbn
           10 0 4 [8%Z] 1 false false SoftplusM _ cgm tt _ self
           (mkTensor [1; 2]%nat [1; 2]%R) (mkTensor [1; 2]%nat [3; 4]%R)
           (mkTensor [1; 2]%nat [5; 6]%R) (vector [0%Z]) Hin Hconv Hw).
Defined.

(* ================================================================== *)
(** ** The convolutional model over an encoder of width 1 *)

Section GuidedConvUnitWidth.

Local Open Scope R_scope.

Variable Encoder : Type.
Variable encoder_forward : Encoder -> Tensor R -> result (Tensor R).
Variable _get_output_layer_name_and_module : Encoder -> string * Linear.t.
Variable batch_norm : BatchNorm1d.t -> Tensor R -> result (Tensor R).

(** On a batch of rows of its number of features, batch normalisation
    returns a tensor of the same shape. *)
Hypothesis batch_norm_total :
  forall (bn : BatchNorm1d.t) (x : Tensor R) (b : nat),
    shape x = [b; BatchNorm1d.num_features bn] ->
    exists y : Tensor R, batch_norm bn x = Ok y /\ shape y = shape x.

Lemma cat_last_pair (u v : Tensor R) (b n n' : nat) :
  shape u = [b; n] -> shape v = [b; n'] ->
  exists y : Tensor R,
    Torch.cat [Some u; Some v] (-1) = Ok y /\ shape y = [b; (n + n')%nat].
Proof.
  intros Hu Hv. unfold Torch.cat. cbn [mapM bind existsb].
  rewrite Hu, Hv. cbn [length Nat.eqb orb].
  change (Torch.normalize_dim (-1) 2) with (Ok (A:=nat) 1%nat).
  cbn [bind forallb]. rewrite Hu, Hv.
  unfold Torch.same_except. cbn [length Nat.eqb firstn skipn andb].
  rewrite !shape_eqb_refl. cbn [andb negb].
  eexists. split; [reflexivity |].
  cbn [shape firstn skipn map nth list_sum fold_right app].
  rewrite Hu, Hv. cbn [nth]. rewrite Nat.add_0_r. reflexivity.
Qed.

Lemma mul_unit_column (a c : Tensor R) (b k : nat) :
  shape a = [b; 1%nat] -> shape c = [b; k] ->
  exists out : Tensor R, Torch.mul a c = Ok out /\ shape out = [b; k].
Proof.
  intros Ha Hc. unfold Torch.mul, Torch.broadcast_op, Torch.broadcast_shapes.
  rewrite Ha, Hc. cbn [rev app Torch.broadcast_rev].
  destruct (1 =? k)%nat eqn:E; rewrite ?Nat.eqb_refl;
    cbn [Nat.eqb bind fmap rev app];
    eexists; (split; [reflexivity |]); cbn [shape]; [| reflexivity].
  apply Nat.eqb_eq in E. subst k. reflexivity.
Qed.

Lemma Linear_init_features (n_in n_out : Z) (w : nat -> nat -> R)
    (b : nat -> R) (l : Linear.t) :
  Linear.init n_in n_out w b = Ok l ->
  Linear.in_features l = Z.to_nat n_in
  /\ Linear.out_features l = Z.to_nat n_out
  /\ (0 <= n_in)%Z /\ (0 <= n_out)%Z.
Proof.
  unfold Linear.init.
  destruct ((n_in <? 0) || (n_out <? 0))%Z eqn:E; [discriminate |].
  intros H. injection H as <-.
  apply orb_false_iff in E. destruct E as [E1 E2].
  apply Z.ltb_ge in E1, E2. repeat split; assumption.
Qed.

(** X22. Over an encoder whose output layer has width 1 the
    convolutional model runs: with positive hidden widths, one step
    index in range per row, an encoder output of one column, and [y_t]
    and [y_0_hat] of two columns together, the forward pass returns one
    row of [n_outputs] entries per step index. *)
Theorem conv_forward_unit_width
    (n_steps x_dim y_dim : Z) (n_hidden : list Z) (n_outputs : Z)
    (cat_x cat_y_pred : bool) (f : R -> R) (params : nat -> LayerInit)
    (cond_guide_model : ConditionalGuidedLinearModel.t)
    (encoder : Encoder) (connect_init : LayerInit)
    (self : ConditionalGuidedConvModel.t Encoder)
    (x encoded y_t y_0_hat : Tensor R) (t : Tensor Z) (a a' : nat) :
  ConditionalGuidedLinearModel.init n_steps x_dim y_dim n_hidden n_outputs
    cat_x cat_y_pred (ActivationM f) params = Ok cond_guide_model ->
  ConditionalGuidedConvModel.init _get_output_layer_name_and_module
    encoder cond_guide_model connect_init = Ok self ->
  Linear.out_features (snd (_get_output_layer_name_and_module encoder))
  = 1%nat ->
  Forall (fun h => 0 < h)%Z n_hidden ->
  Props.index_batch (Z.to_nat n_steps) t ->
  encoder_forward encoder x = Ok encoded ->
  shape encoded = [length (data t); 1%nat] ->
  shape y_t = [length (data t); a] ->
  shape y_0_hat = [length (data t); a'] ->
  (a + a' = 2)%nat ->
  exists out : Tensor R,
    ConditionalGuidedConvModel.forward encoder_forward batch_norm self
      x y_t y_0_hat t = Ok out
    /\ shape out = [length (data t); Z.to_nat n_outputs].
Proof.
  intros Hin Hconv Hw Hhid Ht Henc Hse Hsy Hsy0 Ha.
  destruct (init_flags _ _ _ _ _ _ _ _ _ Hin) as (Hfx & Hfy & Hyd & Hns).
  destruct (conv_init_invariant _ _ _ _ Hconv) as (_ & Hx & Hy & Hd & _).
  rewrite Hx in Hfx. rewrite Hy in Hfy. subst cat_x cat_y_pred.
  destruct (conv_init_inv _ _ _ _ Hconv) as (c & Hc & ->).
  rewrite Hw in *. rewrite Hns in Hc. rewrite Hyd in Hd.
  destruct (ConditionalLinear_init_inv _ _ _ _ Hc) as (_ & _ & Hsteps & Hcc).
  unfold ConditionalGuidedConvModel.forward.
  cbn [ConditionalGuidedConvModel.encoder ConditionalGuidedConvModel.norm
         ConditionalGuidedConvModel.connect_module
         ConditionalGuidedConvModel.cond_guide_model].
  rewrite Henc. cbn [bind].
  destruct (@batch_norm_total (BatchNorm1d.mk 1 BatchNorm1d.default_eps)
              encoded (length (data t)) Hse) as (x2 & -> & Hs2).
  cbn [bind DiffusionSequential.forward].
  destruct (@ConditionalLinear_forward_batch c x2 t 1%nat)
    as (x3 & -> & Hs3).
  { rewrite Hcc. reflexivity. }
  { rewrite Hcc. reflexivity. }
  { rewrite Hcc. reflexivity. }
  { lia. }
  { rewrite Hs2, Hse, Hcc. reflexivity. }
  { rewrite Hcc. exact Ht. }
  cbn [bind DiffusionSequential.call].
  destruct (@batch_norm_total (BatchNorm1d.mk 1 (INR 1)) x3
              (length (data t)) Hs3) as (x4 & -> & Hs4).
  cbn [bind SoftplusM DiffusionSequential.call].
  destruct (@cat_last_pair y_t y_0_hat _ _ _ Hsy Hsy0) as (y & -> & Hy2).
  cbn [bind]. rewrite Ha in Hy2.
  destruct (@mul_unit_column (tmap Torch.softplus x4) y (length (data t)) 2)
    as (product & -> & Hsp).
  { cbn [tmap shape]. rewrite Hs4. exact Hs3. }
  { exact Hy2. }
  cbn [bind].
  unfold ConditionalGuidedLinearModel.forward. rewrite Hx, Hy. cbn [bind].
  rewrite init_structure in Hin. cbv zeta in Hin.
  replace (y_dim + 0 + 0)%Z with 2%Z in Hin by lia.
  apply bind_ok_inv in Hin. destruct Hin as (stack & Hst & Hin).
  apply bind_ok_inv in Hin. destruct Hin as (final & Hf & Hin).
  injection Hin as <-. cbn [ConditionalGuidedLinearModel.model].
  destruct (@gated_stack_run batch_norm f n_steps params n_hidden 0 2
              product t Hsteps ltac:(lia) Hhid Ht Hsp)
    as (stack' & h & Hst' & Hrun & Hsh).
  rewrite Hst in Hst'. injection Hst' as <-.
  rewrite forward_app, Hrun. cbn [bind DiffusionSequential.forward
                                    DiffusionSequential.call].
  destruct (Linear_init_features _ _ _ _ Hf) as (Hfi & Hfo & _ & _).
  destruct (@Linear_forward_batch final h (length (data t)))
    as (out & -> & Hso & _).
  { rewrite Hsh, Hfi, last_cons. reflexivity. }
  cbn [bind]. exists out. split; [reflexivity |]. rewrite Hso, Hfo. reflexivity.
Qed.

End GuidedConvUnitWidth.

Lemma conv_forward_unit_width_witness :
  (forall (bn : BatchNorm1d.t) (x : Tensor R) (b : nat),
     shape x = [b; BatchNorm1d.num_features bn] ->
     exists y : Tensor R,
       (fun (_ : BatchNorm1d.t) (v : Tensor R) => Ok v) bn x = Ok y
       /\ shape y = shape x)
  /\ exists (cond_guide_model : ConditionalGuidedLinearModel.t)
            (self : ConditionalGuidedConvModel.t unit),
       ConditionalGuidedLinearModel.init 10 0 2 [4%Z] 1 false false
         (ActivationM Torch.softplus)
         (fun _ => mkLayerInit (fun _ _ => 1%R) (fun _ => 0%R) (fun _ _ => 1%R))
       = Ok cond_guide_model
       /\ ConditionalGuidedConvModel.init
            (fun _ : unit =>
               ("fc"%string,
                Linear.mk 3 1 (mkTensor [1; 3]%nat (repeat 0%R 3))
                  (vector [0%R])))
            tt cond_guide_model
            (mkLayerInit (fun _ _ => 1%R) (fun _ => 0%R) (fun _ _ => 1%R))
          = Ok self
       /\ Linear.out_features
            (snd ((fun _ : unit =>
                     ("fc"%string,
                      Linear.mk 3 1 (mkTensor [1; 3]%nat (repeat 0%R 3))
                        (vector [0%R]))) tt))
          = 1%nat
       /\ Forall (fun h => 0 < h)%Z [4%Z]
       /\ Props.index_batch (Z.to_nat 10) (vector [3; 7]%Z)
       /\ (fun (_ : unit) (v : Tensor R) => Ok v) tt
            (mkTensor [2; 1]%nat [1; 2]%R)
          = Ok (mkTensor [2; 1]%nat [1; 2]%R)
       /\ shape (mkTensor [2; 1]%nat [1; 2]%R)
          = [length (data (vector [3; 7]%Z)); 1%nat]
       /\ shape (mkTensor [2; 1]%nat [3; 4]%R)
          = [length (data (vector [3; 7]%Z)); 1%nat]
       /\ shape (mkTensor [2; 1]%nat [5; 6]%R)
          = [length (data (vector [3; 7]%Z)); 1%nat]
       /\ (1 + 1 = 2)%nat
       /\ exists out : Tensor R,
            ConditionalGuidedConvModel.forward
              (fun (_ : unit) (v : Tensor R) => Ok v)
              (fun (_ : BatchNorm1d.t) (v : Tensor R) => Ok v) self
              (mkTensor [2; 1]%nat [1; 2]%R)
              (mkTensor [2; 1]%nat [3; 4]%R)
              (mkTensor [2; 1]%nat [5; 6]%R) (vector [3; 7]%Z)
            = Ok out
            /\ shape out = [length (data (vector [3; 7]%Z)); Z.to_nat 1].
Proof.
  assert (Hbn : forall (bn : BatchNorm1d.t) (x : Tensor R) (b : nat),
            shape x = [b; BatchNorm1d.num_features bn] ->
            exists y : Tensor R,
              (fun (_ : BatchNorm1d.t) (v : Tensor R) => Ok v) bn x = Ok y
              /\ shape y = shape x).
  { intros bn x b _. exists x. split; reflexivity. }
  split; [exact Hbn |].
  destruct (@guided_init_ok 10 0 2 [4%Z] 1 false false
              (ActivationM Torch.softplus)
              (fun _ => mkLayerInit (fun _ _ => 1%R) (fun _ => 0%R)
                          (fun _ _ => 1%R))
              ltac:(simpl; lia) ltac:(repeat constructor; lia) ltac:(lia)
              ltac:(right; lia)) as [cgm Hin].
  destruct (init_flags _ _ _ _ _ _ _ _ _ Hin) as (Hfx & Hfy & Hyd & Hns).
  destruct (@conv_init_ok unit
              (fun _ : unit =>
                 ("fc"%string,
                  Linear.mk 3 1 (mkTensor [1; 3]%nat (repeat 0%R 3))
                    (vector [0%R])))
              tt cgm
              (mkLayerInit (fun _ _ => 1%R) (fun _ => 0%R) (fun _ _ => 1%R))
              Hfx Hfy ltac:(rewrite Hyd; reflexivity)
              ltac:(rewrite Hns; lia)) as [self Hconv].
  assert (Hhid : Forall (fun h => 0 < h)%Z [4%Z]) by (repeat constructor; lia).
  assert (Ht : Props.index_batch (Z.to_nat 10) (vector [3; 7]%Z)).
  { split; [reflexivity |]. simpl. repeat constructor; lia. }
  exists cgm, self. split; [exact Hin |]. split; [exact Hconv |].
  split; [reflexivity |]. split; [exact Hhid |]. split; [exact Ht |].
  split; [reflexivity |]. split; [reflexivity |]. split; [reflexivity |].
  split; [reflexivity |]. split; [reflexivity |].
  exact (@conv_forward_unit_width unit
           (fun (_ : unit) (v : Tensor R) => Ok v) _
           (fun (_ : BatchNorm1d.t) (v : Tensor R) => Ok v) Hbn
           10 0 2 [4%Z] 1 false false Torch.softplus _ cgm tt _ self
           (mkTensor [2; 1]%nat [1; 2]%R) (mkTensor [2; 1]%nat [1; 2]%R)
           (mkTensor [2; 1]%nat [3; 4]%R) (mkTensor [2; 1]%nat [5; 6]%R)
           (vector [3; 7]%Z) 1%nat 1%nat
           Hin Hconv eq_refl Hhid Ht eq_refl eq_refl eq_refl eq_refl eq_refl).
Defined.

(* ================================================================== *)
(** ** The forward pass of the convolutional model, stage by stage *)

Section GuidedConvStages.

Local Open Scope R_scope.

Variable Encoder : Type.
Variable encoder_forward : Encoder -> Tensor R -> result (Tensor R).
Variable _get_output_layer_name_and_module : Encoder -> string * Linear.t.
Variable batch_norm : BatchNorm1d.t -> Tensor R -> result (Tensor R).

(** On a batch of rows of its number of features, batch normalisation
    returns a tensor of the same shape. *)
Hypothesis batch_norm_total :
  forall (bn : BatchNorm1d.t) (x : Tensor R) (b : nat),
    shape x = [b; BatchNorm1d.num_features bn] ->
    exists y : Tensor R, batch_norm bn x = Ok y /\ shape y = shape x.


End GuidedConvStages.

